(** * WEB_freelance: the project / bid / review lifecycle of the Flask backend

    A shallow embedding of [backend/app/models.py], [backend/app/routes.py]
    and [backend/app/schemas.py].

    - The four SQLAlchemy models are records; a table is the list of its rows
      in insertion order, and the database is a record of four tables.
    - A view function runs in the [Handler] monad: it reads and mutates the
      unit-of-work copy of the database ([db.session]) and publishes it with
      [commit]; an early [return jsonify(...), code] is a returned response, an
      [abort(404)] or an uncaught Python exception leaves through [raise] and
      discards whatever was not committed.
    - Python's float arithmetic, [round] and werkzeug's password hashing are
      taken as an interface ([PyRuntime]); the development is generic in it.
      What a request draws from outside the program, the clock reading and
      the salt of a password digest, is an input of the request. *)

From Stdlib Require Import ZArith List String Ascii Bool Lia.
From Stdlib Require Import Permutation Sorting.Sorted QArith.
Import ListNotations.

Local Open Scope string_scope.
Local Open Scope Z_scope.

(** ** The Python runtime the views rely on *)

(** [py_float] is Python's [float]; [py_truediv a b] is [a / b] on two
    integers, [py_round x n] is [round(x, n)] and [float_zero] is [0.0].
    [generate_password_hash salt password] is werkzeug's function of that
    name: it draws a fresh random salt at every call and returns a digest that
    embeds it, so the salt it draws is an argument here and two calls on one
    password give the same digest only if they draw the same salt. *)
Class PyRuntime : Type := {
  py_float : Type;
  float_zero : py_float;
  py_truediv : Z -> Z -> py_float;
  py_round : py_float -> Z -> py_float;
  generate_password_hash : string -> string -> string
}.

(** An exact-arithmetic instance, used to run the model on concrete requests:
    floats are rationals in lowest terms and [round(x, n)] rounds half to even
    at [n] decimals.  Python rounds the binary float nearest to the quotient,
    so the two can differ at a tie that binary floats do not hold exactly; the
    theorems do not depend on the instance.  A digest spells out its salt and
    its password. *)
Module Exact.

Definition round_half_even (q : Q) : Z :=
  let n := Qnum q in
  let d := Zpos (Qden q) in
  let fl := n / d in
  let r := 2 * (n mod d) in
  if r <? d then fl
  else if d <? r then fl + 1
  else if Z.even fl then fl else fl + 1.

Definition truediv (a b : Z) : Q :=
  if b =? 0 then 0%Q else Qred (Qdiv (inject_Z a) (inject_Z b)).

Definition round (x : Q) (ndigits : Z) : Q :=
  let scale := 10 ^ ndigits in
  Qred (Qdiv (inject_Z (round_half_even (Qmult x (inject_Z scale))))
             (inject_Z scale)).

Definition runtime : PyRuntime :=
  {| py_float := Q;
     float_zero := 0%Q;
     py_truediv := truediv;
     py_round := round;
     generate_password_hash :=
       fun salt password =>
         String.append "pbkdf2$" (String.append salt (String.append "$" password)) |}.

End Exact.

(** ** Generic table operations *)

Section Table.

Context {Row : Type} (pk : Row -> Z).

(** [Model.query.get(k)]: the row whose primary key is [k]. *)
Definition query_get (rows : list Row) (k : Z) : option Row :=
  find (fun r => pk r =? k) rows.

(** The key an autoincrement primary key column gives to the next row. *)
Definition next_id (rows : list Row) : Z :=
  1 + fold_right (fun r m => Z.max (pk r) m) 0 rows.

(** Flushing a modified ORM object: the row with its key is replaced. *)
Definition merge_row (r' : Row) (rows : list Row) : list Row :=
  map (fun r => if pk r =? pk r' then r' else r) rows.

End Table.

(** ** SQL [LIKE]

    [text LIKE pattern] as the database evaluates it when the query gives no
    ESCAPE clause: [%] matches any run of characters, [_] matches any one
    character, and every other character matches itself. *)

Definition ascii_lower (c : ascii) : ascii :=
  let n := nat_of_ascii c in
  if ((65 <=? n) && (n <=? 90))%nat then ascii_of_nat (n + 32) else c.

(** Modelled from the spec: which database engine runs the queries is set in
    the application factory ([app/__init__.py]), which is not among the
    sources.  The specification has the description filter compare without
    regard to case; that is [LIKE] as SQLite evaluates it, where the letters
    of the ASCII range match in either case. *)
Definition eq_ci (c d : ascii) : bool :=
  Ascii.eqb (ascii_lower c) (ascii_lower d).

Definition is_wildcard (c : ascii) : bool :=
  Ascii.eqb c "%" || Ascii.eqb c "_".

Fixpoint like_chars (pattern : list ascii) : list ascii -> bool :=
  match pattern with
  | [] => fun text => match text with [] => true | _ :: _ => false end
  | c :: pattern' =>
      if Ascii.eqb c "%" then
        fix any (text : list ascii) : bool :=
          like_chars pattern' text
          || match text with [] => false | _ :: text' => any text' end
      else
        fun text =>
          match text with
          | [] => false
          | d :: text' =>
              (Ascii.eqb c "_" || eq_ci c d) && like_chars pattern' text'
          end
  end.

Definition sql_like (text pattern : string) : bool :=
  like_chars (list_ascii_of_string pattern) (list_ascii_of_string text).

(** A string in which no character is a [LIKE] wildcard. *)
Definition literal (s : list ascii) : Prop :=
  forallb (fun c => negb (is_wildcard c)) s = true.

(** Containment of [needle] in [hay] as a run of consecutive characters,
    compared without regard to (ASCII) case. *)
Fixpoint prefix_ci (needle hay : list ascii) : bool :=
  match needle, hay with
  | [], _ => true
  | _ :: _, [] => false
  | c :: needle', d :: hay' => eq_ci c d && prefix_ci needle' hay'
  end.

Fixpoint contains_ci (needle hay : list ascii) : bool :=
  prefix_ci needle hay
  || match hay with [] => false | _ :: hay' => contains_ci needle hay' end.

Definition substring_ci (needle hay : string) : bool :=
  contains_ci (list_ascii_of_string needle) (list_ascii_of_string hay).

Section Marketplace.

Context `{RT : PyRuntime}.

(** ** models.py *)

Record User : Type := mkUser {
  user_id : Z;
  user_username : string;
  user_email : string;
  user_password_hash : string;
  user_is_freelancer : bool;
  user_bio : option string;
  user_skills : option string;
  user_ranking_score : py_float
}.

Record Project : Type := mkProject {
  project_id : Z;
  project_title : string;
  project_description : string;
  project_budget : py_float;
  project_status : string;
  project_created_at : Z;
  project_client_id : Z;
  project_freelancer_id : option Z
}.

Record Bid : Type := mkBid {
  bid_id : Z;
  bid_amount : py_float;
  bid_proposal : string;
  bid_created_at : Z;
  bid_project_id : Z;
  bid_freelancer_id : Z
}.

Record Review : Type := mkReview {
  review_id : Z;
  review_rating : Z;
  review_comment : option string;
  review_created_at : Z;
  review_project_id : Z;
  review_reviewer_id : Z;
  review_reviewee_id : Z
}.

Record DB : Type := mkDB {
  users : list User;
  projects : list Project;
  bids : list Bid;
  reviews : list Review
}.

Definition empty_db : DB :=
  {| users := []; projects := []; bids := []; reviews := [] |}.

(** ** The storage boundary

    [User.username] and [User.email] are declared [unique=True]; [Bid] and
    [Review] declare a primary key and foreign keys only.  An INSERT that
    violates a declared constraint is refused (SQLAlchemy raises
    [IntegrityError] when the session is flushed). *)

(** What a [db.Integer] column holds.  The engine that stores the rows is set
    in the application factory, which is not among the sources; it is taken
    to be SQLite, as for [LIKE] above.  Its INTEGER holds a signed 64-bit
    value, and a Python [int] outside that range cannot be bound to a
    statement: the INSERT raises [OverflowError] and stores nothing.
    [Review.rating] is the one [db.Integer] column that a request fills with
    a number of its own.  The bounds are [- 2 ^ 63] and [2 ^ 63]. *)
Definition fits_integer (z : Z) : bool :=
  (-9223372036854775808 <=? z) && (z <? 9223372036854775808).
#[global] Arguments fits_integer : simpl never.

Definition username_taken (db : DB) (name : string) : bool :=
  existsb (fun u => user_username u =? name)%string (users db).

Definition email_taken (db : DB) (mail : string) : bool :=
  existsb (fun u => user_email u =? mail)%string (users db).

Definition insert_user (db : DB) (u : User) : option DB :=
  if username_taken db (user_username u) || email_taken db (user_email u)
  then None
  else Some {| users := users db ++ [u]; projects := projects db;
               bids := bids db; reviews := reviews db |}.

Definition insert_project (db : DB) (p : Project) : option DB :=
  Some {| users := users db; projects := projects db ++ [p];
          bids := bids db; reviews := reviews db |}.

Definition insert_bid (db : DB) (b : Bid) : option DB :=
  Some {| users := users db; projects := projects db;
          bids := bids db ++ [b]; reviews := reviews db |}.

Definition insert_review (db : DB) (r : Review) : option DB :=
  if fits_integer (review_rating r)
  then Some {| users := users db; projects := projects db;
               bids := bids db; reviews := reviews db ++ [r] |}
  else None.

Definition store_user (db : DB) (u : User) : DB :=
  {| users := merge_row user_id u (users db); projects := projects db;
     bids := bids db; reviews := reviews db |}.

Definition store_project (db : DB) (p : Project) : DB :=
  {| users := users db; projects := merge_row project_id p (projects db);
     bids := bids db; reviews := reviews db |}.

(** ** Responses *)

Inductive Body : Type :=
| Msg (msg : string)                  (* jsonify({"msg": msg}) *)
| UserDump (u : User)                 (* user_schema.dump(u) *)
| ProjectDump (p : Project)           (* project_schema.dump(p) *)
| BidDump (b : Bid)                   (* bid_schema.dump(b) *)
| ReviewDump (r : Review)             (* review_schema.dump(r) *)
| HttpError (name : string).          (* abort(...) or an uncaught exception *)

(** A view returns [body, status_code]. *)
Definition Response : Type := (Body * Z)%type.

Definition is_success (r : Response) : bool :=
  (200 <=? snd r) && (snd r <? 300).

(** ** The request monad *)

Record Session : Type := mkSession {
  committed : DB;     (* what the database holds *)
  working : DB        (* db.session: the database as this request sees it *)
}.

Inductive Outcome (A : Type) : Type :=
| Returned (a : A)
| Raised (r : Response).
#[global] Arguments Returned {A} a.
#[global] Arguments Raised {A} r.

Definition Handler (A : Type) : Type := Session -> Outcome A * Session.

Definition ret {A : Type} (a : A) : Handler A :=
  fun s => (Returned a, s).

Definition raise {A : Type} (r : Response) : Handler A :=
  fun s => (Raised r, s).

Definition bind {A B : Type} (m : Handler A) (k : A -> Handler B) : Handler B :=
  fun s => match m s with
           | (Returned a, s') => k a s'
           | (Raised r, s') => (Raised r, s')
           end.

Notation "x <- m ;; k" := (bind m (fun x => k))
  (at level 61, m at next level, right associativity).
Notation "m ;;; k" := (bind m (fun _ => k))
  (at level 61, right associativity).

(** Reading through the session. *)
Definition query : Handler DB :=
  fun s => (Returned (working s), s).

(** [db.session.commit()]. *)
Definition commit : Handler unit :=
  fun s => (Returned tt, {| committed := working s; working := working s |}).

(** [db.session.add(row)] followed by the flush of the INSERT; [refusal] is
    the exception that leaves the view when the store refuses the row. *)
Definition session_add (refusal : string) (ins : DB -> option DB)
    : Handler unit :=
  fun s => match ins (working s) with
           | Some db' => (Returned tt, {| committed := committed s; working := db' |})
           | None => (Raised (HttpError refusal, 500), s)
           end.

(** An attribute assignment on a loaded ORM object. *)
Definition session_store (upd : DB -> DB) : Handler unit :=
  fun s => (Returned tt, {| committed := committed s; working := upd (working s) |}).

(** The session a request starts with: nothing pending. *)
Definition fresh_session (db : DB) : Session :=
  {| committed := db; working := db |}.

(** One request: the view runs on a fresh session and only what it committed
    survives the request (the session is removed at teardown). *)
Definition run (view : Handler Response) (db : DB) : Response * DB :=
  match view (fresh_session db) with
  | (Returned r, s) => (r, committed s)
  | (Raised r, s) => (r, committed s)
  end.

(** The database a helper leaves behind when it is run as a request of its
    own. *)
Definition exec {A : Type} (h : Handler A) (db : DB) : DB :=
  committed (snd (h (fresh_session db))).

(** [get_or_404]. *)
Definition or_404 {A : Type} (o : option A) : Handler A :=
  match o with
  | Some a => ret a
  | None => raise (HttpError "Not Found", 404)
  end.

(** [data['key']] on the request's JSON object. *)
Definition item {A : Type} (o : option A) : Handler A :=
  match o with
  | Some a => ret a
  | None => raise (HttpError "KeyError", 500)
  end.

(** An attribute access on a value that may be [None]. *)
Definition attr {A : Type} (o : option A) : Handler A :=
  match o with
  | Some a => ret a
  | None => raise (HttpError "AttributeError", 500)
  end.

(** [data.get('key', default)]. *)
Definition get_default {A : Type} (o : option A) (default : A) : A :=
  match o with
  | Some a => a
  | None => default
  end.

(** Truth value of an optional integer: [None] and [0] are false. *)
Definition truthy_id (o : option Z) : bool :=
  match o with
  | None => false
  | Some k => negb (k =? 0)
  end.

(** Truth value of an optional string: [None] and [''] are false. *)
Definition truthy_string (o : option string) : bool :=
  match o with
  | None => false
  | Some s => negb (s =? "")%string
  end.

(** ** routes.py: helpers *)

(** [get_user_from_jwt]: [User.query.get(get_jwt_identity())]. *)
Definition get_user_from_jwt (identity : Z) : Handler (option User) :=
  db <- query ;;
  ret (query_get user_id (users db) identity).

(** [user.reviews_received.all()]. *)
Definition reviews_received (db : DB) (uid : Z) : list Review :=
  filter (fun r => review_reviewee_id r =? uid) (reviews db).

(** [sum(r.rating for r in reviews)]. *)
Definition total_rating (rs : list Review) : Z :=
  fold_left (fun acc r => acc + review_rating r) rs 0.

Definition set_ranking_score (u : User) (score : py_float) : User :=
  {| user_id := user_id u; user_username := user_username u;
     user_email := user_email u; user_password_hash := user_password_hash u;
     user_is_freelancer := user_is_freelancer u; user_bio := user_bio u;
     user_skills := user_skills u; user_ranking_score := score |}.

Definition update_user_ranking (uid : Z) : Handler unit :=
  db <- query ;;
  match query_get user_id (users db) uid with
  | None => ret tt
  | Some user =>
      let rs := reviews_received db (user_id user) in
      (match rs with
       | [] => session_store (fun d => store_user d (set_ranking_score user float_zero))
       | _ :: _ =>
           let total := total_rating rs in
           session_store (fun d => store_user d
             (set_ranking_score user
                (py_round (py_truediv total (Z.of_nat (List.length rs))) 2)))
       end) ;;;
      commit
  end.

(** ** routes.py: request bodies

    A field that the JSON body may leave out is an [option]. *)

Record RegisterData : Type := mkRegisterData {
  reg_username : option string;
  reg_email : option string;
  reg_password : option string;
  reg_is_freelancer : option bool
}.

Record ProfileData : Type := mkProfileData {
  prof_bio : option string;
  prof_skills : option string
}.

Record ProjectData : Type := mkProjectData {
  data_title : option string;
  data_description : option string;
  data_budget : option py_float;
  data_status : option string
}.

Record AcceptData : Type := mkAcceptData {
  data_bid_id : option Z
}.

Record BidData : Type := mkBidData {
  data_amount : option py_float;
  data_proposal : option string
}.

Record ReviewData : Type := mkReviewData {
  data_rating : option Z;
  data_comment : option string
}.

(** ** routes.py: the views that write *)

Definition register (salt : string) (data : RegisterData) : Handler Response :=
  db <- query ;;
  mail <- item (reg_email data) ;;
  exists_ <- (if email_taken db mail then ret true
              else name <- item (reg_username data) ;;
                   ret (username_taken db name)) ;;
  if (exists_ : bool) then ret (Msg "Email or username already exists", 400)
  else
    name <- item (reg_username data) ;;
    mail <- item (reg_email data) ;;
    password <- item (reg_password data) ;;
    let new_user :=
      {| user_id := next_id user_id (users db);
         user_username := name;
         user_email := mail;
         user_password_hash := generate_password_hash salt password;
         user_is_freelancer := get_default (reg_is_freelancer data) false;
         user_bio := None;
         user_skills := None;
         user_ranking_score := float_zero |} in
    session_add "IntegrityError" (fun d => insert_user d new_user) ;;;
    commit ;;;
    ret (UserDump new_user, 201).

Definition set_profile (u : User) (bio skills : option string) : User :=
  {| user_id := user_id u; user_username := user_username u;
     user_email := user_email u; user_password_hash := user_password_hash u;
     user_is_freelancer := user_is_freelancer u; user_bio := bio;
     user_skills := skills; user_ranking_score := user_ranking_score u |}.

(** The PUT branch of [my_profile]. *)
Definition my_profile_put (identity : Z) (data : ProfileData) : Handler Response :=
  user <- get_user_from_jwt identity ;;
  user <- attr user ;;
  let bio := match prof_bio data with Some b => Some b | None => user_bio user end in
  let skills := match prof_skills data with Some k => Some k | None => user_skills user end in
  let user' := set_profile user bio skills in
  session_store (fun d => store_user d user') ;;;
  commit ;;;
  ret (UserDump user', 200).

Definition create_project (now identity : Z) (data : ProjectData) : Handler Response :=
  user <- get_user_from_jwt identity ;;
  title <- item (data_title data) ;;
  description <- item (data_description data) ;;
  budget <- item (data_budget data) ;;
  user <- attr user ;;
  db <- query ;;
  let new_project :=
    {| project_id := next_id project_id (projects db);
       project_title := title;
       project_description := description;
       project_budget := budget;
       project_status := "open";
       project_created_at := now;
       project_client_id := user_id user;
       project_freelancer_id := None |} in
  session_add "IntegrityError" (fun d => insert_project d new_project) ;;;
  commit ;;;
  ret (ProjectDump new_project, 201).

Definition set_project_fields (p : Project) (title description : string)
    (budget : py_float) (status : string) : Project :=
  {| project_id := project_id p; project_title := title;
     project_description := description; project_budget := budget;
     project_status := status; project_created_at := project_created_at p;
     project_client_id := project_client_id p;
     project_freelancer_id := project_freelancer_id p |}.

Definition update_project (identity id : Z) (data : ProjectData) : Handler Response :=
  db <- query ;;
  project <- or_404 (query_get project_id (projects db) id) ;;
  user <- get_user_from_jwt identity ;;
  user <- attr user ;;
  if negb (project_client_id project =? user_id user)
  then ret (Msg "Not authorized", 403)
  else
    let project' :=
      set_project_fields project
        (get_default (data_title data) (project_title project))
        (get_default (data_description data) (project_description project))
        (get_default (data_budget data) (project_budget project))
        (get_default (data_status data) (project_status project)) in
    session_store (fun d => store_project d project') ;;;
    commit ;;;
    ret (ProjectDump project', 200).

Definition set_project_assignment (p : Project) (freelancer : option Z)
    (status : string) : Project :=
  {| project_id := project_id p; project_title := project_title p;
     project_description := project_description p;
     project_budget := project_budget p;
     project_status := status; project_created_at := project_created_at p;
     project_client_id := project_client_id p;
     project_freelancer_id := freelancer |}.

Definition accept_bid (identity id : Z) (data : AcceptData) : Handler Response :=
  db <- query ;;
  project <- or_404 (query_get project_id (projects db) id) ;;
  user <- get_user_from_jwt identity ;;
  user <- attr user ;;
  if negb (project_client_id project =? user_id user)
  then ret (Msg "Not authorized", 403)
  else if negb (project_status project =? "open")%string
  then ret (Msg "Project is not open for bidding", 400)
  else
    bid <- or_404 (match data_bid_id data with
                   | Some k => query_get bid_id (bids db) k
                   | None => None
                   end) ;;
    if negb (bid_project_id bid =? project_id project)
    then ret (Msg "Bid does not belong to this project", 400)
    else
      let project' :=
        set_project_assignment project (Some (bid_freelancer_id bid)) "in_progress" in
      session_store (fun d => store_project d project') ;;;
      commit ;;;
      ret (ProjectDump project', 200).

(** [Bid.query.filter_by(project_id=id, freelancer_id=uid).first()]. *)
Definition existing_bid (db : DB) (id uid : Z) : option Bid :=
  find (fun b => (bid_project_id b =? id) && (bid_freelancer_id b =? uid)) (bids db).

Definition place_bid (now identity id : Z) (data : BidData) : Handler Response :=
  user <- get_user_from_jwt identity ;;
  db <- query ;;
  project <- or_404 (query_get project_id (projects db) id) ;;
  user <- attr user ;;
  if negb (user_is_freelancer user)
  then ret (Msg "Only freelancers can bid", 403)
  else if negb (project_status project =? "open")%string
  then ret (Msg "Project is not open for bidding", 400)
  else
    match existing_bid db id (user_id user) with
    | Some _ => ret (Msg "You have already placed a bid on this project", 400)
    | None =>
        amount <- item (data_amount data) ;;
        proposal <- item (data_proposal data) ;;
        let new_bid :=
          {| bid_id := next_id bid_id (bids db);
             bid_amount := amount;
             bid_proposal := proposal;
             bid_created_at := now;
             bid_project_id := id;
             bid_freelancer_id := user_id user |} in
        session_add "IntegrityError" (fun d => insert_bid d new_bid) ;;;
        commit ;;;
        ret (BidDump new_bid, 201)
    end.

(** [Review.query.filter_by(project_id=id, reviewer_id=uid).first()]. *)
Definition existing_review (db : DB) (id uid : Z) : option Review :=
  find (fun r => (review_project_id r =? id) && (review_reviewer_id r =? uid))
       (reviews db).

(** [user.id == project.freelancer_id], where the right side may be [None]. *)
Definition id_is (k : Z) (o : option Z) : bool :=
  match o with
  | Some k' => k =? k'
  | None => false
  end.

Definition post_review (now identity id : Z) (data : ReviewData) : Handler Response :=
  db <- query ;;
  project <- or_404 (query_get project_id (projects db) id) ;;
  user <- get_user_from_jwt identity ;;
  if negb (project_status project =? "completed")%string
  then ret (Msg "Project must be completed to leave a review", 400)
  else
    user <- attr user ;;
    let after_party (reviewee_id : option Z) : Handler Response :=
      if negb (truthy_id reviewee_id)
      then ret (Msg "Cannot review this project (no freelancer assigned)", 400)
      else
        match existing_review db id (user_id user) with
        | Some _ => ret (Msg "You have already reviewed this project", 400)
        | None =>
            rating <- item (data_rating data) ;;
            reviewee <- attr reviewee_id ;;
            let new_review :=
              {| review_id := next_id review_id (reviews db);
                 review_rating := rating;
                 review_comment := data_comment data;
                 review_created_at := now;
                 review_project_id := id;
                 review_reviewer_id := user_id user;
                 review_reviewee_id := reviewee |} in
            session_add "OverflowError" (fun d => insert_review d new_review) ;;;
            commit ;;;
            update_user_ranking reviewee ;;;
            ret (ReviewDump new_review, 201)
        end in
    if user_id user =? project_client_id project
    then after_party (project_freelancer_id project)
    else if id_is (user_id user) (project_freelancer_id project)
    then after_party (Some (project_client_id project))
    else ret (Msg "You are not part of this project", 403).

(** ** The API as a transition system *)

(** A request is what the client sends and, for [Register], the salt that
    [generate_password_hash] draws while the request is served. *)
Inductive Request : Type :=
| Register (salt : string) (data : RegisterData)
| MyProfilePut (token : option Z) (data : ProfileData)
| CreateProject (token : option Z) (data : ProjectData)
| UpdateProject (token : option Z) (id : Z) (data : ProjectData)
| AcceptBid (token : option Z) (id : Z) (data : AcceptData)
| PlaceBid (token : option Z) (id : Z) (data : BidData)
| PostReview (token : option Z) (id : Z) (data : ReviewData).

(** [@jwt_required()]: without a valid token the view is not entered. *)
Definition jwt_required (token : option Z) (view : Z -> Handler Response)
    : Handler Response :=
  match token with
  | Some identity => view identity
  | None => raise (Msg "Missing Authorization Header", 401)
  end.

Definition dispatch (now : Z) (req : Request) : Handler Response :=
  match req with
  | Register salt data => register salt data
  | MyProfilePut token data => jwt_required token (fun i => my_profile_put i data)
  | CreateProject token data => jwt_required token (fun i => create_project now i data)
  | UpdateProject token id data => jwt_required token (fun i => update_project i id data)
  | AcceptBid token id data => jwt_required token (fun i => accept_bid i id data)
  | PlaceBid token id data => jwt_required token (fun i => place_bid now i id data)
  | PostReview token id data => jwt_required token (fun i => post_review now i id data)
  end.

(** Serving one request at clock reading [now]. *)
Definition handle (now : Z) (req : Request) (db : DB) : Response * DB :=
  run (dispatch now req) db.

(** ** routes.py: listing the open projects *)

Fixpoint insert_desc (p : Project) (l : list Project) : list Project :=
  match l with
  | [] => [p]
  | q :: l' =>
      if project_created_at q <=? project_created_at p
      then p :: q :: l'
      else q :: insert_desc p l'
  end.

(** [query.order_by(Project.created_at.desc())]; rows with equal timestamps
    stay in table order. *)
Definition order_by_created_at_desc (l : list Project) : list Project :=
  fold_right insert_desc [] l.

(** The rows [get_projects] serialises, for the query parameter [skill]. *)
Definition get_projects (db : DB) (skill : option string) : list Project :=
  let query := filter (fun p => project_status p =? "open")%string (projects db) in
  let query :=
    match skill with
    | Some skill_query =>
        if truthy_string skill
        then filter (fun p => sql_like (project_description p)
                                (String.append "%" (String.append skill_query "%")))
                    query
        else query
    | None => query
    end in
  order_by_created_at_desc query.

(** Newest first: every row is at least as recent as all the rows after it. *)
Definition newest_first (l : list Project) : Prop :=
  StronglySorted (fun a b => project_created_at b <= project_created_at a) l.

(** ** schemas.py *)

#[local] Unset Elimination Schemes.
Inductive json : Type :=
| JNull
| JBool (b : bool)
| JInt (n : Z)
| JFloat (x : py_float)
| JString (s : string)
| JArray (items : list json)
| JObject (fields : list (string * json)).
#[local] Set Elimination Schemes.

Definition nullable {A : Type} (f : A -> json) (o : option A) : json :=
  match o with
  | Some a => f a
  | None => JNull
  end.

(** [UserPublicSchema]: [Meta.fields] names the four attributes dumped. *)
Definition user_public_dump (u : User) : json :=
  JObject [("id", JInt (user_id u));
           ("username", JString (user_username u));
           ("is_freelancer", JBool (user_is_freelancer u));
           ("ranking_score", JFloat (user_ranking_score u))].

(** A [fields.Nested(UserPublicSchema)] over a relationship to [User]. *)
Definition nested_user (db : DB) (uid : Z) : json :=
  nullable user_public_dump (query_get user_id (users db) uid).

(** [ReviewSchema]: the columns (foreign keys included) and the two nested
    users.  A timestamp is dumped as the clock reading it holds. *)
Definition review_dump (db : DB) (r : Review) : json :=
  JObject [("id", JInt (review_id r));
           ("rating", JInt (review_rating r));
           ("comment", nullable JString (review_comment r));
           ("created_at", JInt (review_created_at r));
           ("project_id", JInt (review_project_id r));
           ("reviewer_id", JInt (review_reviewer_id r));
           ("reviewee_id", JInt (review_reviewee_id r));
           ("reviewer", nested_user db (review_reviewer_id r));
           ("reviewee", nested_user db (review_reviewee_id r))].

(** [BidSchema]. *)
Definition bid_dump (db : DB) (b : Bid) : json :=
  JObject [("id", JInt (bid_id b));
           ("amount", JFloat (bid_amount b));
           ("proposal", JString (bid_proposal b));
           ("created_at", JInt (bid_created_at b));
           ("project_id", JInt (bid_project_id b));
           ("freelancer_id", JInt (bid_freelancer_id b));
           ("freelancer", nested_user db (bid_freelancer_id b))].

(** [ProjectSchema]. *)
Definition project_dump (db : DB) (p : Project) : json :=
  JObject [("id", JInt (project_id p));
           ("title", JString (project_title p));
           ("description", JString (project_description p));
           ("budget", JFloat (project_budget p));
           ("status", JString (project_status p));
           ("created_at", JInt (project_created_at p));
           ("client_id", JInt (project_client_id p));
           ("freelancer_id", nullable JInt (project_freelancer_id p));
           ("client", nested_user db (project_client_id p));
           ("freelancer",
            match project_freelancer_id p with
            | Some uid => nested_user db uid
            | None => JNull
            end);
           ("bids",
            JArray (map (bid_dump db)
                      (filter (fun b => bid_project_id b =? project_id p) (bids db))));
           ("reviews",
            JArray (map (review_dump db)
                      (filter (fun r => review_project_id r =? project_id p)
                              (reviews db))))].

(** [UserSchema]: every column but the excluded [password_hash], and the
    reviews received; the declared [password] field is load-only. *)
Definition user_dump (db : DB) (u : User) : json :=
  JObject [("id", JInt (user_id u));
           ("username", JString (user_username u));
           ("email", JString (user_email u));
           ("is_freelancer", JBool (user_is_freelancer u));
           ("bio", nullable JString (user_bio u));
           ("skills", nullable JString (user_skills u));
           ("ranking_score", JFloat (user_ranking_score u));
           ("reviews_received",
            JArray (map (review_dump db) (reviews_received db (user_id u))))].

(** The JSON a response body is sent as, read from the database the request
    leaves behind. *)
Definition render (db : DB) (b : Body) : json :=
  match b with
  | Msg m => JObject [("msg", JString m)]
  | UserDump u => user_dump db u
  | ProjectDump p => project_dump db p
  | BidDump b => bid_dump db b
  | ReviewDump r => review_dump db r
  | HttpError name => JObject [("error", JString name)]
  end.

(** The party a review by [uid] on [project] is about: the freelancer for the
    client, the client for the freelancer, nobody for anyone else. *)
Definition counterpart (project : Project) (uid : Z) : option (option Z) :=
  if uid =? project_client_id project then Some (project_freelancer_id project)
  else if id_is uid (project_freelancer_id project)
  then Some (Some (project_client_id project))
  else None.

Definition with_review (db : DB) (r : Review) : DB :=
  {| users := users db; projects := projects db;
     bids := bids db; reviews := reviews db ++ [r] |}.

(** The bid a request to accept names: [Bid.query.get(data.get('bid_id'))]. *)
Definition referenced_bid (db : DB) (data : AcceptData) : option Bid :=
  match data_bid_id data with
  | Some k => query_get bid_id (bids db) k
  | None => None
  end.

(** ** The lifecycle invariant of a project

    A freelancer is assigned exactly when the status is [in_progress] or
    [completed]. *)

Definition assigned_status (status : string) : bool :=
  (status =? "in_progress")%string || (status =? "completed")%string.

Definition has_freelancer (p : Project) : bool :=
  match project_freelancer_id p with
  | Some _ => true
  | None => false
  end.

Definition lifecycle_ok (p : Project) : bool :=
  Bool.eqb (has_freelancer p) (assigned_status (project_status p)).

Definition lifecycle_invariant (db : DB) : Prop :=
  forall p, In p (projects db) -> lifecycle_ok p = true.

(** The databases the API can produce from the empty one, serving only
    requests that [allowed] admits in the state they arrive in. *)
Inductive reachable (allowed : DB -> Request -> Prop) : DB -> Prop :=
| reachable_empty : reachable allowed empty_db
| reachable_step (db : DB) (now : Z) (req : Request) :
    reachable allowed db ->
    allowed db req ->
    reachable allowed (snd (handle now req db)).

Definition any_request (db : DB) (req : Request) : Prop := True.

(** An update-project request that leaves the status out, or names a status
    on the same side of {in_progress, completed} as the one the project has;
    every other request. *)
Definition keeps_assignment_side (db : DB) (req : Request) : Prop :=
  match req with
  | UpdateProject _ id data =>
      forall status project,
        data_status data = Some status ->
        query_get project_id (projects db) id = Some project ->
        assigned_status status = assigned_status (project_status project)
  | _ => True
  end.

(** ** A database without its credential digests *)

(** The name of the column that holds the credential digest. *)
Definition digest_key : string := "password_hash".

Definition scrub_user (u : User) : User :=
  {| user_id := user_id u; user_username := user_username u;
     user_email := user_email u; user_password_hash := "";
     user_is_freelancer := user_is_freelancer u; user_bio := user_bio u;
     user_skills := user_skills u; user_ranking_score := user_ranking_score u |}.

Definition scrub_db (db : DB) : DB :=
  {| users := map scrub_user (users db); projects := projects db;
     bids := bids db; reviews := reviews db |}.

Definition scrub_body (b : Body) : Body :=
  match b with
  | UserDump u => UserDump (scrub_user u)
  | other => other
  end.

(** Primary keys are assigned from 1. *)
Definition positive_user_ids (db : DB) : Prop :=
  forall u, In u (users db) -> 0 < user_id u.

(** ** The ranking score as the specification words it

    The mean of the ratings, rounded to 2 decimals; [0.0] without ratings. *)

Definition ratings (rs : list Review) : list Z := map review_rating rs.

Definition mean_rounded (rates : list Z) : py_float :=
  match rates with
  | [] => float_zero
  | _ :: _ =>
      py_round (py_truediv (fold_right Z.add 0 rates) (Z.of_nat (List.length rates))) 2
  end.

(** The ratings of all the Review rows of [rs] whose reviewee is [uid], as the
    specification words the selection; [reviews_received] above is the query
    the code runs. *)
Fixpoint ratings_for (uid : Z) (rs : list Review) : list Z :=
  match rs with
  | [] => []
  | r :: rest =>
      if review_reviewee_id r =? uid
      then review_rating r :: ratings_for uid rest
      else ratings_for uid rest
  end.

(** Whether an object of [j], at any depth, has a field named [k]. *)
Fixpoint has_key (k : string) (j : json) : bool :=
  match j with
  | JArray items => existsb (has_key k) items
  | JObject fields =>
      existsb (fun kv => match kv with
                         | (k', v) => (k' =? k)%string || has_key k v
                         end) fields
  | _ => false
  end.

End Marketplace.

(** * The rest of the API

    The views that only read, the password methods of [User], and the API as
    a whole seen as one transition relation. *)

(** werkzeug's [check_password_hash(pwhash, password)] and
    flask_jwt_extended's [create_access_token(identity=...)]. *)
Class AuthRuntime : Type := {
  check_password_hash : string -> string -> bool;
  create_access_token : Z -> string
}.

(** An instance to run the model on, matching [Exact.runtime]: a digest
    [pbkdf2$salt$password] verifies the password it was made from, whatever
    its salt (a salt holds no [$]), and a token spells out the identity it was
    issued for. *)
Module ExactAuth.

(** What follows the first [$] of [s]. *)
Fixpoint after_dollar (s : string) : string :=
  match s with
  | EmptyString => ""
  | String c s' => if Ascii.eqb c "$" then s' else after_dollar s'
  end.

Fixpoint tally (n : nat) : string :=
  match n with
  | O => ""
  | S n' => String "I" (tally n')
  end.

Definition runtime : AuthRuntime :=
  {| check_password_hash :=
       fun pwhash password =>
         String.prefix "pbkdf2$" pwhash
         && (after_dollar (after_dollar pwhash) =? password)%string;
     create_access_token :=
       fun identity => String.append "jwt:" (tally (Z.to_nat identity)) |}.

End ExactAuth.

Section Views.

Context `{RT : PyRuntime} `{AR : AuthRuntime}.

Notation "x <- m ;; k" := (bind m (fun x => k))
  (at level 61, m at next level, right associativity).

(** ** models.py: the password methods of [User] *)

Definition set_password (salt : string) (u : User) (password : string) : User :=
  {| user_id := user_id u; user_username := user_username u;
     user_email := user_email u;
     user_password_hash := generate_password_hash salt password;
     user_is_freelancer := user_is_freelancer u; user_bio := user_bio u;
     user_skills := user_skills u; user_ranking_score := user_ranking_score u |}.

Definition check_password (u : User) (password : string) : bool :=
  check_password_hash (user_password_hash u) password.

(** ** routes.py: the views that read *)

Record LoginData : Type := mkLoginData {
  login_email : option string;
  login_password : option string
}.

Inductive ReadBody : Type :=
| Plain (b : Body)
| TokenAndUser (access_token : string) (u : User)
    (* jsonify(access_token=access_token, user=user_schema.dump(user)) *)
| MaybeUserDump (u : option User)
    (* user_schema.dump(user), where user may be None *)
| ProjectsDump (ps : list Project).
    (* projects_schema.dump(projects) *)

Definition ReadResponse : Type := (ReadBody * Z)%type.

Definition run_read (view : Handler ReadResponse) (db : DB) : ReadResponse * DB :=
  match view (fresh_session db) with
  | (Returned r, s) => (r, committed s)
  | (Raised (b, code), s) => ((Plain b, code), committed s)
  end.

(** [User.query.filter_by(email=mail).first()]. *)
Definition user_by_email (db : DB) (mail : string) : option User :=
  find (fun u => (user_email u =? mail)%string) (users db).

Definition login (data : LoginData) : Handler ReadResponse :=
  db <- query ;;
  mail <- item (login_email data) ;;
  match user_by_email db mail with
  | Some user =>
      password <- item (login_password data) ;;
      if check_password user password
      then ret (TokenAndUser (create_access_token (user_id user)) user, 200)
      else ret (Plain (Msg "Bad username or password"), 401)
  | None => ret (Plain (Msg "Bad username or password"), 401)
  end.


(** The GET branch of [my_profile]. *)
Definition my_profile_get (identity : Z) : Handler ReadResponse :=
  user <- get_user_from_jwt identity ;;
  ret (MaybeUserDump user, 200).

Definition get_projects_view (skill : option string) : Handler ReadResponse :=
  db <- query ;;
  ret (ProjectsDump (get_projects db skill), 200).

Definition get_project (id : Z) : Handler ReadResponse :=
  db <- query ;;
  project <- or_404 (query_get project_id (projects db) id) ;;
  ret (Plain (ProjectDump project), 200).


(** ** seed.py: the ranking helper of the seeding script

    It skips users without the freelancer flag and leaves the commit to its
    caller. *)

Definition seed_update_user_ranking (uid : Z) : Handler unit :=
  db <- query ;;
  match query_get user_id (users db) uid with
  | None => ret tt
  | Some user =>
      if negb (user_is_freelancer user) then ret tt
      else
        let rs := reviews_received db (user_id user) in
        match rs with
        | [] => session_store (fun d => store_user d (set_ranking_score user float_zero))
        | _ :: _ =>
            let total := total_rating rs in
            session_store (fun d => store_user d
              (set_ranking_score user
                 (py_round (py_truediv total (Z.of_nat (List.length rs))) 2)))
        end
  end.

(** ** What one request can do to the database

    [effect req db db'] lists, view by view, the ways a request [req] served
    on [db] can leave [db'] behind, with what the view has checked on the
    way. *)

Definition with_user (db : DB) (u : User) : DB :=
  {| users := users db ++ [u]; projects := projects db;
     bids := bids db; reviews := reviews db |}.

Definition with_project (db : DB) (p : Project) : DB :=
  {| users := users db; projects := projects db ++ [p];
     bids := bids db; reviews := reviews db |}.

Definition with_bid (db : DB) (b : Bid) : DB :=
  {| users := users db; projects := projects db;
     bids := bids db ++ [b]; reviews := reviews db |}.

Inductive effect (db : DB) : Request -> DB -> Prop :=
| effect_none (req : Request) :
    effect db req db
| effect_register (salt : string) (data : RegisterData) (u : User) :
    user_id u = next_id user_id (users db) ->
    reg_username data = Some (user_username u) ->
    reg_email data = Some (user_email u) ->
    username_taken db (user_username u) = false ->
    email_taken db (user_email u) = false ->
    user_is_freelancer u = get_default (reg_is_freelancer data) false ->
    user_ranking_score u = float_zero ->
    effect db (Register salt data) (with_user db u)
| effect_profile (identity : Z) (data : ProfileData) (u : User) :
    query_get user_id (users db) identity = Some u ->
    effect db (MyProfilePut (Some identity) data)
      (store_user db
         (set_profile u
            (match prof_bio data with Some b => Some b | None => user_bio u end)
            (match prof_skills data with Some k => Some k | None => user_skills u end)))
| effect_create (identity : Z) (data : ProjectData) (u : User) (p : Project) :
    query_get user_id (users db) identity = Some u ->
    project_id p = next_id project_id (projects db) ->
    project_client_id p = identity ->
    project_status p = "open" ->
    project_freelancer_id p = None ->
    data_title data = Some (project_title p) ->
    data_description data = Some (project_description p) ->
    data_budget data = Some (project_budget p) ->
    effect db (CreateProject (Some identity) data) (with_project db p)
| effect_update (identity id : Z) (data : ProjectData) (p : Project) :
    query_get project_id (projects db) id = Some p ->
    project_client_id p = identity ->
    effect db (UpdateProject (Some identity) id data)
      (store_project db
         (set_project_fields p
            (get_default (data_title data) (project_title p))
            (get_default (data_description data) (project_description p))
            (get_default (data_budget data) (project_budget p))
            (get_default (data_status data) (project_status p))))
| effect_accept (identity id : Z) (data : AcceptData) (p : Project) (b : Bid) :
    query_get project_id (projects db) id = Some p ->
    project_client_id p = identity ->
    project_status p = "open" ->
    referenced_bid db data = Some b ->
    bid_project_id b = id ->
    effect db (AcceptBid (Some identity) id data)
      (store_project db
         (set_project_assignment p (Some (bid_freelancer_id b)) "in_progress"))
| effect_bid (identity id : Z) (data : BidData) (p : Project) (u : User) (b : Bid) :
    query_get project_id (projects db) id = Some p ->
    query_get user_id (users db) identity = Some u ->
    user_is_freelancer u = true ->
    project_status p = "open" ->
    existing_bid db id identity = None ->
    bid_id b = next_id bid_id (bids db) ->
    bid_project_id b = id ->
    bid_freelancer_id b = identity ->
    data_amount data = Some (bid_amount b) ->
    data_proposal data = Some (bid_proposal b) ->
    effect db (PlaceBid (Some identity) id data) (with_bid db b)
| effect_review (identity id : Z) (data : ReviewData) (p : Project) (u : User)
    (r : Review) :
    query_get project_id (projects db) id = Some p ->
    query_get user_id (users db) identity = Some u ->
    project_status p = "completed" ->
    counterpart p identity = Some (Some (review_reviewee_id r)) ->
    review_reviewee_id r <> 0 ->
    existing_review db id identity = None ->
    review_id r = next_id review_id (reviews db) ->
    review_project_id r = id ->
    review_reviewer_id r = identity ->
    data_rating data = Some (review_rating r) ->
    fits_integer (review_rating r) = true ->
    review_comment r = data_comment data ->
    effect db (PostReview (Some identity) id data)
      (exec (update_user_ranking (review_reviewee_id r)) (with_review db r)).

(** ** What the API keeps true of its database *)

Definition keys_ok {Row : Type} (pk : Row -> Z) (rows : list Row) : Prop :=
  NoDup (map pk rows) /\ (forall r, In r rows -> 0 < pk r).

Definition known_user (db : DB) (uid : Z) : Prop :=
  exists u, query_get user_id (users db) uid = Some u.

Definition known_freelancer (db : DB) (uid : Z) : Prop :=
  exists u, query_get user_id (users db) uid = Some u
            /\ user_is_freelancer u = true.

Definition known_project (db : DB) (id : Z) : Prop :=
  exists p, query_get project_id (projects db) id = Some p.

Definition bid_pair (b : Bid) : Z * Z := (bid_project_id b, bid_freelancer_id b).

Definition review_pair (r : Review) : Z * Z :=
  (review_project_id r, review_reviewer_id r).

Record well_formed (db : DB) : Prop := mkWellFormed {
  users_keys : keys_ok user_id (users db);
  projects_keys : keys_ok project_id (projects db);
  bids_keys : keys_ok bid_id (bids db);
  reviews_keys : keys_ok review_id (reviews db);
  usernames_unique : NoDup (map user_username (users db));
  emails_unique : NoDup (map user_email (users db));
  project_refs :
    forall p, In p (projects db) ->
      known_user db (project_client_id p)
      /\ (forall f, project_freelancer_id p = Some f -> known_freelancer db f);
  bid_refs :
    forall b, In b (bids db) ->
      known_project db (bid_project_id b)
      /\ known_freelancer db (bid_freelancer_id b);
  review_refs :
    forall r, In r (reviews db) ->
      known_project db (review_project_id r)
      /\ known_user db (review_reviewer_id r)
      /\ known_user db (review_reviewee_id r);
  bid_pairs_unique : NoDup (map bid_pair (bids db));
  review_pairs_unique : NoDup (map review_pair (reviews db))
}.

Definition rankings_current (db : DB) : Prop :=
  forall u, In u (users db) ->
    user_ranking_score u =
    mean_rounded (ratings (reviews_received db (user_id u))).

Definition consistent (db : DB) : Prop :=
  well_formed db /\ rankings_current db.

(** ** What a nested user shows

    A user without the fields that [UserPublicSchema] leaves out. *)
Definition public_part (u : User) : User :=
  {| user_id := user_id u; user_username := user_username u;
     user_email := ""; user_password_hash := "";
     user_is_freelancer := user_is_freelancer u; user_bio := None;
     user_skills := None; user_ranking_score := user_ranking_score u |}.

Definition public_db (db : DB) : DB :=
  {| users := map public_part (users db); projects := projects db;
     bids := bids db; reviews := reviews db |}.

Definition private_field (k : string) : Prop :=
  k = "password_hash" \/ k = "email" \/ k = "bio" \/ k = "skills".

(** Every user of [db] is still there in [db'], under the same key and with
    the same freelancer flag; every project of [db] is still there in [db']
    under the same key. *)
Definition users_kept (db db' : DB) : Prop :=
  forall k u, query_get user_id (users db) k = Some u ->
    exists u', query_get user_id (users db') k = Some u'
               /\ user_is_freelancer u' = user_is_freelancer u.

Definition projects_kept (db db' : DB) : Prop :=
  forall k p, query_get project_id (projects db) k = Some p ->
    exists p', query_get project_id (projects db') k = Some p'.

(** Serving requests one after another, each at its clock reading. *)
Fixpoint serve (requests : list (Z * Request)) (db : DB) : DB :=
  match requests with
  | [] => db
  | (now, req) :: rest => serve rest (snd (handle now req db))
  end.

(** An update-project on project [id] whose body sets the status to [open]. *)
Definition reopens (id : Z) (req : Request) : bool :=
  match req with
  | UpdateProject _ id' data =>
      (id' =? id) && match data_status data with
                     | Some status => (status =? "open")%string
                     | None => false
                     end
  | _ => false
  end.

(** Project [id] is stored and its status is not [open]. *)
Definition closed (db : DB) (id : Z) : Prop :=
  exists p, query_get project_id (projects db) id = Some p
            /\ project_status p <> "open".

End Views.

(** * A marketplace to run the model on

    Alice registers with the freelancer flag set and posts a project; Frank, a
    freelancer, bids on it; Alice accepts, marks the project completed and
    reviews Frank.  Each database is the one the requests before it leave
    behind. *)

Module Scenario.

#[local] Existing Instance Exact.runtime.

Definition alice : Z := 1.
Definition frank : Z := 2.
Definition landing_page : Z := 1.

Definition register_alice : Request :=
  Register "x7Qa"
           {| reg_username := Some "alice"; reg_email := Some "alice@client.com";
              reg_password := Some "pass123"; reg_is_freelancer := Some true |}.

Definition register_frank : Request :=
  Register "k2Lm"
           {| reg_username := Some "frank"; reg_email := Some "frank@data.com";
              reg_password := Some "pass123"; reg_is_freelancer := Some true |}.

Definition project_data : ProjectData :=
  {| data_title := Some "Landing page";
     data_description := Some "Need a React developer";
     data_budget := Some (inject_Z 100);
     data_status := None |}.

Definition status_only (status : string) : ProjectData :=
  {| data_title := None; data_description := None;
     data_budget := None; data_status := Some status |}.

Definition bid_data : BidData :=
  {| data_amount := Some (inject_Z 90); data_proposal := Some "I can do it" |}.

Definition review_data (rating : Z) : ReviewData :=
  {| data_rating := Some rating; data_comment := None |}.

Definition after (now : Z) (req : Request) (db : DB) : DB :=
  snd (handle now req db).

Definition db_users : DB :=
  after 2 register_frank (after 1 register_alice empty_db).

Definition db_created : DB :=
  after 3 (CreateProject (Some alice) project_data) db_users.

Definition db_bidding : DB :=
  after 4 (PlaceBid (Some frank) landing_page bid_data) db_created.

Definition db_in_progress : DB :=
  after 5 (AcceptBid (Some alice) landing_page {| data_bid_id := Some 1 |})
        db_bidding.

Definition db_completed : DB :=
  after 6 (UpdateProject (Some alice) landing_page (status_only "completed"))
        db_in_progress.

Definition db_reviewed : DB :=
  after 7 (PostReview (Some alice) landing_page (review_data 5)) db_completed.

(** Alice reopens the project, bids on it herself, accepts her own bid and
    completes the project again. *)
Definition db_reopened : DB :=
  after 8 (UpdateProject (Some alice) landing_page (status_only "open"))
        db_reviewed.

Definition db_self_hired : DB :=
  after 11 (UpdateProject (Some alice) landing_page (status_only "completed"))
    (after 10 (AcceptBid (Some alice) landing_page {| data_bid_id := Some 2 |})
       (after 9 (PlaceBid (Some alice) landing_page bid_data) db_reopened)).

(** Frank reviews Alice in turn; Alice then hires Frank for a second and a
    third project and reviews him on each. *)
Definition hire_and_complete (t project bid : Z) (db : DB) : DB :=
  after (t + 3) (UpdateProject (Some alice) project (status_only "completed"))
    (after (t + 2) (AcceptBid (Some alice) project {| data_bid_id := Some bid |})
       (after (t + 1) (PlaceBid (Some frank) project bid_data)
          (after t (CreateProject (Some alice) project_data) db))).

Definition db_both_reviewed : DB :=
  after 8 (PostReview (Some frank) landing_page (review_data 2)) db_reviewed.

Definition db_second_reviewed : DB :=
  after 13 (PostReview (Some alice) 2 (review_data 4))
        (hire_and_complete 9 2 2 db_both_reviewed).

Definition db_third_completed : DB :=
  hire_and_complete 14 3 3 db_second_reviewed.

(** Alice marks the fresh project completed before anyone was hired. *)
Definition db_jumped : DB :=
  after 4 (UpdateProject (Some alice) landing_page (status_only "completed"))
        db_created.

Definition alice_row : User :=
  {| user_id := 1; user_username := "alice"; user_email := "alice@client.com";
     user_password_hash := "pbkdf2$x7Qa$pass123"; user_is_freelancer := true;
     user_bio := None; user_skills := None; user_ranking_score := 0%Q |}.

Definition frank_row : User :=
  {| user_id := 2; user_username := "frank"; user_email := "frank@data.com";
     user_password_hash := "pbkdf2$k2Lm$pass123"; user_is_freelancer := true;
     user_bio := None; user_skills := None; user_ranking_score := 0%Q |}.

Definition project_row (status : string) (freelancer : option Z) : Project :=
  {| project_id := 1; project_title := "Landing page";
     project_description := "Need a React developer";
     project_budget := inject_Z 100; project_status := status;
     project_created_at := 3; project_client_id := 1;
     project_freelancer_id := freelancer |}.

Definition frank_bid : Bid :=
  {| bid_id := 1; bid_amount := inject_Z 90; bid_proposal := "I can do it";
     bid_created_at := 4; bid_project_id := 1; bid_freelancer_id := 2 |}.

Definition alice_review : Review :=
  {| review_id := 1; review_rating := 5; review_comment := None;
     review_created_at := 7; review_project_id := 1;
     review_reviewer_id := 1; review_reviewee_id := 2 |}.

Definition frank_reviewed : User :=
  {| user_id := 2; user_username := "frank"; user_email := "frank@data.com";
     user_password_hash := "pbkdf2$k2Lm$pass123"; user_is_freelancer := true;
     user_bio := None; user_skills := None; user_ranking_score := inject_Z 5 |}.

Definition third_review : Review :=
  {| review_id := 4; review_rating := 4; review_comment := None;
     review_created_at := 18; review_project_id := 3;
     review_reviewer_id := 1; review_reviewee_id := 2 |}.

Definition frank_ranked : User :=
  {| user_id := 2; user_username := "frank"; user_email := "frank@data.com";
     user_password_hash := "pbkdf2$k2Lm$pass123"; user_is_freelancer := true;
     user_bio := None; user_skills := None;
     user_ranking_score := (433 # 100)%Q |}.

(** A second bid row of Frank on the same project, and a second review row
    of Alice on it. *)
Definition frank_bid_again : Bid :=
  {| bid_id := 2; bid_amount := inject_Z 80; bid_proposal := "Cheaper";
     bid_created_at := 5; bid_project_id := 1; bid_freelancer_id := 2 |}.

Definition alice_review_again : Review :=
  {| review_id := 2; review_rating := 1; review_comment := None;
     review_created_at := 8; review_project_id := 1;
     review_reviewer_id := 1; review_reviewee_id := 2 |}.

(** The same users with other credential digests. *)
Definition rehash (u : User) : User :=
  {| user_id := user_id u; user_username := user_username u;
     user_email := user_email u; user_password_hash := "scrypt$other";
     user_is_freelancer := user_is_freelancer u; user_bio := user_bio u;
     user_skills := user_skills u; user_ranking_score := user_ranking_score u |}.

Definition db_rehashed : DB :=
  {| users := map rehash (users db_reviewed); projects := projects db_reviewed;
     bids := bids db_reviewed; reviews := reviews db_reviewed |}.

End Scenario.

(** Alice's registration and her login, as request bodies. *)
Module Accounts.

#[local] Existing Instance Exact.runtime.

Definition alice_registration : RegisterData :=
  {| reg_username := Some "alice"; reg_email := Some "alice@client.com";
     reg_password := Some "pass123"; reg_is_freelancer := Some true |}.

Definition alice_login : LoginData :=
  {| login_email := Some "alice@client.com";
     login_password := Some "pass123" |}.

Definition hiring : ProfileData :=
  {| prof_bio := Some "Hiring"; prof_skills := None |}.

End Accounts.

(** * Facts about tables *)

Section TableFacts.

Context {Row : Type} (pk : Row -> Z).

Lemma query_get_some (rows : list Row) (k : Z) (r : Row) :
  query_get pk rows k = Some r -> pk r = k /\ In r rows.
Proof.
  unfold query_get. intros H. apply find_some in H.
  destruct H as [Hin Hk]. apply Z.eqb_eq in Hk. now split.
Qed.

Lemma query_get_none (rows : list Row) (k : Z) :
  query_get pk rows k = None -> forall r, In r rows -> pk r <> k.
Proof.
  unfold query_get. intros H r Hin Hk.
  pose proof (find_none _ _ H r Hin) as Hf. cbv beta in Hf.
  rewrite Hk, Z.eqb_refl in Hf. discriminate.
Qed.

Lemma next_id_bound (rows : list Row) (r : Row) :
  In r rows -> pk r < next_id pk rows.
Proof.
  unfold next_id. induction rows as [|x rows IH]; cbn [fold_right In]; [tauto|].
  intros [->|Hin]; [lia|]. specialize (IH Hin). lia.
Qed.

Lemma next_id_positive (rows : list Row) : 0 < next_id pk rows.
Proof.
  unfold next_id. induction rows as [|x rows IH]; cbn [fold_right]; lia.
Qed.

Lemma next_id_fresh (rows : list Row) :
  query_get pk rows (next_id pk rows) = None.
Proof.
  unfold query_get.
  destruct (find _ rows) as [r|] eqn:Hf; [|reflexivity].
  apply find_some in Hf. destruct Hf as [Hin Hk]. apply Z.eqb_eq in Hk.
  pose proof (next_id_bound rows r Hin). lia.
Qed.

Lemma query_get_app (rows : list Row) (r : Row) (k : Z) :
  query_get pk (rows ++ [r]) k =
  match query_get pk rows k with
  | Some x => Some x
  | None => if pk r =? k then Some r else None
  end.
Proof.
  unfold query_get. induction rows as [|x rows IH]; simpl.
  - reflexivity.
  - destruct (pk x =? k); [reflexivity|exact IH].
Qed.

Lemma query_get_merge_hit (rows : list Row) (r' x : Row) :
  query_get pk rows (pk r') = Some x ->
  query_get pk (merge_row pk r' rows) (pk r') = Some r'.
Proof.
  unfold query_get, merge_row.
  induction rows as [|y rows IH]; simpl; [discriminate|].
  destruct (pk y =? pk r') eqn:E.
  - intros _. now rewrite Z.eqb_refl.
  - rewrite E. exact IH.
Qed.

Lemma query_get_merge_miss (rows : list Row) (r' : Row) (k : Z) :
  k <> pk r' ->
  query_get pk (merge_row pk r' rows) k = query_get pk rows k.
Proof.
  intros Hk. unfold query_get, merge_row.
  induction rows as [|y rows IH]; simpl; [reflexivity|].
  destruct (pk y =? pk r') eqn:E.
  - apply Z.eqb_eq in E.
    replace (pk r' =? k) with false by (symmetry; apply Z.eqb_neq; lia).
    replace (pk y =? k) with false by (symmetry; apply Z.eqb_neq; lia).
    exact IH.
  - destruct (pk y =? k); [reflexivity|exact IH].
Qed.

Lemma in_merge_row (rows : list Row) (r' x : Row) :
  In x (merge_row pk r' rows) -> x = r' \/ In x rows.
Proof.
  unfold merge_row. rewrite in_map_iff. intros [y [Hy Hin]].
  destruct (pk y =? pk r'); subst; auto.
Qed.

Lemma in_merge_row_hit (rows : list Row) (r' x : Row) :
  In x (merge_row pk r' rows) -> pk x = pk r' -> x = r'.
Proof.
  unfold merge_row. rewrite in_map_iff. intros [y [Hy Hin]] Hx.
  destruct (Z.eqb_spec (pk y) (pk r')) as [E|E]; subst; [reflexivity|].
  contradiction.
Qed.

End TableFacts.

(** * Facts about [LIKE] *)

Section LikeFacts.

Lemma like_any (pattern text : list ascii) :
  like_chars ("%"%char :: pattern) text =
  like_chars pattern text
  || match text with
     | [] => false
     | _ :: text' => like_chars ("%"%char :: pattern) text'
     end.
Proof. destruct text; reflexivity. Qed.

Lemma like_one (c : ascii) (pattern text : list ascii) :
  is_wildcard c = false ->
  like_chars (c :: pattern) text =
  match text with
  | [] => false
  | d :: text' => eq_ci c d && like_chars pattern text'
  end.
Proof.
  unfold is_wildcard. intros Hc. apply orb_false_elim in Hc.
  destruct Hc as [Hpct Hund]. cbn [like_chars]. rewrite Hpct.
  destruct text as [|d text']; [reflexivity|]. now rewrite Hund.
Qed.

Lemma like_trailing_any (text : list ascii) :
  like_chars ["%"%char] text = true.
Proof.
  induction text as [|d text IH]; [reflexivity|].
  rewrite like_any, IH. apply orb_true_r.
Qed.

Lemma like_literal_prefix (s text : list ascii) :
  literal s -> like_chars (s ++ ["%"%char]) text = prefix_ci s text.
Proof.
  unfold literal. revert text.
  induction s as [|c s IH]; intros text Hlit.
  - cbn [app]. rewrite like_trailing_any. now destruct text.
  - cbn [forallb] in Hlit. apply andb_prop in Hlit. destruct Hlit as [Hc Hs].
    apply negb_true_iff in Hc. cbn [app]. rewrite (like_one c _ _ Hc).
    destruct text as [|d text]; [reflexivity|].
    cbn [prefix_ci]. now rewrite IH.
Qed.

Lemma like_literal_contains (s text : list ascii) :
  literal s ->
  like_chars ("%"%char :: s ++ ["%"%char]) text = contains_ci s text.
Proof.
  intros Hlit. induction text as [|d text IH].
  - rewrite like_any, like_literal_prefix by exact Hlit. reflexivity.
  - rewrite like_any, like_literal_prefix by exact Hlit.
    cbn [contains_ci]. now rewrite IH.
Qed.

Lemma list_ascii_of_append (a b : string) :
  list_ascii_of_string (String.append a b) =
  (list_ascii_of_string a ++ list_ascii_of_string b)%list.
Proof.
  induction a as [|c a IH]; [reflexivity|]. cbn. now rewrite IH.
Qed.

Lemma sql_like_contains (text needle : string) :
  literal (list_ascii_of_string needle) ->
  sql_like text (String.append "%" (String.append needle "%")) =
  substring_ci needle text.
Proof.
  intros Hlit. unfold sql_like, substring_ci.
  rewrite !list_ascii_of_append.
  exact (like_literal_contains _ _ Hlit).
Qed.

Lemma eq_ci_lower (c d : ascii) :
  eq_ci c d = true <-> ascii_lower c = ascii_lower d.
Proof. unfold eq_ci. apply Ascii.eqb_eq. Qed.

Lemma prefix_ci_spec (s text : list ascii) :
  prefix_ci s text = true <->
  exists mid post,
    text = (mid ++ post)%list /\ map ascii_lower mid = map ascii_lower s.
Proof.
  revert text. induction s as [|c s IH]; intros text.
  - cbn. split; [intros _|reflexivity]. now exists [], text.
  - destruct text as [|d text]; cbn [prefix_ci].
    + split; [discriminate|]. intros (mid & post & Ht & Hm).
      destruct mid; discriminate.
    + rewrite andb_true_iff, eq_ci_lower, IH. split.
      * intros (Hcd & mid & post & -> & Hm). exists (d :: mid), post.
        cbn. split; [reflexivity|]. now rewrite Hm, Hcd.
      * intros (mid & post & Ht & Hm). destruct mid as [|e mid];
          [discriminate|]. cbn in Ht, Hm. injection Ht as -> ->.
        injection Hm as Hcd Hm. split; [now symmetry|]. now exists mid, post.
Qed.

Lemma contains_ci_spec (s text : list ascii) :
  contains_ci s text = true <->
  exists pre mid post,
    text = (pre ++ mid ++ post)%list /\
    map ascii_lower mid = map ascii_lower s.
Proof.
  induction text as [|d text IH]; cbn [contains_ci].
  - rewrite orb_false_r, prefix_ci_spec. split.
    + intros (mid & post & Ht & Hm). now exists [], mid, post.
    + intros (pre & mid & post & Ht & Hm). symmetry in Ht.
      apply app_eq_nil in Ht. destruct Ht as [-> Ht]. now exists mid, post.
  - rewrite orb_true_iff, prefix_ci_spec, IH. split.
    + intros [(mid & post & Ht & Hm)|(pre & mid & post & -> & Hm)].
      * now exists [], mid, post.
      * now exists (d :: pre), mid, post.
    + intros (pre & mid & post & Ht & Hm). destruct pre as [|e pre].
      * left. now exists mid, post.
      * right. cbn in Ht. injection Ht as -> ->. now exists pre, mid, post.
Qed.

End LikeFacts.

(** * Properties of the views *)

Section MarketplaceFacts.

Context `{RT : PyRuntime}.

(** Case analysis on the next test a view makes. *)
Ltac view_case :=
  match goal with
  | |- context [match ?x with _ => _ end] =>
      lazymatch x with
      | context [match _ with _ => _ end] => fail
      | _ => destruct x eqn:?
      end
  end.

Ltac unfold_views :=
  unfold handle, dispatch, jwt_required, register, my_profile_put,
    create_project, update_project, accept_bid, place_bid, post_review,
    update_user_ranking, get_user_from_jwt, run, fresh_session, bind, ret,
    raise, query,
    commit, session_add, session_store, or_404, item, attr,
    insert_user, insert_project, insert_bid, insert_review.

Ltac run_views :=
  cbv beta iota zeta delta
    [handle dispatch jwt_required register my_profile_put create_project
     update_project accept_bid place_bid post_review update_user_ranking
     get_user_from_jwt run fresh_session bind ret raise query commit
     session_add session_store or_404 item attr insert_user insert_project
     insert_bid insert_review fst snd working committed].

(** ** What each view computes, once its rows are found *)

Lemma total_rating_sum (rs : list Review) :
  total_rating rs = fold_right Z.add 0 (ratings rs).
Proof.
  unfold total_rating, ratings.
  assert (G : forall acc, fold_left (fun a r => a + review_rating r) rs acc =
                          acc + fold_right Z.add 0 (map review_rating rs)).
  { induction rs as [|r rs IH]; intros acc; simpl; [lia|]. rewrite IH. lia. }
  rewrite G. lia.
Qed.

Lemma update_user_ranking_returns (uid : Z) (s s' : Session) (r : Response) :
  update_user_ranking uid s = (Raised r, s') -> False.
Proof.
  unfold update_user_ranking.
  cbv beta iota zeta delta [bind ret query commit session_store].
  destruct (query_get user_id (users (working s)) uid); [|discriminate].
  destruct (reviews_received (working s) (user_id u)); discriminate.
Qed.

Lemma exec_update_user_ranking (uid : Z) (db : DB) :
  exec (update_user_ranking uid) db =
  match query_get user_id (users db) uid with
  | None => db
  | Some user =>
      store_user db
        (set_ranking_score user (mean_rounded (ratings (reviews_received db uid))))
  end.
Proof.
  unfold exec. unfold_views. cbn -[total_rating].
  destruct (query_get user_id (users db) uid) as [user|] eqn:Hu; [|reflexivity].
  apply query_get_some in Hu. destruct Hu as [-> _].
  pose proof (total_rating_sum (reviews_received db uid)) as Hsum.
  unfold mean_rounded, ratings in *.
  destruct (reviews_received db uid) as [|r rs]; cbn -[total_rating].
  - reflexivity.
  - rewrite Hsum. cbn [map List.length]. rewrite length_map. reflexivity.
Qed.

Lemma run_update_project (identity id : Z) (data : ProjectData) (db : DB)
    (project : Project) (user : User) :
  query_get project_id (projects db) id = Some project ->
  query_get user_id (users db) identity = Some user ->
  run (update_project identity id data) db =
  if project_client_id project =? identity
  then
    let project' :=
      set_project_fields project
        (get_default (data_title data) (project_title project))
        (get_default (data_description data) (project_description project))
        (get_default (data_budget data) (project_budget project))
        (get_default (data_status data) (project_status project)) in
    ((ProjectDump project', 200), store_project db project')
  else ((Msg "Not authorized", 403), db).
Proof.
  intros Hp Hu. destruct (query_get_some _ _ _ _ Hu) as [Hid _].
  unfold_views. cbn. rewrite Hp. cbn. rewrite Hu. cbn. rewrite Hid.
  destruct (project_client_id project =? identity); reflexivity.
Qed.

Lemma run_accept_bid (identity id : Z) (data : AcceptData) (db : DB)
    (project : Project) (user : User) :
  query_get project_id (projects db) id = Some project ->
  query_get user_id (users db) identity = Some user ->
  run (accept_bid identity id data) db =
  if negb (project_client_id project =? identity)
  then ((Msg "Not authorized", 403), db)
  else if negb (project_status project =? "open")%string
  then ((Msg "Project is not open for bidding", 400), db)
  else
    match match data_bid_id data with
          | Some k => query_get bid_id (bids db) k
          | None => None
          end with
    | None => ((HttpError "Not Found", 404), db)
    | Some bid =>
        if negb (bid_project_id bid =? id)
        then ((Msg "Bid does not belong to this project", 400), db)
        else
          let project' :=
            set_project_assignment project (Some (bid_freelancer_id bid))
                                   "in_progress" in
          ((ProjectDump project', 200), store_project db project')
    end.
Proof.
  intros Hp Hu. destruct (query_get_some _ _ _ _ Hu) as [Hid _].
  destruct (query_get_some _ _ _ _ Hp) as [Hpid _].
  unfold_views. cbn. rewrite Hp. cbn. rewrite Hu. cbn. rewrite Hid, Hpid.
  repeat (view_case; cbn); reflexivity.
Qed.

Lemma run_place_bid (now identity id : Z) (data : BidData) (db : DB)
    (project : Project) (user : User) :
  query_get project_id (projects db) id = Some project ->
  query_get user_id (users db) identity = Some user ->
  run (place_bid now identity id data) db =
  if negb (user_is_freelancer user)
  then ((Msg "Only freelancers can bid", 403), db)
  else if negb (project_status project =? "open")%string
  then ((Msg "Project is not open for bidding", 400), db)
  else
    match existing_bid db id identity with
    | Some _ => ((Msg "You have already placed a bid on this project", 400), db)
    | None =>
        match data_amount data, data_proposal data with
        | Some amount, Some proposal =>
            let new_bid :=
              {| bid_id := next_id bid_id (bids db);
                 bid_amount := amount;
                 bid_proposal := proposal;
                 bid_created_at := now;
                 bid_project_id := id;
                 bid_freelancer_id := identity |} in
            ((BidDump new_bid, 201),
             {| users := users db; projects := projects db;
                bids := bids db ++ [new_bid]; reviews := reviews db |})
        | _, _ => ((HttpError "KeyError", 500), db)
        end
    end.
Proof.
  intros Hp Hu. destruct (query_get_some _ _ _ _ Hu) as [Hid _].
  unfold_views. cbn. rewrite Hu. cbn. rewrite Hp. cbn. rewrite Hid.
  repeat (view_case; cbn); reflexivity.
Qed.

Lemma fits_integer_spec (z : Z) :
  fits_integer z = true <-> - 2 ^ 63 <= z < 2 ^ 63.
Proof.
  unfold fits_integer. rewrite andb_true_iff, Z.leb_le, Z.ltb_lt.
  change (2 ^ 63) with 9223372036854775808. tauto.
Qed.

Ltac finish_ranking :=
  match goal with
  | |- context [update_user_ranking ?u ?s0] =>
      let E := fresh "E" in
      destruct (update_user_ranking u s0) as [[[]|?] ?] eqn:E;
      [reflexivity | exfalso; exact (update_user_ranking_returns _ _ _ _ E)]
  end.

Lemma run_post_review (now identity id : Z) (data : ReviewData) (db : DB)
    (project : Project) (user : User) :
  query_get project_id (projects db) id = Some project ->
  query_get user_id (users db) identity = Some user ->
  run (post_review now identity id data) db =
  if negb (project_status project =? "completed")%string
  then ((Msg "Project must be completed to leave a review", 400), db)
  else
    match counterpart project identity with
    | None => ((Msg "You are not part of this project", 403), db)
    | Some None =>
        ((Msg "Cannot review this project (no freelancer assigned)", 400), db)
    | Some (Some reviewee) =>
        if reviewee =? 0
        then ((Msg "Cannot review this project (no freelancer assigned)", 400), db)
        else
          match existing_review db id identity with
          | Some _ => ((Msg "You have already reviewed this project", 400), db)
          | None =>
              match data_rating data with
              | None => ((HttpError "KeyError", 500), db)
              | Some rating =>
                  let new_review :=
                    {| review_id := next_id review_id (reviews db);
                       review_rating := rating;
                       review_comment := data_comment data;
                       review_created_at := now;
                       review_project_id := id;
                       review_reviewer_id := identity;
                       review_reviewee_id := reviewee |} in
                  if fits_integer rating
                  then ((ReviewDump new_review, 201),
                        exec (update_user_ranking reviewee)
                             (with_review db new_review))
                  else ((HttpError "OverflowError", 500), db)
              end
          end
    end.
Proof.
  intros Hp Hu. destruct (query_get_some _ _ _ _ Hu) as [Hid _].
  unfold with_review, counterpart, post_review.
  cbv beta iota zeta delta
    [run exec fresh_session bind ret raise query commit session_add or_404
     item attr get_user_from_jwt insert_review fst snd working committed].
  rewrite Hp, Hu, Hid.
  destruct (project_status project =? "completed")%string; cbn [negb];
    [|reflexivity].
  destruct (identity =? project_client_id project).
  - destruct (project_freelancer_id project) as [f|]; cbn [truthy_id negb];
      [|reflexivity].
    destruct (f =? 0) eqn:Ef; cbn [negb]; [reflexivity|].
    destruct (existing_review db id identity); [reflexivity|].
    destruct (data_rating data) as [rating|]; [|reflexivity].
    cbn [review_rating]. destruct (fits_integer rating); [|reflexivity].
    finish_ranking.
  - destruct (id_is identity (project_freelancer_id project)); [|reflexivity].
    cbn [truthy_id negb].
    destruct (project_client_id project =? 0) eqn:Ec; cbn [negb]; [reflexivity|].
    destruct (existing_review db id identity); [reflexivity|].
    destruct (data_rating data) as [rating|]; [|reflexivity].
    cbn [review_rating]. destruct (fits_integer rating); [|reflexivity].
    finish_ranking.
Qed.

(** C5. A request that fails, whichever it is and for whatever reason,
    leaves the database exactly as it found it, and leaves nothing pending in
    its session either: a failed accept-bid keeps the project's status and
    freelancer, a failed post-review writes no review and changes no ranking
    score. *)
Theorem failed_request_leaves_db_unchanged (now : Z) (req : Request) (db : DB) :
  is_success (fst (handle now req db)) = false ->
  snd (handle now req db) = db
  /\ snd (dispatch now req (fresh_session db)) = fresh_session db.
Proof.
  destruct req; unfold_views; cbn;
    repeat (view_case; cbn); intros H; try (now split); discriminate H.
Qed.

Lemma store_project_lookup (db : DB) (id : Z) (project project' : Project) :
  query_get project_id (projects db) id = Some project ->
  project_id project' = id ->
  query_get project_id (projects (store_project db project')) id = Some project'.
Proof.
  intros Hp Hid. subst id. cbn [store_project projects].
  eapply query_get_merge_hit. exact Hp.
Qed.

(** C4. On an existing project and for an authenticated user, accept-bid
    succeeds exactly when the actor is the project's client, the project is
    open and the bid named by the request exists and belongs to the project.
    On success the project is stored with the bid's freelancer and status
    [in_progress], nothing else changing.  The checks are made in order: a
    user who is not the client gets 403 "Not authorized" (authorization
    error); the client of a project that is not open gets 400 "Project is not
    open for bidding" (state error); the client of an open project naming a
    bid of another project gets 400 "Bid does not belong to this project"
    (validation error). *)
Theorem accept_bid_succeeds_exactly_when
    (identity id : Z) (data : AcceptData) (db : DB)
    (project : Project) (user : User) :
  query_get project_id (projects db) id = Some project ->
  query_get user_id (users db) identity = Some user ->
  let result := run (accept_bid identity id data) db in
  let is_client := identity = project_client_id project in
  let is_open := project_status project = "open" in
  (is_success (fst result) = true <->
   is_client /\ is_open /\
   exists bid, referenced_bid db data = Some bid /\ bid_project_id bid = id)
  /\ (forall bid,
        is_client -> is_open ->
        referenced_bid db data = Some bid -> bid_project_id bid = id ->
        let project' :=
          set_project_assignment project (Some (bid_freelancer_id bid))
                                 "in_progress" in
        result = ((ProjectDump project', 200), store_project db project')
        /\ query_get project_id (projects (snd result)) id = Some project'
        /\ project_freelancer_id project' = Some (bid_freelancer_id bid)
        /\ project_status project' = "in_progress")
  /\ (~ is_client -> result = ((Msg "Not authorized", 403), db))
  /\ (is_client -> ~ is_open ->
      result = ((Msg "Project is not open for bidding", 400), db))
  /\ (forall bid,
        is_client -> is_open ->
        referenced_bid db data = Some bid -> bid_project_id bid <> id ->
        result = ((Msg "Bid does not belong to this project", 400), db)).
Proof.
  intros Hp Hu result is_client is_open. subst result is_client is_open.
  rewrite (run_accept_bid _ _ _ _ _ _ Hp Hu).
  fold (referenced_bid db data).
  destruct (query_get_some _ _ _ _ Hp) as [Hpid _].
  destruct (Z.eqb_spec (project_client_id project) identity) as [Hc|Hc];
    destruct (String.eqb_spec (project_status project) "open") as [Ho|Ho];
    destruct (referenced_bid db data) as [bid|] eqn:Hb;
    try destruct (Z.eqb_spec (bid_project_id bid) id) as [Hbp|Hbp];
    cbn [negb fst snd]; unfold is_success; cbn [fst snd];
    (split; [|split; [|split; [|split]]]);
    try (intros; exfalso; congruence);
    try (intros; reflexivity);
    try (split; [discriminate|]; intros (?&?&?&?&?); exfalso; congruence).
  - split; [intros _|reflexivity].
    repeat split; try congruence. exists bid. now split.
  - intros bid' _ _ Hbid' _. injection Hbid' as <-.
    repeat split.
    apply (store_project_lookup _ _ _ _ Hp). exact Hpid.
Qed.


Lemma reviews_after_ranking (uid : Z) (db : DB) :
  reviews (exec (update_user_ranking uid) db) = reviews db.
Proof.
  rewrite exec_update_user_ranking.
  destruct (query_get user_id (users db) uid); reflexivity.
Qed.


Lemma post_review_needs_rows (now identity id : Z) (data : ReviewData) (db : DB) :
  is_success (fst (run (post_review now identity id data) db)) = true ->
  exists project user,
    query_get project_id (projects db) id = Some project /\
    query_get user_id (users db) identity = Some user.
Proof.
  destruct (query_get project_id (projects db) id) as [project|] eqn:Hp;
    destruct (query_get user_id (users db) identity) as [user|] eqn:Hu.
  - intros _. now exists project, user.
  - unfold post_review.
    cbv beta iota zeta delta
      [run fresh_session bind ret raise query or_404 attr get_user_from_jwt
       fst snd working committed].
    rewrite Hp, Hu.
    destruct (negb (project_status project =? "completed")%string);
      cbn; discriminate.
  - unfold post_review.
    cbv beta iota zeta delta
      [run fresh_session bind ret raise query or_404 fst snd working
       committed].
    rewrite Hp. cbn. discriminate.
  - unfold post_review.
    cbv beta iota zeta delta
      [run fresh_session bind ret raise query or_404 fst snd working
       committed].
    rewrite Hp. cbn. discriminate.
Qed.

(** What a successful post-review leaves behind. *)
Lemma post_review_success (now identity id : Z) (data : ReviewData) (db : DB)
    (review : Review) :
  fst (run (post_review now identity id data) db) = (ReviewDump review, 201) ->
  review_reviewer_id review = identity /\
  review_project_id review = id /\
  snd (run (post_review now identity id data) db) =
  exec (update_user_ranking (review_reviewee_id review)) (with_review db review).
Proof.
  intros Hok.
  destruct (post_review_needs_rows now identity id data db)
    as (project & user & Hp & Hu).
  { rewrite Hok. reflexivity. }
  rewrite (run_post_review _ _ _ _ _ _ _ Hp Hu) in *.
  destruct (negb (project_status project =? "completed")%string);
    [discriminate|].
  destruct (counterpart project identity) as [[reviewee|]|]; try discriminate.
  destruct (reviewee =? 0); [discriminate|].
  destruct (existing_review db id identity); [discriminate|].
  destruct (data_rating data) as [rating|]; [|discriminate].
  destruct (fits_integer rating); [|discriminate].
  cbn [fst snd] in *. injection Hok as <-. now repeat split.
Qed.

Lemma store_user_lookup (db : DB) (uid : Z) (user user' : User) :
  query_get user_id (users db) uid = Some user ->
  user_id user' = uid ->
  query_get user_id (users (store_user db user')) uid = Some user'.
Proof.
  intros Hu Hid. subst uid. cbn [store_user users].
  eapply query_get_merge_hit. exact Hu.
Qed.

Lemma ranking_after_recompute (uid : Z) (db : DB) (user : User) :
  In user (users (exec (update_user_ranking uid) db)) ->
  user_id user = uid ->
  user_ranking_score user = mean_rounded (ratings (reviews_received db uid)).
Proof.
  rewrite exec_update_user_ranking. intros Hin Hid.
  destruct (query_get user_id (users db) uid) as [u|] eqn:Hu.
  - destruct (query_get_some _ _ _ _ Hu) as [Hu_id _].
    cbn [store_user users] in Hin.
    apply in_merge_row_hit in Hin; [|cbn [set_ranking_score user_id]; congruence].
    subst user. reflexivity.
  - exfalso. exact (query_get_none _ _ _ Hu user Hin Hid).
Qed.

Lemma ratings_for_received (db : DB) (uid : Z) :
  ratings_for uid (reviews db) = ratings (reviews_received db uid).
Proof.
  unfold reviews_received, ratings.
  induction (reviews db) as [|r rs IH]; cbn [ratings_for filter map];
    [reflexivity|].
  destruct (review_reviewee_id r =? uid); cbn [map]; now rewrite IH.
Qed.

Lemma ratings_for_nobody (uid : Z) (rs : list Review) :
  (forall r, In r rs -> review_reviewee_id r <> uid) -> ratings_for uid rs = [].
Proof.
  induction rs as [|r rs IH]; cbn [ratings_for]; [reflexivity|]. intros H.
  destruct (Z.eqb_spec (review_reviewee_id r) uid) as [E|_].
  - now elim (H r (or_introl eq_refl)).
  - apply IH. intros x Hx. apply H. now right.
Qed.

(** C1. After a successful post-review the review table is the one of before
    with the new review appended, and every user row whose key is the
    reviewee of the new review holds, as its ranking score, the mean of the
    ratings of all the review rows that name this user as reviewee (the new
    one included, the rows about other users left out), rounded to 2
    decimals.  This is what the ranking calculator stores whenever it is run
    for a user: [round(sum / count, 2)] over exactly the reviews whose
    reviewee is that user, and [0.0] when no review names the user. *)
Theorem post_review_sets_ranking_score (db : DB) :
  (forall now identity id data review reviewee,
     let result := run (post_review now identity id data) db in
     fst result = (ReviewDump review, 201) ->
     In reviewee (users (snd result)) ->
     user_id reviewee = review_reviewee_id review ->
     reviews (snd result) = (reviews db ++ [review])%list
     /\ user_ranking_score reviewee =
        mean_rounded (ratings_for (user_id reviewee) (reviews (snd result))))
  /\ (forall uid user,
        In user (users (exec (update_user_ranking uid) db)) ->
        user_id user = uid ->
        reviews (exec (update_user_ranking uid) db) = reviews db
        /\ user_ranking_score user = mean_rounded (ratings_for uid (reviews db))
        /\ ((forall r, In r (reviews db) -> review_reviewee_id r <> uid) ->
            user_ranking_score user = float_zero)).
Proof.
  split.
  - intros now identity id data review reviewee result Hok Hin Hid.
    subst result.
    destruct (post_review_success _ _ _ _ _ _ Hok) as (_ & _ & Hdb).
    rewrite Hdb in *. rewrite Hid. rewrite reviews_after_ranking.
    split; [reflexivity|].
    rewrite (ranking_after_recompute _ _ _ Hin Hid).
    now rewrite <- ratings_for_received.
  - intros uid user Hin Hid.
    pose proof (ranking_after_recompute _ _ _ Hin Hid) as Hscore.
    rewrite <- ratings_for_received in Hscore.
    split; [apply reviews_after_ranking|]. split; [exact Hscore|].
    intros Hnone. rewrite Hscore, (ratings_for_nobody _ _ Hnone). reflexivity.
Qed.

Lemma existing_bid_found (db : DB) (id uid : Z) (b : Bid) :
  In b (bids db) -> bid_project_id b = id -> bid_freelancer_id b = uid ->
  exists earlier, existing_bid db id uid = Some earlier.
Proof.
  intros Hin Hp Hf. unfold existing_bid.
  destruct (find _ (bids db)) as [e|] eqn:Hfind; [now exists e|].
  pose proof (find_none _ _ Hfind b Hin) as Hno. cbv beta in Hno.
  rewrite Hp, Hf, !Z.eqb_refl in Hno. discriminate.
Qed.

(** C8, as the code has it.  On an existing project and for an authenticated
    user, place-bid succeeds only when the actor is a freelancer, the project
    is open and the actor has no bid on it yet; on success exactly one row is
    appended to the bids, owned by the actor, on this project, with the amount
    and the proposal of the request.  A freelancer who already has a bid on
    the project never gets a second one: the request fails and writes
    nothing, with "You have already placed a bid on this project" while the
    project is open, and with "Project is not open for bidding" once it is
    not. *)
Theorem place_bid_guards
    (now identity id : Z) (data : BidData) (db : DB)
    (project : Project) (user : User) :
  query_get project_id (projects db) id = Some project ->
  query_get user_id (users db) identity = Some user ->
  let result := run (place_bid now identity id data) db in
  (is_success (fst result) = true ->
   user_is_freelancer user = true /\
   project_status project = "open" /\
   (forall b, In b (bids db) ->
              ~ (bid_project_id b = id /\ bid_freelancer_id b = identity)) /\
   exists bid,
     fst result = (BidDump bid, 201)
     /\ bids (snd result) = (bids db ++ [bid])%list
     /\ bid_freelancer_id bid = identity
     /\ bid_project_id bid = id
     /\ data_amount data = Some (bid_amount bid)
     /\ data_proposal data = Some (bid_proposal bid))
  /\ (forall b,
        user_is_freelancer user = true ->
        In b (bids db) -> bid_project_id b = id -> bid_freelancer_id b = identity ->
        is_success (fst result) = false
        /\ snd result = db
        /\ (project_status project = "open" ->
            fst result =
            (Msg "You have already placed a bid on this project", 400))
        /\ (project_status project <> "open" ->
            fst result = (Msg "Project is not open for bidding", 400))).
Proof.
  intros Hp Hu result. subst result.
  rewrite (run_place_bid _ _ _ _ _ _ _ Hp Hu).
  destruct (user_is_freelancer user) eqn:Hfl; cbn [negb].
  2: { split; [cbn; discriminate|]. intros; discriminate. }
  destruct (String.eqb_spec (project_status project) "open") as [Ho|Ho];
    cbn [negb].
  2: { split; [cbn; discriminate|]. intros b _ Hin Hb1 Hb2.
       cbn [fst snd]. repeat split; tauto. }
  destruct (existing_bid db id identity) as [e|] eqn:He.
  { split; [cbn; discriminate|]. intros b _ Hin Hb1 Hb2.
    cbn [fst snd]. repeat split; tauto. }
  assert (Hnone : forall b, In b (bids db) ->
                    ~ (bid_project_id b = id /\ bid_freelancer_id b = identity)).
  { intros b Hin [Hb1 Hb2].
    destruct (existing_bid_found db id identity b Hin Hb1 Hb2) as [e' He'].
    congruence. }
  split.
  - destruct (data_amount data) as [amount|];
      [destruct (data_proposal data) as [proposal|]|];
      try (cbn; discriminate).
    intros _. repeat split; auto.
    eexists. cbn [fst snd bids]. repeat split; reflexivity.
  - intros b _ Hin Hb1 Hb2. exfalso. exact (Hnone b Hin (conj Hb1 Hb2)).
Qed.

(** ** User keys *)

Lemma user_ids_after_store (db : DB) (u u' : User) :
  positive_user_ids db -> In u (users db) -> user_id u' = user_id u ->
  positive_user_ids (store_user db u').
Proof.
  intros Hpos Hin Hid x Hx. cbn [store_user users] in Hx.
  apply in_merge_row in Hx. destruct Hx as [->|Hx]; [|now apply Hpos].
  rewrite Hid. now apply Hpos.
Qed.

Lemma step_keeps_user_ids (now : Z) (req : Request) (db : DB) :
  positive_user_ids db -> positive_user_ids (snd (handle now req db)).
Proof.
  intros Hpos.
  destruct req; run_views; repeat (view_case; cbv beta iota);
    first
      [ exact Hpos
      | match goal with
        | H : query_get user_id (users ?d) _ = Some ?u |- _ =>
            apply (user_ids_after_store d u);
            [exact Hpos|exact (proj2 (query_get_some _ _ _ _ H))|reflexivity]
        end
      | intros x Hx; cbn [users] in Hx; apply in_app_or in Hx;
        destruct Hx as [Hx|[<-|[]]]; [now apply Hpos|apply next_id_positive]
      | intros x Hx; cbn [users store_project] in Hx; now apply Hpos ].
Qed.

(** Every user the API has stored has a positive key. *)
Lemma reachable_user_ids_positive (db : DB) :
  reachable any_request db -> positive_user_ids db.
Proof.
  induction 1 as [|db now req Hreach IH _].
  - intros u [].
  - now apply step_keeps_user_ids.
Qed.

(** C10, as the code has it.  Place-bid never compares the actor with the
    project's client.  A freelancer who is the client of an open project, has
    no bid on it and has not reviewed it before can: place a bid on it; accept
    that bid, which makes them the project's freelancer; mark the project
    completed; and post a review whose reviewer and reviewee are both
    themselves.  The user's key is taken to be nonzero, as every key the
    store assigns is, and the rating to be one the integer column holds. *)
Theorem client_can_hire_and_review_themselves
    (identity id t_bid t_review : Z) (db : DB) (project : Project) (user : User)
    (bid_data : BidData) (amount : py_float) (proposal : string)
    (completion : ProjectData) (review_data : ReviewData) (rating : Z) :
  query_get project_id (projects db) id = Some project ->
  query_get user_id (users db) identity = Some user ->
  identity <> 0 ->
  user_is_freelancer user = true ->
  project_client_id project = identity ->
  project_status project = "open" ->
  existing_bid db id identity = None ->
  existing_review db id identity = None ->
  data_amount bid_data = Some amount ->
  data_proposal bid_data = Some proposal ->
  data_status completion = Some "completed" ->
  data_rating review_data = Some rating ->
  fits_integer rating = true ->
  exists bid db1 accepted db2 completed db3 review db4,
    run (place_bid t_bid identity id bid_data) db = ((BidDump bid, 201), db1)
    /\ bid_freelancer_id bid = identity
    /\ run (accept_bid identity id {| data_bid_id := Some (bid_id bid) |}) db1 =
       ((ProjectDump accepted, 200), db2)
    /\ project_client_id accepted = identity
    /\ project_freelancer_id accepted = Some identity
    /\ run (update_project identity id completion) db2 =
       ((ProjectDump completed, 200), db3)
    /\ project_status completed = "completed"
    /\ run (post_review t_review identity id review_data) db3 =
       ((ReviewDump review, 201), db4)
    /\ review_reviewer_id review = identity
    /\ review_reviewee_id review = identity
    /\ In review (reviews db4).
Proof.
  intros Hp Hu Hnz Hfl Hcl Hopen Hnobid Hnorev Ham Hpr Hst Hrt Hfit.
  destruct (query_get_some _ _ _ _ Hp) as [Hpid _].
  (* the bid *)
  pose proof (run_place_bid t_bid identity id bid_data db project user Hp Hu)
    as R1.
  rewrite Hfl, Hopen, String.eqb_refl, Hnobid, Ham, Hpr in R1.
  cbn [negb] in R1. cbv beta iota zeta in R1.
  set (bid := mkBid _ _ _ _ _ _) in R1.
  set (db1 := mkDB _ _ _ _) in R1.
  (* accepting it *)
  assert (Hb1 : query_get bid_id (bids db1) (bid_id bid) = Some bid).
  { subst db1. cbn [bids]. rewrite query_get_app.
    subst bid. cbn [bid_id]. rewrite next_id_fresh, Z.eqb_refl. reflexivity. }
  pose proof (run_accept_bid identity id {| data_bid_id := Some (bid_id bid) |}
                db1 project user Hp Hu) as R2.
  cbn [data_bid_id] in R2.
  rewrite Hb1, Hcl, Hopen, String.eqb_refl, Z.eqb_refl in R2.
  change (bid_project_id bid) with id in R2. rewrite Z.eqb_refl in R2.
  cbv beta iota zeta in R2. cbn [negb] in R2. cbv beta iota in R2.
  change (bid_freelancer_id bid) with identity in R2.
  set (accepted := set_project_assignment project (Some identity) "in_progress")
    in R2.
  set (db2 := store_project db1 accepted) in R2.
  (* completing the project *)
  assert (Hp2 : query_get project_id (projects db2) id = Some accepted).
  { apply (store_project_lookup db1 id project accepted Hp). exact Hpid. }
  pose proof (run_update_project identity id completion db2 accepted user Hp2 Hu)
    as R3.
  change (project_client_id accepted) with (project_client_id project) in R3.
  rewrite Hcl, Z.eqb_refl, Hst in R3. cbv beta iota zeta in R3.
  cbn [get_default] in R3.
  set (completed := set_project_fields accepted _ _ _ "completed") in R3.
  set (db3 := store_project db2 completed) in R3.
  (* the review *)
  assert (Hp3 : query_get project_id (projects db3) id = Some completed).
  { apply (store_project_lookup db2 id accepted completed Hp2). exact Hpid. }
  pose proof (run_post_review t_review identity id review_data db3 completed
                user Hp3 Hu) as R4.
  change (project_status completed) with "completed" in R4.
  rewrite String.eqb_refl in R4.
  unfold counterpart in R4.
  change (project_client_id completed) with (project_client_id project) in R4.
  change (project_freelancer_id completed) with (Some identity) in R4.
  rewrite Hcl, Z.eqb_refl in R4.
  change (existing_review db3 id identity)
    with (existing_review db id identity) in R4.
  rewrite Hnorev, Hrt in R4.
  replace (identity =? 0) with false in R4 by (symmetry; now apply Z.eqb_neq).
  cbv beta iota zeta in R4. cbn [negb] in R4. cbv beta iota in R4.
  rewrite Hfit in R4.
  set (review := mkReview _ _ _ _ _ _ _) in R4.
  exists bid, db1, accepted, db2, completed, db3, review.
  eexists. repeat split; try eassumption; try reflexivity.
  rewrite reviews_after_ranking. cbn [with_review reviews].
  apply in_or_app. right. now left.
Qed.

(** ** The lifecycle invariant *)

Lemma projects_untouched (now : Z) (req : Request) (db : DB) :
  match req with
  | CreateProject _ _ | UpdateProject _ _ _ | AcceptBid _ _ _ => True
  | _ => projects (snd (handle now req db)) = projects db
  end.
Proof.
  destruct req; try exact I; run_views;
    repeat (view_case; cbv beta iota); reflexivity.
Qed.

Lemma lifecycle_after_insert (db : DB) (p : Project) :
  lifecycle_invariant db -> lifecycle_ok p = true ->
  lifecycle_invariant {| users := users db; projects := projects db ++ [p];
                         bids := bids db; reviews := reviews db |}.
Proof.
  intros Hinv Hp q Hin. cbn [projects] in Hin. apply in_app_or in Hin.
  destruct Hin as [Hin|[<-|[]]]; auto.
Qed.

Lemma lifecycle_after_store (db : DB) (p : Project) :
  lifecycle_invariant db -> lifecycle_ok p = true ->
  lifecycle_invariant (store_project db p).
Proof.
  intros Hinv Hp q Hin. cbn [store_project projects] in Hin.
  apply in_merge_row in Hin. destruct Hin as [->|Hin]; auto.
Qed.

Lemma step_keeps_lifecycle (now : Z) (req : Request) (db : DB) :
  lifecycle_invariant db ->
  keeps_assignment_side db req ->
  lifecycle_invariant (snd (handle now req db)).
Proof.
  intros Hinv Hside.
  pose proof (projects_untouched now req db) as Hsame.
  destruct req;
    try (unfold lifecycle_invariant; rewrite Hsame; exact Hinv); clear Hsame.
  - (* create_project *)
    run_views. repeat (view_case; cbv beta iota); try exact Hinv.
    apply lifecycle_after_insert; [exact Hinv|reflexivity].
  - (* update_project *)
    run_views. repeat (view_case; cbv beta iota); try exact Hinv.
    apply lifecycle_after_store; [exact Hinv|].
    match goal with
    | H : query_get project_id (projects db) id = Some ?p |- _ =>
        destruct (query_get_some _ _ _ _ H) as [_ Hin];
        pose proof (Hinv p Hin) as Hok; cbn [keeps_assignment_side] in Hside;
        unfold lifecycle_ok in *;
        change (has_freelancer (set_project_fields p _ _ _ _))
          with (has_freelancer p);
        cbn [project_status set_project_fields];
        destruct (data_status data) as [status|] eqn:Hst; cbn [get_default];
        [rewrite (Hside status p eq_refl H)|]; exact Hok
    end.
  - (* accept_bid *)
    run_views. repeat (view_case; cbv beta iota); try exact Hinv.
    apply lifecycle_after_store; [exact Hinv|reflexivity].
Qed.

(** C3, as the code has it.  In every database the API can reach from the
    empty one by requests of any kind, provided each update-project request
    leaves the status out or names a status on the same side of
    {in_progress, completed} as the current one, every project has a
    freelancer if and only if its status is [in_progress] or [completed]:
    create-project and accept-bid always preserve this, update-project does
    when its status edit stays on that side. *)
Theorem lifecycle_invariant_without_status_jumps (db : DB) :
  reachable keeps_assignment_side db -> lifecycle_invariant db.
Proof.
  induction 1 as [|db now req Hreach IH Hside].
  - intros p [].
  - now apply step_keeps_lifecycle.
Qed.

(** ** Listing the open projects *)

Lemma insert_desc_perm (p : Project) (l : list Project) :
  Permutation (p :: l) (insert_desc p l).
Proof.
  induction l as [|q l IH]; cbn [insert_desc]; [reflexivity|].
  destruct (project_created_at q <=? project_created_at p); [reflexivity|].
  rewrite perm_swap. now apply perm_skip.
Qed.

Lemma insert_desc_sorted (p : Project) (l : list Project) :
  newest_first l -> newest_first (insert_desc p l).
Proof.
  unfold newest_first. induction 1 as [|q l Hl IH Hq]; cbn [insert_desc].
  - repeat constructor.
  - destruct (Z.leb_spec (project_created_at q) (project_created_at p)) as [Hle|Hlt].
    + constructor; [now constructor|]. constructor; [exact Hle|].
      eapply Forall_impl; [|exact Hq]. cbv beta. intros r Hr. lia.
    + constructor; [exact IH|].
      eapply Permutation_Forall; [apply insert_desc_perm|].
      constructor; [lia|exact Hq].
Qed.

Lemma order_by_perm (l : list Project) :
  Permutation (order_by_created_at_desc l) l.
Proof.
  unfold order_by_created_at_desc.
  induction l as [|p l IH]; cbn [fold_right]; [reflexivity|].
  rewrite <- insert_desc_perm. now apply perm_skip.
Qed.

Lemma order_by_sorted (l : list Project) :
  newest_first (order_by_created_at_desc l).
Proof.
  unfold order_by_created_at_desc.
  induction l as [|p l IH]; cbn [fold_right]; [constructor|].
  now apply insert_desc_sorted.
Qed.

Lemma filter_twice {A : Type} (f g : A -> bool) (l : list A) :
  filter f (filter g l) = filter (fun x => g x && f x) l.
Proof.
  induction l as [|x l IH]; cbn [filter]; [reflexivity|].
  destruct (g x); cbn [filter andb]; [|exact IH].
  destruct (f x); now rewrite IH.
Qed.

(** The rows [get_projects] selects for a filter without wildcards. *)
Lemma get_projects_literal (db : DB) (skill : string) :
  literal (list_ascii_of_string skill) ->
  get_projects db (Some skill) =
  order_by_created_at_desc
    (filter (fun p => (project_status p =? "open")%string
                      && substring_ci skill (project_description p))
            (projects db)).
Proof.
  intros Hlit. unfold get_projects. f_equal.
  destruct (truthy_string (Some skill)) eqn:Ht.
  - rewrite filter_twice. apply filter_ext. intros p.
    now rewrite (sql_like_contains _ _ Hlit).
  - cbn [truthy_string] in Ht. apply negb_false_iff, String.eqb_eq in Ht.
    subst skill. apply filter_ext. intros p.
    unfold substring_ci. cbn [list_ascii_of_string].
    destruct (list_ascii_of_string (project_description p));
      cbn [contains_ci prefix_ci orb]; now rewrite andb_true_r.
Qed.

(** C6, as the code has it.  For a skill filter in which no character is a
    [LIKE] wildcard ([%] or [_]), the listing returns exactly the projects
    whose status is [open] and whose description contains the filter as a run
    of consecutive characters, compared without regard to ASCII case: each
    such row once, and no other row; and it returns them newest first. *)
Theorem get_projects_with_literal_filter (db : DB) (skill : string) :
  literal (list_ascii_of_string skill) ->
  Permutation
    (get_projects db (Some skill))
    (filter (fun p => (project_status p =? "open")%string
                      && substring_ci skill (project_description p))
            (projects db))
  /\ newest_first (get_projects db (Some skill))
  /\ (forall p,
        In p (get_projects db (Some skill)) <->
        In p (projects db)
        /\ project_status p = "open"
        /\ exists pre mid post,
             list_ascii_of_string (project_description p) =
             (pre ++ mid ++ post)%list
             /\ map ascii_lower mid =
                map ascii_lower (list_ascii_of_string skill)).
Proof.
  intros Hlit. rewrite (get_projects_literal db skill Hlit).
  split; [apply order_by_perm|]. split; [apply order_by_sorted|].
  intros p. split.
  - intros Hin. apply (Permutation_in _ (order_by_perm _)) in Hin.
    apply filter_In in Hin. destruct Hin as [Hin Hw].
    apply andb_prop in Hw. destruct Hw as [Ho Hs].
    apply String.eqb_eq in Ho. apply contains_ci_spec in Hs. now repeat split.
  - intros (Hin & Ho & Hs).
    apply (Permutation_in _ (Permutation_sym (order_by_perm _))).
    apply filter_In. split; [exact Hin|]. apply andb_true_intro. split.
    + now apply String.eqb_eq.
    + now apply contains_ci_spec.
Qed.

(** ** Uniqueness: the store and the pre-checks *)

Lemma existing_review_found (db : DB) (id uid : Z) (r : Review) :
  In r (reviews db) -> review_project_id r = id -> review_reviewer_id r = uid ->
  exists earlier, existing_review db id uid = Some earlier.
Proof.
  intros Hin Hp Hr. unfold existing_review.
  destruct (find _ (reviews db)) as [e|] eqn:Hfind; [now exists e|].
  pose proof (find_none _ _ Hfind r Hin) as Hno. cbv beta in Hno.
  rewrite Hp, Hr, !Z.eqb_refl in Hno. discriminate.
Qed.

Lemma taken_spec (f : User -> string) (l : list User) (x : string) :
  existsb (fun u => (f u =? x)%string) l = true <->
  exists u, In u l /\ f u = x.
Proof.
  rewrite existsb_exists. split; intros (u & Hin & Hu); exists u;
    (split; [exact Hin|]); now apply String.eqb_eq.
Qed.

(** C2, as the code has it.  The store enforces uniqueness of [username] and
    of [email]: inserting a user row whose username or email is already
    present is refused.  The Bid and Review tables carry no uniqueness
    constraint: inserting a row (for a review, one whose rating the integer
    column holds) always succeeds and appends it, whatever (project,
    freelancer) or (project, reviewer) pairs are already stored.
    What keeps one request after another from storing a second row for a pair
    is the pre-check of the view: place-bid by a user who has a bid on the
    project, and post-review by a user who has a review on the project, leave
    the database unchanged. *)
Theorem uniqueness_enforced_where_declared (db : DB) :
  (forall u u0,
     In u0 (users db) ->
     user_username u0 = user_username u \/ user_email u0 = user_email u ->
     insert_user db u = None)
  /\ (forall b, exists db',
        insert_bid db b = Some db' /\ bids db' = (bids db ++ [b])%list)
  /\ (forall r, fits_integer (review_rating r) = true -> exists db',
        insert_review db r = Some db' /\ reviews db' = (reviews db ++ [r])%list)
  /\ (forall now identity id data b,
        In b (bids db) -> bid_project_id b = id -> bid_freelancer_id b = identity ->
        snd (run (place_bid now identity id data) db) = db)
  /\ (forall now identity id data r,
        In r (reviews db) ->
        review_project_id r = id -> review_reviewer_id r = identity ->
        snd (run (post_review now identity id data) db) = db).
Proof.
  split; [|split; [|split; [|split]]].
  - intros u u0 Hin Hsame. unfold insert_user, username_taken, email_taken.
    replace (_ || _) with true; [reflexivity|]. symmetry.
    apply orb_true_iff. rewrite !taken_spec.
    destruct Hsame; [left|right]; now exists u0.
  - intros b. eexists. split; reflexivity.
  - intros r Hfit. unfold insert_review. rewrite Hfit.
    eexists. split; reflexivity.
  - intros now identity id data b Hin Hp Hf.
    destruct (existing_bid_found db id identity b Hin Hp Hf) as [e He].
    run_views. repeat (view_case; cbv beta iota); try reflexivity.
    match goal with
    | H : query_get user_id _ identity = Some ?u |- _ =>
        destruct (query_get_some _ _ _ _ H) as [Hid _]; congruence
    end.
  - intros now identity id data r Hin Hp Hr.
    destruct (existing_review_found db id identity r Hin Hp Hr) as [e He].
    run_views. repeat (view_case; cbv beta iota); try reflexivity;
    match goal with
    | H : query_get user_id _ identity = Some ?u |- _ =>
        destruct (query_get_some _ _ _ _ H) as [Hid _]; congruence
    end.
Qed.

(** ** Serialisation *)

Lemma query_get_map {Row : Type} (pk : Row -> Z) (f : Row -> Row)
    (rows : list Row) (k : Z) :
  (forall r, pk (f r) = pk r) ->
  query_get pk (map f rows) k = option_map f (query_get pk rows k).
Proof.
  intros Hpk. unfold query_get. induction rows as [|r rows IH]; cbn [map find].
  - reflexivity.
  - rewrite Hpk. destruct (pk r =? k); [reflexivity|exact IH].
Qed.

Lemma nested_user_scrub (db : DB) (uid : Z) :
  nested_user (scrub_db db) uid = nested_user db uid.
Proof.
  unfold nested_user, scrub_db. cbn [users].
  rewrite (query_get_map user_id scrub_user) by reflexivity.
  now destruct (query_get user_id (users db) uid).
Qed.

Lemma review_dump_scrub (db : DB) (r : Review) :
  review_dump (scrub_db db) r = review_dump db r.
Proof. unfold review_dump. now rewrite !nested_user_scrub. Qed.

Lemma bid_dump_scrub (db : DB) (b : Bid) :
  bid_dump (scrub_db db) b = bid_dump db b.
Proof. unfold bid_dump. now rewrite !nested_user_scrub. Qed.

Lemma render_scrub (db : DB) (b : Body) :
  render (scrub_db db) (scrub_body b) = render db b.
Proof.
  destruct b; cbn [render scrub_body]; try reflexivity.
  - unfold user_dump. cbn [scrub_user user_id user_username user_email
      user_is_freelancer user_bio user_skills user_ranking_score].
    rewrite (map_ext _ _ (review_dump_scrub db)). reflexivity.
  - unfold project_dump. rewrite !nested_user_scrub.
    rewrite (map_ext _ _ (bid_dump_scrub db)).
    rewrite (map_ext _ _ (review_dump_scrub db)).
    destruct (project_freelancer_id p); [now rewrite nested_user_scrub|reflexivity].
  - apply bid_dump_scrub.
  - apply review_dump_scrub.
Qed.

Lemma no_digest_public (u : User) : has_key digest_key (user_public_dump u) = false.
Proof. reflexivity. Qed.

Lemma no_digest_nested (db : DB) (uid : Z) :
  has_key digest_key (nested_user db uid) = false.
Proof. unfold nested_user. now destruct (query_get user_id (users db) uid). Qed.

Lemma no_digest_review (db : DB) (r : Review) :
  has_key digest_key (review_dump db r) = false.
Proof.
  unfold review_dump. cbn [has_key existsb].
  rewrite !no_digest_nested. now destruct (review_comment r).
Qed.

Lemma no_digest_bid (db : DB) (b : Bid) :
  has_key digest_key (bid_dump db b) = false.
Proof.
  unfold bid_dump. cbn [has_key existsb]. now rewrite !no_digest_nested.
Qed.

Lemma no_digest_array {A : Type} (f : A -> json) (l : list A) :
  (forall a, has_key digest_key (f a) = false) ->
  existsb (has_key digest_key) (map f l) = false.
Proof.
  intros Hf. induction l as [|a l IH]; cbn [map existsb]; [reflexivity|].
  now rewrite Hf, IH.
Qed.

Lemma no_digest_render (db : DB) (b : Body) :
  has_key digest_key (render db b) = false.
Proof.
  destruct b; cbn [render]; try reflexivity.
  - unfold user_dump. cbn [has_key existsb].
    rewrite (no_digest_array _ _ (no_digest_review db)).
    now destruct (user_bio u), (user_skills u).
  - unfold project_dump. cbn [has_key existsb].
    rewrite (no_digest_array _ _ (no_digest_review db)).
    rewrite (no_digest_array _ _ (no_digest_bid db)).
    rewrite !no_digest_nested.
    destruct (project_freelancer_id p); cbn [nullable has_key];
      now rewrite ?no_digest_nested.
  - apply no_digest_bid.
  - apply no_digest_review.
Qed.

(** C9. No serialised output carries the credential digest.  Two users that
    differ only in [password_hash], seen in two databases that differ only in
    the [password_hash] of their users, have the same full dump
    ([UserSchema]) and the same public projection ([UserPublicSchema]); the
    same holds for every pair of response bodies that differ only in this
    way; and none of these dumps has, at any depth, a field named
    [password_hash]. *)
Theorem dumps_omit_password_hash
    (db1 db2 : DB) (u1 u2 : User) (b1 b2 : Body) :
  scrub_user u1 = scrub_user u2 ->
  scrub_db db1 = scrub_db db2 ->
  scrub_body b1 = scrub_body b2 ->
  user_dump db1 u1 = user_dump db2 u2
  /\ user_public_dump u1 = user_public_dump u2
  /\ render db1 b1 = render db2 b2
  /\ has_key "password_hash" (user_dump db1 u1) = false
  /\ has_key "password_hash" (user_public_dump u1) = false
  /\ has_key "password_hash" (render db1 b1) = false.
Proof.
  intros Hu Hdb Hb. repeat split.
  - change (render db1 (UserDump u1) = render db2 (UserDump u2)).
    rewrite <- (render_scrub db1), <- (render_scrub db2).
    cbn [scrub_body]. now rewrite Hu, Hdb.
  - change (user_public_dump (scrub_user u1) = user_public_dump (scrub_user u2)).
    now rewrite Hu.
  - rewrite <- (render_scrub db1), <- (render_scrub db2).
    now rewrite Hdb, Hb.
  - exact (no_digest_render db1 (UserDump u1)).
  - exact (no_digest_render db1 b1).
Qed.

End MarketplaceFacts.

(** * More facts about tables *)

Section MoreTableFacts.

Context {Row : Type} (pk : Row -> Z).

Lemma merge_row_keys (r' : Row) (rows : list Row) :
  map pk (merge_row pk r' rows) = map pk rows.
Proof.
  unfold merge_row. rewrite map_map. apply map_ext_in. intros y _.
  destruct (Z.eqb_spec (pk y) (pk r')); congruence.
Qed.

Lemma keys_ok_merge (r' : Row) (rows : list Row) :
  keys_ok pk rows -> keys_ok pk (merge_row pk r' rows).
Proof.
  intros [Hnd Hpos]. split; [now rewrite merge_row_keys|].
  intros x Hx. unfold merge_row in Hx. apply in_map_iff in Hx.
  destruct Hx as (y & Hy & Hin).
  destruct (Z.eqb_spec (pk y) (pk r')) as [E|E]; subst x; [|now apply Hpos].
  rewrite <- E. now apply Hpos.
Qed.

Lemma keys_ok_snoc (r : Row) (rows : list Row) :
  keys_ok pk rows -> pk r = next_id pk rows -> keys_ok pk (rows ++ [r]).
Proof.
  intros [Hnd Hpos] Hr. split.
  - rewrite map_app. cbn [map]. apply NoDup_app; [exact Hnd|repeat constructor; intros []|].
    intros k Hk [<-|[]]. apply in_map_iff in Hk. destruct Hk as (y & Hy & Hin).
    pose proof (next_id_bound pk rows y Hin). lia.
  - intros x Hx. apply in_app_or in Hx. destruct Hx as [Hx|[<-|[]]];
      [now apply Hpos|]. rewrite Hr. apply next_id_positive.
Qed.

Lemma keys_determine_row (rows : list Row) (x y : Row) :
  NoDup (map pk rows) -> In x rows -> In y rows -> pk x = pk y -> x = y.
Proof.
  induction rows as [|z rows IH]; cbn [map In]; [tauto|].
  intros Hnd Hx Hy Hk. inversion Hnd as [|? ? Hnot Hnd']; subst.
  destruct Hx as [->|Hx], Hy as [->|Hy]; auto.
  - exfalso. apply Hnot. rewrite Hk. now apply in_map.
  - exfalso. apply Hnot. rewrite <- Hk. now apply in_map.
Qed.

Lemma query_get_in (rows : list Row) (r : Row) :
  NoDup (map pk rows) -> In r rows -> query_get pk rows (pk r) = Some r.
Proof.
  intros Hnd Hin.
  destruct (query_get pk rows (pk r)) as [x|] eqn:Hx.
  - destruct (query_get_some _ _ _ _ Hx) as [Hk Hin'].
    f_equal. now apply (keys_determine_row rows).
  - exfalso. exact (query_get_none _ _ _ Hx r Hin eq_refl).
Qed.

Lemma merge_row_found (rows : list Row) (r' : Row) (k : Z) (x : Row) :
  query_get pk rows k = Some x ->
  query_get pk (merge_row pk r' rows) k = Some (if k =? pk r' then r' else x).
Proof.
  intros Hx. destruct (Z.eqb_spec k (pk r')) as [->|Hne].
  - eapply query_get_merge_hit. exact Hx.
  - now rewrite query_get_merge_miss.
Qed.

Lemma merge_row_same_column {C : Type} (f : Row -> C) (rows : list Row)
    (u r' : Row) :
  NoDup (map pk rows) -> In u rows -> pk r' = pk u -> f r' = f u ->
  map f (merge_row pk r' rows) = map f rows.
Proof.
  intros Hnd Hin Hk Hf. unfold merge_row. rewrite map_map.
  apply map_ext_in. intros y Hy.
  destruct (Z.eqb_spec (pk y) (pk r')) as [E|E]; [|reflexivity].
  rewrite Hf. f_equal. apply (keys_determine_row rows); congruence.
Qed.

Lemma merge_row_id (rows : list Row) (u : Row) :
  NoDup (map pk rows) -> In u rows -> merge_row pk u rows = rows.
Proof.
  intros Hnd Hin. unfold merge_row. rewrite <- (map_id rows) at 2.
  apply map_ext_in. intros y Hy.
  destruct (Z.eqb_spec (pk y) (pk u)) as [E|E]; [|reflexivity].
  symmetry. now apply (keys_determine_row rows).
Qed.

Lemma merge_row_twice (rows : list Row) (r1 r2 : Row) :
  pk r1 = pk r2 ->
  merge_row pk r2 (merge_row pk r1 rows) = merge_row pk r2 rows.
Proof.
  intros Hk. unfold merge_row. rewrite map_map. apply map_ext. intros y.
  destruct (Z.eqb_spec (pk y) (pk r1)) as [E|E].
  - rewrite Hk, Z.eqb_refl. rewrite <- Hk, <- E, Z.eqb_refl. reflexivity.
  - reflexivity.
Qed.

Lemma not_in_column {C : Type} (f : Row -> C) (test : Row -> bool)
    (rows : list Row) (c : C) :
  (forall y, f y = c -> test y = true) ->
  existsb test rows = false -> ~ In c (map f rows).
Proof.
  intros Htest Hnone Hin. apply in_map_iff in Hin.
  destruct Hin as (y & Hy & Hin).
  assert (existsb test rows = true) by (apply existsb_exists; eauto).
  congruence.
Qed.

Lemma find_none_not_in_column {C : Type} (f : Row -> C) (test : Row -> bool)
    (rows : list Row) (c : C) :
  (forall y, f y = c -> test y = true) ->
  find test rows = None -> ~ In c (map f rows).
Proof.
  intros Htest Hnone Hin. apply in_map_iff in Hin.
  destruct Hin as (y & Hy & Hin).
  pose proof (find_none _ _ Hnone y Hin) as Hno.
  rewrite (Htest y Hy) in Hno. discriminate.
Qed.

Lemma NoDup_snoc {C : Type} (l : list C) (c : C) :
  NoDup l -> ~ In c l -> NoDup (l ++ [c]).
Proof.
  intros Hnd Hc. apply NoDup_app; [exact Hnd|repeat constructor; intros []|].
  intros x Hx [<-|[]]. contradiction.
Qed.

End MoreTableFacts.


Section ViewFacts.

Context `{RT : PyRuntime} `{AR : AuthRuntime}.

Ltac view_case :=
  match goal with
  | |- context [match ?x with _ => _ end] =>
      lazymatch x with
      | context [match _ with _ => _ end] => fail
      | _ => destruct x eqn:?
      end
  end.

Ltac run_views_but_ranking :=
  cbv beta iota zeta delta
    [handle dispatch jwt_required register my_profile_put create_project
     update_project accept_bid place_bid post_review
     get_user_from_jwt run fresh_session bind ret raise query commit
     session_add session_store or_404 item attr insert_user insert_project
     insert_bid insert_review fst snd working committed].

Ltac key_facts :=
  repeat match goal with
  | H : query_get _ _ _ = Some _ |- _ =>
      let Hk := fresh "Hk" in let Hin := fresh "Hin" in
      destruct (query_get_some _ _ _ _ H) as [Hk Hin]; revert H
  | H : (_ || _) = false |- _ => apply orb_false_elim in H; destruct H
  | H : negb _ = false |- _ => apply negb_false_iff in H
  | H : negb _ = true |- _ => apply negb_true_iff in H
  | H : (_ =? _) = true |- _ => apply Z.eqb_eq in H
  | H : (_ =? _)%string = true |- _ => apply String.eqb_eq in H
  end; intros.

Lemma post_review_effect (now identity id : Z) (data : ReviewData) (db : DB) :
  effect db (PostReview (Some identity) id data)
         (snd (run (post_review now identity id data) db)).
Proof.
  destruct (query_get project_id (projects db) id) as [project|] eqn:Hp;
    [destruct (query_get user_id (users db) identity) as [user|] eqn:Hu|].
  - rewrite (run_post_review _ _ _ _ _ _ _ Hp Hu).
    destruct (String.eqb_spec (project_status project) "completed") as [Hs|Hs];
      cbn [negb]; [|apply effect_none].
    destruct (counterpart project identity) as [[reviewee|]|] eqn:Hc;
      try apply effect_none.
    destruct (Z.eqb_spec reviewee 0) as [Hz|Hz]; [apply effect_none|].
    destruct (existing_review db id identity) eqn:He; [apply effect_none|].
    destruct (data_rating data) as [rating|] eqn:Hr; [|apply effect_none].
    destruct (fits_integer rating) eqn:Hfit; [|apply effect_none].
    cbn [snd].
    eapply (effect_review db identity id data project user
              {| review_id := next_id review_id (reviews db);
                 review_rating := rating;
                 review_comment := data_comment data;
                 review_created_at := now;
                 review_project_id := id;
                 review_reviewer_id := identity;
                 review_reviewee_id := reviewee |});
      cbn; auto.
  - unfold post_review.
    cbv beta iota zeta delta
      [run fresh_session bind ret raise query or_404 attr get_user_from_jwt
       fst snd working committed].
    rewrite Hp, Hu.
    destruct (negb (project_status project =? "completed")%string);
      apply effect_none.
  - unfold post_review.
    cbv beta iota zeta delta
      [run fresh_session bind ret raise query or_404 fst snd working
       committed].
    rewrite Hp. apply effect_none.
Qed.

Lemma known_user_kept (db db' : DB) (k : Z) :
  users_kept db db' -> known_user db k -> known_user db' k.
Proof.
  intros Hkept [u Hu]. destruct (Hkept k u Hu) as (u' & Hu' & _). now exists u'.
Qed.

Lemma known_freelancer_kept (db db' : DB) (k : Z) :
  users_kept db db' -> known_freelancer db k -> known_freelancer db' k.
Proof.
  intros Hkept (u & Hu & Hflag). destruct (Hkept k u Hu) as (u' & Hu' & Hf).
  exists u'. split; congruence.
Qed.

Lemma known_freelancer_user (db : DB) (k : Z) :
  known_freelancer db k -> known_user db k.
Proof. intros (u & Hu & _). now exists u. Qed.

Lemma known_project_kept (db db' : DB) (k : Z) :
  projects_kept db db' -> known_project db k -> known_project db' k.
Proof. intros Hkept [p Hp]. exact (Hkept k p Hp). Qed.

Lemma users_kept_same (db db' : DB) :
  users db' = users db -> users_kept db db'.
Proof. intros E k u Hu. exists u. rewrite E. now split. Qed.

Lemma projects_kept_same (db db' : DB) :
  projects db' = projects db -> projects_kept db db'.
Proof. intros E k p Hp. exists p. now rewrite E. Qed.

Lemma users_kept_with_user (db : DB) (u : User) :
  users_kept db (with_user db u).
Proof.
  intros k x Hx. exists x. cbn [with_user users].
  rewrite query_get_app, Hx. now split.
Qed.

Lemma users_kept_store (db : DB) (k : Z) (u r' : User) :
  query_get user_id (users db) k = Some u ->
  user_id r' = user_id u ->
  user_is_freelancer r' = user_is_freelancer u ->
  users_kept db (store_user db r').
Proof.
  intros Hu Hid Hflag j x Hx. cbn [store_user users].
  rewrite (merge_row_found user_id _ r' j x Hx).
  destruct (Z.eqb_spec j (user_id r')) as [->|Hne].
  - exists r'. split; [reflexivity|].
    destruct (query_get_some _ _ _ _ Hu) as [Hk _].
    assert (x = u) by congruence. subst x. exact Hflag.
  - now exists x.
Qed.

Lemma projects_kept_with_project (db : DB) (p : Project) :
  projects_kept db (with_project db p).
Proof.
  intros k x Hx. exists x. cbn [with_project projects].
  now rewrite query_get_app, Hx.
Qed.

Lemma projects_kept_store (db : DB) (r' : Project) :
  projects_kept db (store_project db r').
Proof.
  intros k x Hx. cbn [store_project projects].
  rewrite (merge_row_found project_id _ r' k x Hx). eauto.
Qed.

(** Rows that stay, seen from a database whose users and projects stay. *)
Lemma refs_kept (db db' : DB) :
  users_kept db db' -> projects_kept db db' ->
  well_formed db ->
  (forall p, In p (projects db) ->
     known_user db' (project_client_id p)
     /\ (forall f, project_freelancer_id p = Some f -> known_freelancer db' f))
  /\ (forall b, In b (bids db) ->
        known_project db' (bid_project_id b)
        /\ known_freelancer db' (bid_freelancer_id b))
  /\ (forall r, In r (reviews db) ->
        known_project db' (review_project_id r)
        /\ known_user db' (review_reviewer_id r)
        /\ known_user db' (review_reviewee_id r)).
Proof.
  intros Hu Hp Hwf. repeat split.
  - apply (known_user_kept db); [exact Hu|]. now apply (project_refs db Hwf).
  - intros f Hf. apply (known_freelancer_kept db); [exact Hu|].
    now apply (project_refs db Hwf p).
  - apply (known_project_kept db); [exact Hp|]. now apply (bid_refs db Hwf).
  - apply (known_freelancer_kept db); [exact Hu|]. now apply (bid_refs db Hwf).
  - apply (known_project_kept db); [exact Hp|]. now apply (review_refs db Hwf).
  - apply (known_user_kept db); [exact Hu|]. now apply (review_refs db Hwf).
  - apply (known_user_kept db); [exact Hu|]. now apply (review_refs db Hwf).
Qed.

Lemma wf_with_user (db : DB) (u : User) :
  well_formed db ->
  user_id u = next_id user_id (users db) ->
  username_taken db (user_username u) = false ->
  email_taken db (user_email u) = false ->
  well_formed (with_user db u).
Proof.
  intros Hwf Hid Hname Hmail.
  destruct (refs_kept db (with_user db u) (users_kept_with_user db u)
              (projects_kept_same _ _ eq_refl) Hwf) as (Hp & Hb & Hr).
  constructor; try exact Hp; try exact Hb; try exact Hr;
    try (now destruct Hwf).
  - apply keys_ok_snoc; [now destruct Hwf|exact Hid].
  - cbn [with_user users]. rewrite map_app. apply NoDup_snoc;
      [now destruct Hwf|].
    apply (not_in_column _ (fun x => (user_username x =? user_username u)%string));
      [|exact Hname]. intros y Hy. now apply String.eqb_eq.
  - cbn [with_user users]. rewrite map_app. apply NoDup_snoc;
      [now destruct Hwf|].
    apply (not_in_column _ (fun x => (user_email x =? user_email u)%string));
      [|exact Hmail]. intros y Hy. now apply String.eqb_eq.
Qed.

Lemma wf_store_user (db : DB) (k : Z) (u r' : User) :
  well_formed db ->
  query_get user_id (users db) k = Some u ->
  user_id r' = user_id u ->
  user_username r' = user_username u ->
  user_email r' = user_email u ->
  user_is_freelancer r' = user_is_freelancer u ->
  well_formed (store_user db r').
Proof.
  intros Hwf Hu Hid Hname Hmail Hflag.
  destruct (refs_kept db (store_user db r') (users_kept_store db k u r' Hu Hid Hflag)
              (projects_kept_same _ _ eq_refl) Hwf) as (Hp & Hb & Hr).
  destruct (query_get_some _ _ _ _ Hu) as [_ Hin].
  pose proof (users_keys db Hwf) as [Hnd _].
  constructor; try exact Hp; try exact Hb; try exact Hr;
    try (now destruct Hwf).
  - apply keys_ok_merge. now destruct Hwf.
  - cbn [store_user users].
    rewrite (merge_row_same_column user_id user_username _ u r' Hnd Hin Hid Hname).
    now destruct Hwf.
  - cbn [store_user users].
    rewrite (merge_row_same_column user_id user_email _ u r' Hnd Hin Hid Hmail).
    now destruct Hwf.
Qed.

Lemma wf_with_project (db : DB) (p : Project) :
  well_formed db ->
  project_id p = next_id project_id (projects db) ->
  known_user db (project_client_id p) ->
  project_freelancer_id p = None ->
  well_formed (with_project db p).
Proof.
  intros Hwf Hid Hclient Hnone.
  destruct (refs_kept db (with_project db p) (users_kept_same _ _ eq_refl)
              (projects_kept_with_project db p) Hwf) as (Hp & Hb & Hr).
  constructor; try exact Hb; try exact Hr; try (now destruct Hwf).
  - apply keys_ok_snoc; [now destruct Hwf|exact Hid].
  - intros x Hx. cbn [with_project projects] in Hx. apply in_app_or in Hx.
    destruct Hx as [Hx|[<-|[]]]; [now apply Hp|].
    split; [exact Hclient|]. intros f Hf. congruence.
Qed.

Lemma wf_store_project (db : DB) (p r' : Project) :
  well_formed db ->
  In p (projects db) ->
  project_id r' = project_id p ->
  project_client_id r' = project_client_id p ->
  (forall f, project_freelancer_id r' = Some f -> known_freelancer db f) ->
  well_formed (store_project db r').
Proof.
  intros Hwf Hin Hid Hclient Hfree.
  destruct (refs_kept db (store_project db r') (users_kept_same _ _ eq_refl)
              (projects_kept_store db r') Hwf) as (Hp & Hb & Hr).
  constructor; try exact Hb; try exact Hr; try (now destruct Hwf).
  - apply keys_ok_merge. now destruct Hwf.
  - intros x Hx. cbn [store_project projects] in Hx. apply in_merge_row in Hx.
    destruct Hx as [->|Hx]; [|now apply Hp].
    split; [|exact Hfree]. rewrite Hclient. now apply (project_refs db Hwf).
Qed.

Lemma wf_with_bid (db : DB) (b : Bid) :
  well_formed db ->
  bid_id b = next_id bid_id (bids db) ->
  known_project db (bid_project_id b) ->
  known_freelancer db (bid_freelancer_id b) ->
  existing_bid db (bid_project_id b) (bid_freelancer_id b) = None ->
  well_formed (with_bid db b).
Proof.
  intros Hwf Hid Hproject Hfree Hnone.
  constructor; try (now destruct Hwf).
  - apply keys_ok_snoc; [now destruct Hwf|exact Hid].
  - intros x Hx. cbn [with_bid bids] in Hx. apply in_app_or in Hx.
    destruct Hx as [Hx|[<-|[]]]; [now apply (bid_refs db Hwf)|]. now split.
  - cbn [with_bid bids]. rewrite map_app. apply NoDup_snoc;
      [now destruct Hwf|].
    eapply find_none_not_in_column; [|exact Hnone].
    intros y Hy. unfold bid_pair in Hy. injection Hy as H1 H2.
    cbv beta. now rewrite H1, H2, !Z.eqb_refl.
Qed.

Lemma wf_with_review (db : DB) (r : Review) :
  well_formed db ->
  review_id r = next_id review_id (reviews db) ->
  known_project db (review_project_id r) ->
  known_user db (review_reviewer_id r) ->
  known_user db (review_reviewee_id r) ->
  existing_review db (review_project_id r) (review_reviewer_id r) = None ->
  well_formed (with_review db r).
Proof.
  intros Hwf Hid Hproject Hreviewer Hreviewee Hnone.
  constructor; try (now destruct Hwf).
  - apply keys_ok_snoc; [now destruct Hwf|exact Hid].
  - intros x Hx. cbn [with_review reviews] in Hx. apply in_app_or in Hx.
    destruct Hx as [Hx|[<-|[]]]; [now apply (review_refs db Hwf)|]. now repeat split.
  - cbn [with_review reviews]. rewrite map_app. apply NoDup_snoc;
      [now destruct Hwf|].
    eapply find_none_not_in_column; [|exact Hnone].
    intros y Hy. unfold review_pair in Hy. injection Hy as H1 H2.
    cbv beta. now rewrite H1, H2, !Z.eqb_refl.
Qed.

Lemma handle_effect (now : Z) (req : Request) (db : DB) :
  effect db req (snd (handle now req db)).
Proof.
  destruct req.
  7: { unfold handle, dispatch, jwt_required. destruct token as [identity|];
       [apply post_review_effect|apply effect_none]. }
  2: { destruct token as [identity|]; [|apply effect_none].
       run_views_but_ranking.
       destruct (query_get user_id (users db) identity) as [u|] eqn:Hu;
         [|apply effect_none].
       cbv beta iota. now apply effect_profile. }
  all: run_views_but_ranking;
    repeat (view_case; cbv beta iota); try apply effect_none; key_facts.
  - eapply (effect_register db salt data (mkUser _ _ _ _ _ _ _ _)); cbn; auto; congruence.
  - subst. eapply (effect_create db _ data u (mkProject _ _ _ _ _ _ _ _)); cbn; eauto.
  - subst. now apply effect_update.
  - subst. eapply effect_accept; eauto.
    unfold referenced_bid.
    match goal with H : data_bid_id data = _ |- _ => rewrite H end.
    assumption.
  - subst. eapply (effect_bid db _ _ data p u (mkBid _ _ _ _ _ _)); cbn; eauto.
Qed.

Lemma counterpart_known (db : DB) (p : Project) (identity reviewee : Z) :
  well_formed db -> In p (projects db) ->
  counterpart p identity = Some (Some reviewee) ->
  known_user db reviewee.
Proof.
  intros Hwf Hin. unfold counterpart.
  destruct (project_refs db Hwf p Hin) as [Hclient Hfree].
  destruct (identity =? project_client_id p).
  - intros Hc. injection Hc as Hc. apply known_freelancer_user. now apply Hfree.
  - destruct (id_is identity (project_freelancer_id p)); [|discriminate].
    intros Hc. injection Hc as <-. exact Hclient.
Qed.

Lemma effect_keeps_well_formed (req : Request) (db db' : DB) :
  well_formed db -> effect db req db' -> well_formed db'.
Proof.
  intros Hwf Heff.
  destruct Heff as
    [ req
    | salt data u Hid _ _ Hname Hmail _ _
    | identity data u Hu
    | identity data u p Hu Hid Hclient _ Hnone _ _ _
    | identity id data p Hp _
    | identity id data p b Hp _ _ Hb Hbp
    | identity id data p u b Hp Hu Hflag _ Hnone Hid Hbp Hbf _ _
    | identity id data p u r Hp Hu _ Hc _ Hnone Hid Hrp Hrr _ _ _ ].
  - exact Hwf.
  - now apply wf_with_user.
  - now apply (wf_store_user db identity u).
  - apply wf_with_project; auto. rewrite Hclient. now exists u.
  - destruct (query_get_some _ _ _ _ Hp) as [_ Hin].
    apply (wf_store_project db p); auto.
    intros f Hf. now apply (project_refs db Hwf p Hin).
  - destruct (query_get_some _ _ _ _ Hp) as [_ Hin].
    apply (wf_store_project db p); auto.
    intros f Hf. cbn in Hf. injection Hf as <-.
    unfold referenced_bid in Hb. destruct (data_bid_id data); [|discriminate].
    destruct (query_get_some _ _ _ _ Hb) as [_ Hinb].
    now apply (bid_refs db Hwf b).
  - apply wf_with_bid; rewrite ?Hbp, ?Hbf; auto.
    + now exists p.
    + now exists u.
  - destruct (query_get_some _ _ _ _ Hp) as [_ Hin].
    assert (Hwf1 : well_formed (with_review db r)).
    { apply wf_with_review; rewrite ?Hrp, ?Hrr; auto.
      - now exists p.
      - now exists u.
      - now apply (counterpart_known db p identity). }
    rewrite exec_update_user_ranking.
    destruct (query_get user_id (users (with_review db r)) (review_reviewee_id r))
      as [user|] eqn:Huser; [|exact Hwf1].
    now apply (wf_store_user _ (review_reviewee_id r) user).
Qed.

Lemma filter_nothing {A : Type} (f : A -> bool) (l : list A) :
  (forall x, In x l -> f x = false) -> filter f l = [].
Proof.
  induction l as [|x l IH]; cbn [filter]; [reflexivity|]. intros H.
  rewrite (H x (or_introl eq_refl)). apply IH. intros y Hy. apply H. now right.
Qed.

Lemma new_user_has_no_reviews (db : DB) :
  well_formed db ->
  reviews_received db (next_id user_id (users db)) = [].
Proof.
  intros Hwf. unfold reviews_received. apply filter_nothing. intros r Hr.
  destruct (review_refs db Hwf r Hr) as (_ & _ & [u Hu]).
  destruct (query_get_some _ _ _ _ Hu) as [Hk Hin].
  pose proof (next_id_bound user_id (users db) u Hin).
  apply Z.eqb_neq. lia.
Qed.

Lemma reviews_received_with_review (db : DB) (r : Review) (uid : Z) :
  reviews_received (with_review db r) uid =
  (reviews_received db uid ++ if review_reviewee_id r =? uid then [r] else [])%list.
Proof.
  unfold reviews_received. cbn [with_review reviews].
  rewrite filter_app. cbn [filter]. reflexivity.
Qed.

Lemma effect_keeps_rankings (req : Request) (db db' : DB) :
  consistent db -> effect db req db' -> rankings_current db'.
Proof.
  intros [Hwf Hrank] Heff.
  destruct Heff as
    [ req
    | salt data u Hid _ _ _ _ _ Hscore
    | identity data u Hu
    | identity data u p _ _ _ _ _ _ _ _
    | identity id data p _ _
    | identity id data p b _ _ _ _ _
    | identity id data p u b _ _ _ _ _ _ _ _ _ _
    | identity id data p u r _ _ _ _ _ _ _ _ _ _ _ _ ];
    try exact Hrank.
  - intros x Hx. cbn [with_user users] in Hx. apply in_app_or in Hx.
    destruct Hx as [Hx|[<-|[]]]; [now apply Hrank|].
    change (reviews_received (with_user db u) (user_id u))
      with (reviews_received db (user_id u)).
    now rewrite Hid, new_user_has_no_reviews, Hscore.
  - destruct (query_get_some _ _ _ _ Hu) as [_ Hin].
    intros x Hx. cbn [store_user users] in Hx. apply in_merge_row in Hx.
    destruct Hx as [->|Hx]; [|now apply Hrank]. exact (Hrank u Hin).
  - intros x Hx.
    destruct (Z.eq_dec (user_id x) (review_reviewee_id r)) as [E|E].
    + rewrite (ranking_after_recompute _ _ _ Hx E).
      unfold reviews_received. rewrite reviews_after_ranking. now rewrite E.
    + rewrite exec_update_user_ranking in *.
      assert (Hold : In x (users db)).
      { destruct (query_get user_id (users (with_review db r)) (review_reviewee_id r))
          as [user|] eqn:Huser; [|exact Hx].
        cbn [store_user users] in Hx. apply in_merge_row in Hx.
        destruct Hx as [->|Hx]; [|exact Hx].
        destruct (query_get_some _ _ _ _ Huser) as [Hk _]. now elim E. }
      rewrite (Hrank x Hold). f_equal. f_equal.
      transitivity (reviews_received (with_review db r) (user_id x)).
      * rewrite reviews_received_with_review.
        replace (review_reviewee_id r =? user_id x) with false
          by (symmetry; apply Z.eqb_neq; congruence).
        now rewrite app_nil_r.
      * unfold reviews_received.
        now destruct (query_get user_id (users (with_review db r)) (review_reviewee_id r)).
Qed.

Lemma effect_keeps_consistent (req : Request) (db db' : DB) :
  consistent db -> effect db req db' -> consistent db'.
Proof.
  intros Hc Heff. split.
  - exact (effect_keeps_well_formed req db db' (proj1 Hc) Heff).
  - exact (effect_keeps_rankings req db db' Hc Heff).
Qed.

Lemma empty_db_consistent : consistent empty_db.
Proof.
  assert (Hk : forall (Row : Type) (pk : Row -> Z), keys_ok pk []).
  { intros Row pk. split; [constructor|intros r []]. }
  split.
  - constructor; try apply Hk; try apply NoDup_nil; intros ? [].
  - intros ? [].
Qed.

Lemma reachable_consistent (db : DB) :
  reachable any_request db -> consistent db.
Proof.
  induction 1 as [|db now req _ IH _].
  - exact empty_db_consistent.
  - exact (effect_keeps_consistent req _ _ IH (handle_effect now req db)).
Qed.

Lemma column_determines_row {A C : Type} (f : A -> C) (l : list A) (x y : A) :
  NoDup (map f l) -> In x l -> In y l -> f x = f y -> x = y.
Proof.
  induction l as [|z l IH]; cbn [map In]; [tauto|].
  intros Hnd Hx Hy Hk. inversion Hnd as [|? ? Hnot Hnd']; subst.
  destruct Hx as [->|Hx], Hy as [->|Hy]; auto.
  - exfalso. apply Hnot. rewrite Hk. now apply in_map.
  - exfalso. apply Hnot. rewrite <- Hk. now apply in_map.
Qed.

(** ** What holds of every database the API can produce *)

(** X1. In every database the API can produce, primary keys are positive and
    no two rows of a table share one: looking a stored row up by its key
    gives back that very row. *)
Theorem reachable_keys_identify_rows (db : DB) :
  reachable any_request db ->
  (forall u, In u (users db) ->
     0 < user_id u /\ query_get user_id (users db) (user_id u) = Some u)
  /\ (forall p, In p (projects db) ->
        0 < project_id p
        /\ query_get project_id (projects db) (project_id p) = Some p)
  /\ (forall b, In b (bids db) ->
        0 < bid_id b /\ query_get bid_id (bids db) (bid_id b) = Some b)
  /\ (forall r, In r (reviews db) ->
        0 < review_id r
        /\ query_get review_id (reviews db) (review_id r) = Some r).
Proof.
  intros Hreach. destruct (reachable_consistent db Hreach) as [Hwf _].
  destruct Hwf as [[Hu Hup] [Hp Hpp] [Hb Hbp] [Hr Hrp] _ _ _ _ _ _ _].
  repeat split; auto; now apply query_get_in.
Qed.

(** X2. In every database the API can produce, every reference resolves: the
    client of a project and its freelancer, if any, are stored users; the
    project and the freelancer of a bid are stored; the project, the reviewer
    and the reviewee of a review are stored. *)
Theorem reachable_references_resolve (db : DB) :
  reachable any_request db ->
  (forall p, In p (projects db) ->
     (exists u, In u (users db) /\ user_id u = project_client_id p)
     /\ (forall f, project_freelancer_id p = Some f ->
           exists u, In u (users db) /\ user_id u = f))
  /\ (forall b, In b (bids db) ->
        (exists p, In p (projects db) /\ project_id p = bid_project_id b)
        /\ (exists u, In u (users db) /\ user_id u = bid_freelancer_id b))
  /\ (forall r, In r (reviews db) ->
        (exists p, In p (projects db) /\ project_id p = review_project_id r)
        /\ (exists u, In u (users db) /\ user_id u = review_reviewer_id r)
        /\ (exists u, In u (users db) /\ user_id u = review_reviewee_id r)).
Proof.
  intros Hreach. destruct (reachable_consistent db Hreach) as [Hwf _].
  assert (Huser : forall k, known_user db k ->
                    exists u, In u (users db) /\ user_id u = k).
  { intros k [u Hu]. destruct (query_get_some _ _ _ _ Hu). now exists u. }
  assert (Hproject : forall k, known_project db k ->
                       exists p, In p (projects db) /\ project_id p = k).
  { intros k [p Hp]. destruct (query_get_some _ _ _ _ Hp). now exists p. }
  repeat split.
  - apply Huser. now apply (project_refs db Hwf).
  - intros f Hf. apply Huser, known_freelancer_user.
    now apply (project_refs db Hwf p).
  - apply Hproject. now apply (bid_refs db Hwf).
  - apply Huser, known_freelancer_user. now apply (bid_refs db Hwf).
  - apply Hproject. now apply (review_refs db Hwf).
  - apply Huser. now apply (review_refs db Hwf).
  - apply Huser. now apply (review_refs db Hwf).
Qed.

(** X3. In every database the API can produce, two stored users with the same
    username, or with the same email, are one and the same row. *)
Theorem reachable_usernames_and_emails_unique (db : DB) (u1 u2 : User) :
  reachable any_request db ->
  In u1 (users db) -> In u2 (users db) ->
  user_username u1 = user_username u2 \/ user_email u1 = user_email u2 ->
  u1 = u2.
Proof.
  intros Hreach H1 H2 Hsame.
  destruct (reachable_consistent db Hreach) as [Hwf _].
  destruct Hsame as [Hn|He].
  - exact (column_determines_row _ _ _ _ (usernames_unique db Hwf) H1 H2 Hn).
  - exact (column_determines_row _ _ _ _ (emails_unique db Hwf) H1 H2 He).
Qed.

(** X4. In every database the API can produce, a freelancer has at most one
    bid on a project and a reviewer at most one review of a project. *)
Theorem reachable_one_bid_and_one_review_per_pair (db : DB) :
  reachable any_request db ->
  (forall b1 b2, In b1 (bids db) -> In b2 (bids db) ->
     bid_project_id b1 = bid_project_id b2 ->
     bid_freelancer_id b1 = bid_freelancer_id b2 -> b1 = b2)
  /\ (forall r1 r2, In r1 (reviews db) -> In r2 (reviews db) ->
        review_project_id r1 = review_project_id r2 ->
        review_reviewer_id r1 = review_reviewer_id r2 -> r1 = r2).
Proof.
  intros Hreach. destruct (reachable_consistent db Hreach) as [Hwf _].
  split.
  - intros b1 b2 H1 H2 Hp Hf.
    apply (column_determines_row bid_pair _ _ _ (bid_pairs_unique db Hwf) H1 H2).
    unfold bid_pair. congruence.
  - intros r1 r2 H1 H2 Hp Hr.
    apply (column_determines_row review_pair _ _ _
             (review_pairs_unique db Hwf) H1 H2).
    unfold review_pair. congruence.
Qed.

(** X5. In every database the API can produce, the ranking score of every
    user, reviewed or not, is the mean of the ratings of the reviews that name
    the user as reviewee, rounded to 2 decimals, and [0.0] without any. *)
Theorem reachable_rankings_are_current (db : DB) (u : User) :
  reachable any_request db ->
  In u (users db) ->
  user_ranking_score u =
  mean_rounded (ratings (reviews_received db (user_id u))).
Proof.
  intros Hreach Hin. destruct (reachable_consistent db Hreach) as [_ Hrank].
  now apply Hrank.
Qed.

(** X6. In every database the API can produce, whoever holds a bid, and
    whoever is assigned to a project, is a stored user with the freelancer
    flag set. *)
Theorem reachable_bidders_are_freelancers (db : DB) :
  reachable any_request db ->
  (forall b, In b (bids db) ->
     exists u, In u (users db) /\ user_id u = bid_freelancer_id b
               /\ user_is_freelancer u = true)
  /\ (forall p f, In p (projects db) -> project_freelancer_id p = Some f ->
        exists u, In u (users db) /\ user_id u = f
                  /\ user_is_freelancer u = true).
Proof.
  intros Hreach. destruct (reachable_consistent db Hreach) as [Hwf _].
  assert (Hfree : forall k, known_freelancer db k ->
            exists u, In u (users db) /\ user_id u = k
                      /\ user_is_freelancer u = true).
  { intros k (u & Hu & Hflag). destruct (query_get_some _ _ _ _ Hu).
    now exists u. }
  split.
  - intros b Hb. apply Hfree. now apply (bid_refs db Hwf).
  - intros p f Hp Hf. apply Hfree. now apply (project_refs db Hwf p).
Qed.

(** ** What no request does *)

Lemma users_after_ranking (uid : Z) (db : DB) :
  map user_id (users (exec (update_user_ranking uid) db)) =
  map user_id (users db).
Proof.
  rewrite exec_update_user_ranking.
  destruct (query_get user_id (users db) uid); [|reflexivity].
  cbn [store_user users]. apply merge_row_keys.
Qed.

Lemma rest_after_ranking (uid : Z) (db : DB) :
  projects (exec (update_user_ranking uid) db) = projects db
  /\ bids (exec (update_user_ranking uid) db) = bids db
  /\ reviews (exec (update_user_ranking uid) db) = reviews db.
Proof.
  rewrite exec_update_user_ranking.
  destruct (query_get user_id (users db) uid); now repeat split.
Qed.

(** X7. No request deletes or renumbers anything: after any request, each
    table holds the keys it held, in the same order, the bids and the reviews
    are the rows they were, and at most one row has been added over the four
    tables. *)
Theorem requests_only_append (now : Z) (req : Request) (db : DB) :
  exists (new_users new_projects : list Z) (new_bids : list Bid)
         (new_reviews : list Review),
    map user_id (users (snd (handle now req db))) =
      (map user_id (users db) ++ new_users)%list
    /\ map project_id (projects (snd (handle now req db))) =
      (map project_id (projects db) ++ new_projects)%list
    /\ bids (snd (handle now req db)) = (bids db ++ new_bids)%list
    /\ reviews (snd (handle now req db)) = (reviews db ++ new_reviews)%list
    /\ (List.length new_users + List.length new_projects
        + List.length new_bids + List.length new_reviews <= 1)%nat.
Proof.
  destruct (handle_effect now req db)
    as [ req | salt data u | identity data u | identity data u p
       | identity id data p | identity id data p b
       | identity id data p u b | identity id data p u r ].
  - exists [], [], [], []. rewrite !app_nil_r. repeat split. cbn. lia.
  - exists [user_id u], [], [], []. cbn [with_user users projects bids reviews].
    rewrite map_app, !app_nil_r. repeat split. cbn. lia.
  - exists [], [], [], []. cbn [store_user users projects bids reviews].
    rewrite merge_row_keys, !app_nil_r. repeat split. cbn. lia.
  - exists [], [project_id p], [], [].
    cbn [with_project users projects bids reviews].
    rewrite map_app, !app_nil_r. repeat split. cbn. lia.
  - exists [], [], [], []. cbn [store_project users projects bids reviews].
    rewrite merge_row_keys, !app_nil_r. repeat split. cbn. lia.
  - exists [], [], [], []. cbn [store_project users projects bids reviews].
    rewrite merge_row_keys, !app_nil_r. repeat split. cbn. lia.
  - exists [], [], [b], []. cbn [with_bid users projects bids reviews].
    rewrite !app_nil_r. repeat split. cbn. lia.
  - exists [], [], [], [r]. rewrite users_after_ranking.
    destruct (rest_after_ranking (review_reviewee_id r) (with_review db r))
      as (-> & -> & ->).
    cbn [with_review users projects bids reviews].
    rewrite !app_nil_r. repeat split. cbn. lia.
Qed.

Lemma set_ranking_keeps (u : User) (x : py_float) :
  user_id (set_ranking_score u x) = user_id u
  /\ user_username (set_ranking_score u x) = user_username u
  /\ user_email (set_ranking_score u x) = user_email u
  /\ user_password_hash (set_ranking_score u x) = user_password_hash u
  /\ user_is_freelancer (set_ranking_score u x) = user_is_freelancer u
  /\ user_bio (set_ranking_score u x) = user_bio u
  /\ user_skills (set_ranking_score u x) = user_skills u.
Proof. now repeat split. Qed.

(** X8. No request changes who a stored user is: whatever the request, the
    row found under a user's key afterwards has the same username, email,
    password digest and freelancer flag.  The bio and the skills change only
    through a profile update made with that user's own token, and the ranking
    score only through a post-review. *)
Theorem user_identity_never_changes
    (now : Z) (req : Request) (db : DB) (k : Z) (u : User) :
  query_get user_id (users db) k = Some u ->
  exists u',
    query_get user_id (users (snd (handle now req db))) k = Some u'
    /\ user_username u' = user_username u
    /\ user_email u' = user_email u
    /\ user_password_hash u' = user_password_hash u
    /\ user_is_freelancer u' = user_is_freelancer u
    /\ ((user_bio u' = user_bio u /\ user_skills u' = user_skills u)
        \/ exists data, req = MyProfilePut (Some k) data)
    /\ (user_ranking_score u' = user_ranking_score u
        \/ exists token id data, req = PostReview token id data).
Proof.
  intros Hu.
  destruct (handle_effect now req db)
    as [ req | salt data x | identity data x Hx | identity data x p
       | identity id data p | identity id data p b
       | identity id data p x b | identity id data p x r ];
    try (exists u; cbn [with_project store_project with_bid users];
         repeat split; auto; fail).
  - exists u. cbn [with_user users]. rewrite query_get_app, Hu.
    repeat split; auto.
  - cbn [store_user users]. rewrite (merge_row_found user_id _ _ k u Hu).
    cbn [set_profile user_id].
    destruct (query_get_some _ _ _ _ Hx) as [Hk _].
    destruct (Z.eqb_spec k (user_id x)) as [E|E].
    + assert (u = x) by congruence. subst x.
      eexists. split; [reflexivity|].
      repeat split; [right; exists data; congruence|now left].
    + exists u. repeat split; auto.
  - rewrite exec_update_user_ranking.
    destruct (query_get user_id (users (with_review db r)) (review_reviewee_id r))
      as [user|] eqn:Huser.
    + cbn [store_user users with_review] in *.
      rewrite (merge_row_found user_id _ _ k u Hu).
      cbn [set_ranking_score user_id].
      destruct (query_get_some _ _ _ _ Huser) as [Hk _].
      destruct (Z.eqb_spec k (user_id user)) as [E|E].
      * assert (u = user) by congruence. subst user.
        eexists. split; [reflexivity|]. repeat split; auto. right. eauto.
      * exists u. repeat split; auto.
    + exists u. repeat split; auto.
Qed.

(** X9. A project changes only at the hands of its client: whatever the
    request, the row found under a project's key afterwards is the same row,
    unless the request is an update-project or an accept-bid on this project
    carrying the token of the project's client.  Even then the key, the
    client and the creation time stay, and the freelancer changes only
    through an accept-bid on a project that was open, to the freelancer of a
    stored bid on this project. *)
Theorem project_changes_only_by_its_client
    (now : Z) (req : Request) (db : DB) (k : Z) (p : Project) :
  query_get project_id (projects db) k = Some p ->
  exists p',
    query_get project_id (projects (snd (handle now req db))) k = Some p'
    /\ project_id p' = project_id p
    /\ project_client_id p' = project_client_id p
    /\ project_created_at p' = project_created_at p
    /\ (p' = p
        \/ (exists data,
              req = UpdateProject (Some (project_client_id p)) k data
              /\ project_freelancer_id p' = project_freelancer_id p)
        \/ (exists data b,
              req = AcceptBid (Some (project_client_id p)) k data
              /\ project_status p = "open"
              /\ In b (bids db) /\ bid_project_id b = k
              /\ project_freelancer_id p' = Some (bid_freelancer_id b)
              /\ project_status p' = "in_progress")).
Proof.
  intros Hp.
  destruct (handle_effect now req db)
    as [ req | salt data x | identity data x Hx | identity data x q
       | identity id data q Hq Hclient
       | identity id data q b Hq Hclient Hopen Hb Hbp
       | identity id data q x b | identity id data q x r ];
    try (exists p; cbn [with_user store_user with_bid projects];
         repeat split; auto; fail).
  - exists p. cbn [with_project projects]. rewrite query_get_app, Hp.
    repeat split; auto.
  - cbn [store_project projects].
    rewrite (merge_row_found project_id _ _ k p Hp).
    cbn [set_project_fields project_id].
    destruct (query_get_some _ _ _ _ Hq) as [Hk _].
    destruct (Z.eqb_spec k (project_id q)) as [E|E].
    + assert (p = q) by congruence. subst q.
      eexists. split; [reflexivity|]. repeat split. right. left.
      exists data. split; [congruence|reflexivity].
    + exists p. repeat split; auto.
  - cbn [store_project projects].
    rewrite (merge_row_found project_id _ _ k p Hp).
    cbn [set_project_assignment project_id].
    destruct (query_get_some _ _ _ _ Hq) as [Hk _].
    destruct (Z.eqb_spec k (project_id q)) as [E|E].
    + assert (p = q) by congruence. subst q.
      eexists. split; [reflexivity|]. repeat split. right. right.
      exists data, b. unfold referenced_bid in Hb.
      destruct (data_bid_id data); [|discriminate].
      destruct (query_get_some _ _ _ _ Hb) as [_ Hin].
      repeat split; auto; congruence.
    + exists p. repeat split; auto.
  - exists p. destruct (rest_after_ranking (review_reviewee_id r) (with_review db r))
      as (-> & _ & _). repeat split; auto.
Qed.

(** X10. The ranking calculator is idempotent and touches nothing but the
    user it is run for: run a second time for the same user it changes
    nothing; it leaves the projects, the bids, the reviews and every user row
    under another key as they are; for a key that no user has it does nothing
    at all. *)
Theorem update_user_ranking_idempotent (uid : Z) (db : DB) :
  let db' := exec (update_user_ranking uid) db in
  exec (update_user_ranking uid) db' = db'
  /\ projects db' = projects db
  /\ bids db' = bids db
  /\ reviews db' = reviews db
  /\ (forall u, user_id u <> uid -> (In u (users db') <-> In u (users db)))
  /\ (query_get user_id (users db) uid = None -> db' = db).
Proof.
  cbv zeta. rewrite !exec_update_user_ranking.
  destruct (query_get user_id (users db) uid) as [u|] eqn:Hu.
  2: { rewrite Hu. repeat split; auto. }
  destruct (query_get_some _ _ _ _ Hu) as [Hk _].
  set (score := mean_rounded (ratings (reviews_received db uid))).
  assert (Hu' : query_get user_id (users (store_user db (set_ranking_score u score))) uid
                = Some (set_ranking_score u score)).
  { now apply (store_user_lookup db uid u). }
  rewrite Hu'.
  split; [|split; [reflexivity|split; [reflexivity|split; [reflexivity|
    split; [intros x Hne; split|discriminate]]]]].
  - change (reviews_received (store_user db (set_ranking_score u score)) uid)
      with (reviews_received db uid). fold score.
    unfold store_user. cbn [users projects bids reviews].
    rewrite merge_row_twice by reflexivity. reflexivity.
  - intros Hx. cbn [store_user users] in Hx. apply in_merge_row in Hx.
    destruct Hx as [->|Hx]; [|exact Hx]. cbn in Hne. congruence.
  - intros Hx. cbn [store_user users]. unfold merge_row. apply in_map_iff.
    exists x. split; [|exact Hx].
    destruct (Z.eqb_spec (user_id x) (user_id (set_ranking_score u score)))
      as [E|E]; [|reflexivity]. cbn in E. congruence.
Qed.

(** Closing the cases of a case-by-case description of a view. *)
Ltac settle :=
  cbn [fst snd is_success]; repeat split; intros;
  repeat match goal with
         | H : exists _, _ |- _ => destruct H
         | H : _ /\ _ |- _ => destruct H
         | H : Some _ = Some _ |- _ => injection H as H; try subst
         end;
  try discriminate; try congruence; auto.

(** ** seed.py against routes.py *)

(** X11. The ranking helper of the seeding script differs from the one of the
    routes in two ways.  For a stored user with the freelancer flag it sets,
    in the session, the score the route's helper would store, but it commits
    nothing: the database itself is as before until the caller commits.  For
    a user without the flag, or a key that no user has, it does nothing,
    whatever reviews that user has received. *)
Theorem seed_update_user_ranking_skips_clients (uid : Z) (db : DB) :
  let after := snd (seed_update_user_ranking uid (fresh_session db)) in
  committed after = db
  /\ (forall u, query_get user_id (users db) uid = Some u ->
        user_is_freelancer u = true ->
        working after = exec (update_user_ranking uid) db)
  /\ (forall u, query_get user_id (users db) uid = Some u ->
        user_is_freelancer u = false ->
        working after = db)
  /\ (query_get user_id (users db) uid = None -> working after = db).
Proof.
  cbv zeta. rewrite exec_update_user_ranking.
  unfold seed_update_user_ranking.
  cbv beta iota zeta delta
    [fresh_session bind ret query session_store fst snd working committed].
  destruct (query_get user_id (users db) uid) as [u|] eqn:Hu.
  2: { repeat split; auto; discriminate. }
  destruct (query_get_some _ _ _ _ Hu) as [Hk _]. rewrite Hk.
  pose proof (total_rating_sum (reviews_received db uid)) as Hsum.
  destruct (user_is_freelancer u) eqn:Hflag; cbn [negb].
  - unfold mean_rounded, ratings in *.
    destruct (reviews_received db uid) as [|r rs];
      cbn [working committed snd map].
    + repeat split; auto; try discriminate; intros x Hx Hf; congruence.
    + rewrite Hsum. cbn [map List.length]. rewrite length_map.
      repeat split; auto; try discriminate; intros x Hx Hf; congruence.
  - cbn [working committed snd].
    repeat split; auto; try discriminate; intros x Hx Hf; congruence.
Qed.

(** ** Registration and login *)

Lemma run_register (salt : string) (data : RegisterData) (db : DB) :
  run (register salt data) db =
  match reg_email data with
  | None => ((HttpError "KeyError", 500), db)
  | Some mail =>
      if email_taken db mail
      then ((Msg "Email or username already exists", 400), db)
      else
        match reg_username data with
        | None => ((HttpError "KeyError", 500), db)
        | Some name =>
            if username_taken db name
            then ((Msg "Email or username already exists", 400), db)
            else
              match reg_password data with
              | None => ((HttpError "KeyError", 500), db)
              | Some password =>
                  let new_user :=
                    {| user_id := next_id user_id (users db);
                       user_username := name;
                       user_email := mail;
                       user_password_hash :=
                         generate_password_hash salt password;
                       user_is_freelancer :=
                         get_default (reg_is_freelancer data) false;
                       user_bio := None;
                       user_skills := None;
                       user_ranking_score := float_zero |} in
                  ((UserDump new_user, 201), with_user db new_user)
              end
        end
  end.
Proof.
  unfold register, with_user.
  cbv beta iota zeta delta
    [run fresh_session bind ret raise query commit session_add item
     insert_user fst snd working committed].
  destruct (reg_email data) as [mail|]; [|reflexivity].
  destruct (email_taken db mail) eqn:Hmail; [reflexivity|].
  destruct (reg_username data) as [name|]; [|reflexivity].
  destruct (username_taken db name) eqn:Hname; [reflexivity|].
  destruct (reg_password data) as [password|]; [|reflexivity].
  cbn [user_username user_email]. rewrite Hname, Hmail. reflexivity.
Qed.

(** X12. Registration succeeds exactly when the body carries an email, a
    username and a password and neither the email nor the username is stored
    already.  It then appends one user, under the next key, with the digest of
    the password under the salt drawn for this request, the freelancer flag
    of the body ([False] without one), no bio, no skills and score [0.0], and
    finds it again under that key.  Neither condition depends on the salt.  A
    stored email is refused with 400 before the username and the password are
    even looked at; a body without email raises [KeyError] whatever else it
    holds. *)
Theorem register_succeeds_exactly_when
    (salt : string) (data : RegisterData) (db : DB) :
  let result := run (register salt data) db in
  (is_success (fst result) = true <->
   exists mail name password,
     reg_email data = Some mail /\ reg_username data = Some name
     /\ reg_password data = Some password
     /\ email_taken db mail = false /\ username_taken db name = false)
  /\ (forall mail name password,
        reg_email data = Some mail -> reg_username data = Some name ->
        reg_password data = Some password ->
        email_taken db mail = false -> username_taken db name = false ->
        let new_user :=
          {| user_id := next_id user_id (users db);
             user_username := name;
             user_email := mail;
             user_password_hash := generate_password_hash salt password;
             user_is_freelancer := get_default (reg_is_freelancer data) false;
             user_bio := None;
             user_skills := None;
             user_ranking_score := float_zero |} in
        result = ((UserDump new_user, 201), with_user db new_user)
        /\ query_get user_id (users (snd result)) (user_id new_user) =
           Some new_user)
  /\ (forall mail, reg_email data = Some mail -> email_taken db mail = true ->
        result = ((Msg "Email or username already exists", 400), db))
  /\ (forall mail name,
        reg_email data = Some mail -> reg_username data = Some name ->
        email_taken db mail = false -> username_taken db name = true ->
        result = ((Msg "Email or username already exists", 400), db))
  /\ (reg_email data = None -> result = ((HttpError "KeyError", 500), db)).
Proof.
  cbv zeta. rewrite run_register.
  destruct (reg_email data) as [mail|]; [|settle].
  destruct (email_taken db mail) eqn:Hmail; [settle|].
  destruct (reg_username data) as [name|]; [|settle].
  destruct (username_taken db name) eqn:Hname; [settle|].
  destruct (reg_password data) as [password|]; [|settle].
  settle.
  - now exists mail, name, password.
  - cbn [snd with_user users user_id].
    rewrite query_get_app, next_id_fresh. cbn [user_id].
    now rewrite Z.eqb_refl.
Qed.

Lemma run_read_login (data : LoginData) (db : DB) :
  run_read (login data) db =
  (match login_email data with
   | None => (Plain (HttpError "KeyError"), 500)
   | Some mail =>
       match user_by_email db mail with
       | None => (Plain (Msg "Bad username or password"), 401)
       | Some user =>
           match login_password data with
           | None => (Plain (HttpError "KeyError"), 500)
           | Some password =>
               if check_password user password
               then (TokenAndUser (create_access_token (user_id user)) user, 200)
               else (Plain (Msg "Bad username or password"), 401)
           end
       end
   end, db).
Proof.
  unfold login.
  cbv beta iota zeta delta
    [run_read fresh_session bind ret raise query item fst snd working
     committed].
  destruct (login_email data) as [mail|]; [|reflexivity].
  destruct (user_by_email db mail) as [user|]; [|reflexivity].
  destruct (login_password data) as [password|]; [|reflexivity].
  destruct (check_password user password); reflexivity.
Qed.

(** X13. Login never writes.  It answers 200 exactly when the body carries an
    email under which a user is stored and a password that this user's digest
    verifies; the token is then issued for that user's key and the user
    returned is that row.  An email that no user has is answered 401 without
    the password being looked at, so also when the body has none; a wrong
    password is answered with the same 401. *)
Theorem login_checks_the_stored_digest (data : LoginData) (db : DB) :
  let result := run_read (login data) db in
  snd result = db
  /\ (snd (fst result) = 200 <->
      exists mail user password,
        login_email data = Some mail /\ user_by_email db mail = Some user
        /\ login_password data = Some password
        /\ check_password_hash (user_password_hash user) password = true)
  /\ (forall mail user password,
        login_email data = Some mail -> user_by_email db mail = Some user ->
        login_password data = Some password ->
        check_password_hash (user_password_hash user) password = true ->
        fst result =
        (TokenAndUser (create_access_token (user_id user)) user, 200)
        /\ In user (users db) /\ user_email user = mail)
  /\ (forall mail,
        login_email data = Some mail -> user_by_email db mail = None ->
        fst result = (Plain (Msg "Bad username or password"), 401))
  /\ (forall mail user password,
        login_email data = Some mail -> user_by_email db mail = Some user ->
        login_password data = Some password ->
        check_password_hash (user_password_hash user) password = false ->
        fst result = (Plain (Msg "Bad username or password"), 401)).
Proof.
  cbv zeta. rewrite run_read_login. cbn [fst snd]. unfold check_password.
  split; [reflexivity|].
  destruct (login_email data) as [mail|]; [|settle].
  destruct (user_by_email db mail) as [user|] eqn:Huser; [|settle].
  assert (Hrow : In user (users db) /\ user_email user = mail).
  { unfold user_by_email in Huser. apply find_some in Huser.
    destruct Huser as [Hin He]. now apply String.eqb_eq in He. }
  destruct (login_password data) as [password|]; [|settle].
  destruct (check_password_hash (user_password_hash user) password) eqn:Hcheck;
    settle.
  all: try (now exists mail, user, password).
  all: try (rewrite Huser in *; settle).
Qed.

Lemma find_after {A : Type} (f : A -> bool) (l l' : list A) :
  find f (l ++ l') =
  match find f l with
  | Some x => Some x
  | None => find f l'
  end.
Proof.
  induction l as [|x l IH]; cbn [app find]; [reflexivity|].
  destruct (f x); [reflexivity|exact IH].
Qed.

(** X14. Registration and login round-trip: provided the digest that was
    made of the registration's password, under the salt drawn for it,
    verifies that password, a login with the email and the password of a
    registration that has just succeeded answers 200, with a token issued for
    the key of the user that was registered and with that user's row.  The
    digest stored on the row is the one made under that salt, and
    [check_password] accepts the password on the row. *)
Theorem login_after_register
    (salt : string) (data : RegisterData) (db : DB) (mail password : string)
    (u : User) :
  check_password_hash (generate_password_hash salt password) password = true ->
  reg_email data = Some mail ->
  reg_password data = Some password ->
  fst (run (register salt data) db) = (UserDump u, 201) ->
  fst (run_read (login {| login_email := Some mail;
                          login_password := Some password |})
                (snd (run (register salt data) db))) =
  (TokenAndUser (create_access_token (user_id u)) u, 200)
  /\ user_id u = next_id user_id (users db)
  /\ user_password_hash u = generate_password_hash salt password
  /\ check_password u password = true.
Proof.
  intros Hlaw Hmail Hpw. rewrite run_register, Hmail, Hpw.
  destruct (email_taken db mail) eqn:Htaken; [discriminate|].
  destruct (reg_username data) as [name|]; [|discriminate].
  destruct (username_taken db name); [discriminate|].
  cbv zeta. cbn [fst snd]. intros Hu. injection Hu as <-.
  rewrite run_read_login. cbn [fst login_email login_password user_id].
  assert (Hfind : forall x, user_by_email (with_user db x) (user_email x) = Some x
                            \/ user_email x <> mail).
  { intros x. destruct (string_dec (user_email x) mail) as [E|E]; [|now right].
    left. unfold user_by_email. cbn [with_user users]. rewrite find_after.
    replace (find _ (users db)) with (@None User).
    - cbn [find]. now rewrite String.eqb_refl.
    - symmetry. unfold email_taken in Htaken. rewrite E.
      destruct (find _ (users db)) as [y|] eqn:Hy; [|reflexivity].
      apply find_some in Hy. destruct Hy as [Hin Hy].
      assert (existsb (fun u0 => (user_email u0 =? mail)%string) (users db) = true)
        by (apply existsb_exists; eauto).
      congruence. }
  match goal with
  | |- context [user_by_email (with_user db ?x) mail] =>
      destruct (Hfind x) as [Hx|Hx]; [|now elim Hx]; cbn [user_email] in Hx;
      rewrite Hx
  end.
  unfold check_password. cbn [user_password_hash].
  rewrite Hlaw. now repeat split.
Qed.

(** ** Projects *)

Lemma run_create_project (now identity : Z) (data : ProjectData) (db : DB) :
  run (create_project now identity data) db =
  match data_title data, data_description data, data_budget data,
        query_get user_id (users db) identity with
  | Some title, Some description, Some budget, Some user =>
      let new_project :=
        {| project_id := next_id project_id (projects db);
           project_title := title;
           project_description := description;
           project_budget := budget;
           project_status := "open";
           project_created_at := now;
           project_client_id := identity;
           project_freelancer_id := None |} in
      ((ProjectDump new_project, 201), with_project db new_project)
  | Some _, Some _, Some _, None => ((HttpError "AttributeError", 500), db)
  | _, _, _, _ => ((HttpError "KeyError", 500), db)
  end.
Proof.
  unfold create_project, with_project.
  cbv beta iota zeta delta
    [run fresh_session bind ret raise query commit session_add item attr
     get_user_from_jwt insert_project fst snd working committed].
  destruct (data_title data); [|reflexivity].
  destruct (data_description data); [|reflexivity].
  destruct (data_budget data); [|reflexivity].
  destruct (query_get user_id (users db) identity) as [user|] eqn:Hu;
    [|reflexivity].
  destruct (query_get_some _ _ _ _ Hu) as [-> _]. reflexivity.
Qed.

Lemma run_read_get_project (id : Z) (db : DB) :
  run_read (get_project id) db =
  (match query_get project_id (projects db) id with
   | Some project => (Plain (ProjectDump project), 200)
   | None => (Plain (HttpError "Not Found"), 404)
   end, db).
Proof.
  unfold get_project.
  cbv beta iota zeta delta
    [run_read fresh_session bind ret raise query or_404 fst snd working
     committed].
  now destruct (query_get project_id (projects db) id).
Qed.


(** X15. Create-project succeeds exactly when the token belongs to a stored
    user and the body carries a title, a description and a budget.  The
    project it stores is open, has no freelancer, has the actor as client and
    the time of the request as creation time, and changes no other row; it
    can be fetched at once under its key, and the listing of open projects
    without filter contains it. *)
Theorem create_project_opens_a_project
    (now identity : Z) (data : ProjectData) (db : DB) :
  let result := run (create_project now identity data) db in
  (is_success (fst result) = true <->
   exists user title description budget,
     query_get user_id (users db) identity = Some user
     /\ data_title data = Some title
     /\ data_description data = Some description
     /\ data_budget data = Some budget)
  /\ (forall p,
        fst result = (ProjectDump p, 201) ->
        project_id p = next_id project_id (projects db)
        /\ data_title data = Some (project_title p)
        /\ data_description data = Some (project_description p)
        /\ data_budget data = Some (project_budget p)
        /\ project_status p = "open"
        /\ project_created_at p = now
        /\ project_client_id p = identity
        /\ project_freelancer_id p = None
        /\ snd result = with_project db p
        /\ run_read (get_project (project_id p)) (snd result) =
           ((Plain (ProjectDump p), 200), snd result)
        /\ In p (get_projects (snd result) None)).
Proof.
  cbv zeta. rewrite run_create_project.
  destruct (data_title data) as [title|]; [|settle].
  destruct (data_description data) as [description|]; [|settle].
  destruct (data_budget data) as [budget|]; [|settle].
  destruct (query_get user_id (users db) identity) as [user|]; [|settle].
  cbv zeta. split.
  - split; [intros _|reflexivity]. now exists user, title, description, budget.
  - intros p Hp. cbn [fst snd] in *. injection Hp as <-.
    repeat split.
    + rewrite run_read_get_project. cbn [with_project projects project_id].
      rewrite query_get_app, next_id_fresh. cbn [project_id].
      now rewrite Z.eqb_refl.
    + unfold get_projects.
      apply (Permutation_in _ (Permutation_sym (order_by_perm _))).
      apply filter_In. split; [|reflexivity].
      cbn [with_project projects]. apply in_or_app. right. now left.
Qed.

Lemma set_project_fields_again (p : Project) (data : ProjectData) :
  let p' :=
    set_project_fields p
      (get_default (data_title data) (project_title p))
      (get_default (data_description data) (project_description p))
      (get_default (data_budget data) (project_budget p))
      (get_default (data_status data) (project_status p)) in
  set_project_fields p'
    (get_default (data_title data) (project_title p'))
    (get_default (data_description data) (project_description p'))
    (get_default (data_budget data) (project_budget p'))
    (get_default (data_status data) (project_status p')) = p'.
Proof.
  cbv zeta. unfold set_project_fields. cbn.
  destruct (data_title data), (data_description data), (data_budget data),
    (data_status data); reflexivity.
Qed.

(** X16. Update-project by the project's client is a partial update: each of
    title, description, budget and status takes the value the body gives it
    and keeps its value when the body has none, and the updated project is
    what is found under the key afterwards.  Sending the same body a second
    time changes nothing more; and a body without any of the four fields
    changes nothing at all when the keys of the project table are distinct. *)
Theorem update_project_is_a_partial_update
    (identity id : Z) (data : ProjectData) (db : DB)
    (project : Project) (user : User) :
  query_get project_id (projects db) id = Some project ->
  query_get user_id (users db) identity = Some user ->
  project_client_id project = identity ->
  let result := run (update_project identity id data) db in
  (exists project',
     result = ((ProjectDump project', 200), store_project db project')
     /\ query_get project_id (projects (snd result)) id = Some project'
     /\ project_title project' =
        get_default (data_title data) (project_title project)
     /\ project_description project' =
        get_default (data_description data) (project_description project)
     /\ project_budget project' =
        get_default (data_budget data) (project_budget project)
     /\ project_status project' =
        get_default (data_status data) (project_status project)
     /\ users (snd result) = users db
     /\ bids (snd result) = bids db
     /\ reviews (snd result) = reviews db)
  /\ run (update_project identity id data) (snd result) = result
  /\ (NoDup (map project_id (projects db)) ->
      data_title data = None -> data_description data = None ->
      data_budget data = None -> data_status data = None ->
      snd result = db).
Proof.
  intros Hp Hu Hclient. cbv zeta.
  destruct (query_get_some _ _ _ _ Hp) as [Hpid Hin].
  rewrite (run_update_project _ _ _ _ _ _ Hp Hu), Hclient, Z.eqb_refl.
  cbv zeta. cbn [fst snd].
  set (project' := set_project_fields project _ _ _ _).
  assert (Hp' : query_get project_id (projects (store_project db project')) id
                = Some project').
  { now apply (store_project_lookup db id project). }
  split; [|split].
  - exists project'. now repeat split.
  - rewrite (run_update_project _ _ _ _ project' user Hp' Hu).
    change (project_client_id project') with (project_client_id project).
    rewrite Hclient, Z.eqb_refl. cbv zeta.
    unfold project'. rewrite set_project_fields_again. fold project'.
    f_equal. unfold store_project. cbn [users projects bids reviews].
    now rewrite merge_row_twice.
  - intros Hnd Ht Hd Hb Hs. unfold project'. rewrite Ht, Hd, Hb, Hs.
    cbn [get_default].
    replace (set_project_fields project (project_title project)
               (project_description project) (project_budget project)
               (project_status project)) with project by now destruct project.
    unfold store_project. rewrite (merge_row_id project_id _ _ Hnd Hin).
    now destruct db.
Qed.

(** ** Bids and reviews *)

Lemma place_bid_needs_rows (now identity id : Z) (data : BidData) (db : DB) :
  is_success (fst (run (place_bid now identity id data) db)) = true ->
  exists project user,
    query_get project_id (projects db) id = Some project /\
    query_get user_id (users db) identity = Some user.
Proof.
  destruct (query_get project_id (projects db) id) as [project|] eqn:Hp;
    destruct (query_get user_id (users db) identity) as [user|] eqn:Hu;
    try (intros _; now exists project, user);
    unfold place_bid;
    cbv beta iota zeta delta
      [run fresh_session bind ret raise query or_404 attr get_user_from_jwt
       fst snd working committed];
    rewrite ?Hp, ?Hu; cbn; discriminate.
Qed.

Lemma accept_bid_needs_rows (identity id : Z) (data : AcceptData) (db : DB) :
  is_success (fst (run (accept_bid identity id data) db)) = true ->
  exists project user,
    query_get project_id (projects db) id = Some project /\
    query_get user_id (users db) identity = Some user.
Proof.
  destruct (query_get project_id (projects db) id) as [project|] eqn:Hp;
    destruct (query_get user_id (users db) identity) as [user|] eqn:Hu;
    try (intros _; now exists project, user);
    unfold accept_bid;
    cbv beta iota zeta delta
      [run fresh_session bind ret raise query or_404 attr get_user_from_jwt
       fst snd working committed];
    rewrite ?Hp, ?Hu; cbn; discriminate.
Qed.

(** X17. Place-bid succeeds exactly when the project and the actor are
    stored, the actor has the freelancer flag, the project is open, the actor
    has no bid on it and the body carries an amount and a proposal; the
    amount itself is not examined. *)
Theorem place_bid_succeeds_exactly_when
    (now identity id : Z) (data : BidData) (db : DB) :
  is_success (fst (run (place_bid now identity id data) db)) = true <->
  exists project user amount proposal,
    query_get project_id (projects db) id = Some project
    /\ query_get user_id (users db) identity = Some user
    /\ user_is_freelancer user = true
    /\ project_status project = "open"
    /\ existing_bid db id identity = None
    /\ data_amount data = Some amount
    /\ data_proposal data = Some proposal.
Proof.
  split.
  - intros Hok.
    destruct (place_bid_needs_rows _ _ _ _ _ Hok) as (project & user & Hp & Hu).
    rewrite (run_place_bid _ _ _ _ _ _ _ Hp Hu) in Hok.
    destruct (user_is_freelancer user) eqn:Hflag; [|discriminate].
    destruct (String.eqb_spec (project_status project) "open") as [Ho|Ho];
      [|discriminate].
    cbn [negb] in Hok.
    destruct (existing_bid db id identity) eqn:He; [discriminate|].
    destruct (data_amount data) as [amount|]; [|discriminate].
    destruct (data_proposal data) as [proposal|]; [|discriminate].
    now exists project, user, amount, proposal.
  - intros (project & user & amount & proposal & Hp & Hu & Hflag & Ho & He
            & Ha & Hpr).
    rewrite (run_place_bid _ _ _ _ _ _ _ Hp Hu), Hflag, Ho, String.eqb_refl,
      He, Ha, Hpr.
    reflexivity.
Qed.

(** X18. Post-review succeeds exactly when the project and the actor are
    stored, the project is completed, the actor is its client or its
    freelancer, the other party has a nonzero key, the actor has no review of
    the project yet and the body carries a rating that the integer column
    holds, a signed 64-bit value.  The view itself checks no range, 1 to 5 or
    other: every such rating is stored as it comes.  With a rating outside
    the column's range and every other condition met, the INSERT fails: the
    answer is 500 and the database stays as it is. *)
Theorem post_review_succeeds_exactly_when
    (now identity id : Z) (data : ReviewData) (db : DB) :
  (is_success (fst (run (post_review now identity id data) db)) = true <->
   exists project user reviewee rating,
     query_get project_id (projects db) id = Some project
     /\ query_get user_id (users db) identity = Some user
     /\ project_status project = "completed"
     /\ counterpart project identity = Some (Some reviewee)
     /\ reviewee <> 0
     /\ existing_review db id identity = None
     /\ data_rating data = Some rating
     /\ - 2 ^ 63 <= rating < 2 ^ 63)
  /\ (forall review,
        fst (run (post_review now identity id data) db) =
        (ReviewDump review, 201) ->
        data_rating data = Some (review_rating review)
        /\ review_comment review = data_comment data
        /\ review_created_at review = now
        /\ review_id review = next_id review_id (reviews db))
  /\ (forall project user reviewee rating,
        query_get project_id (projects db) id = Some project ->
        query_get user_id (users db) identity = Some user ->
        project_status project = "completed" ->
        counterpart project identity = Some (Some reviewee) ->
        reviewee <> 0 ->
        existing_review db id identity = None ->
        data_rating data = Some rating ->
        rating < - 2 ^ 63 \/ 2 ^ 63 <= rating ->
        run (post_review now identity id data) db =
        ((HttpError "OverflowError", 500), db)).
Proof.
  split; [split|split].
  - intros Hok.
    destruct (post_review_needs_rows _ _ _ _ _ Hok) as (project & user & Hp & Hu).
    rewrite (run_post_review _ _ _ _ _ _ _ Hp Hu) in Hok.
    destruct (String.eqb_spec (project_status project) "completed") as [Hs|Hs];
      [|discriminate].
    cbn [negb] in Hok.
    destruct (counterpart project identity) as [[reviewee|]|] eqn:Hc;
      try discriminate.
    destruct (Z.eqb_spec reviewee 0) as [Hz|Hz]; [discriminate|].
    destruct (existing_review db id identity) eqn:He; [discriminate|].
    destruct (data_rating data) as [rating|]; [|discriminate].
    destruct (fits_integer rating) eqn:Hfit; [|discriminate].
    exists project, user, reviewee, rating.
    repeat split; auto; now apply fits_integer_spec.
  - intros (project & user & reviewee & rating & Hp & Hu & Hs & Hc & Hz & He
            & Hr & Hfit).
    apply fits_integer_spec in Hfit.
    rewrite (run_post_review _ _ _ _ _ _ _ Hp Hu), Hs, String.eqb_refl, Hc,
      He, Hr.
    replace (reviewee =? 0) with false by (symmetry; now apply Z.eqb_neq).
    cbn [negb]. cbv zeta. rewrite Hfit. reflexivity.
  - intros review Hok.
    destruct (post_review_needs_rows now identity id data db)
      as (project & user & Hp & Hu); [now rewrite Hok|].
    rewrite (run_post_review _ _ _ _ _ _ _ Hp Hu) in Hok.
    destruct (negb (project_status project =? "completed")%string);
      [discriminate|].
    destruct (counterpart project identity) as [[reviewee|]|]; try discriminate.
    destruct (reviewee =? 0); [discriminate|].
    destruct (existing_review db id identity); [discriminate|].
    destruct (data_rating data) as [rating|]; [|discriminate].
    destruct (fits_integer rating); [|discriminate].
    cbn [fst] in Hok. injection Hok as <-. now repeat split.
  - intros project user reviewee rating Hp Hu Hs Hc Hz He Hr Hout.
    assert (Hfit : fits_integer rating = false).
    { destruct (fits_integer rating) eqn:E; [|reflexivity].
      apply fits_integer_spec in E. lia. }
    rewrite (run_post_review _ _ _ _ _ _ _ Hp Hu), Hs, String.eqb_refl, Hc,
      He, Hr.
    replace (reviewee =? 0) with false by (symmetry; now apply Z.eqb_neq).
    cbn [negb]. cbv zeta. now rewrite Hfit.
Qed.

Lemma closed_refuses (db : DB) (id : Z) :
  closed db id ->
  (forall other data',
     is_success (fst (run (accept_bid other id data') db)) = false
     /\ snd (run (accept_bid other id data') db) = db)
  /\ (forall now other data',
        is_success (fst (run (place_bid now other id data') db)) = false
        /\ snd (run (place_bid now other id data') db) = db).
Proof.
  intros (p & Hp & Hs).
  assert (Hneg : negb (project_status p =? "open")%string = true).
  { apply negb_true_iff. now apply String.eqb_neq. }
  split.
  - intros other data'.
    destruct (query_get user_id (users db) other) as [user'|] eqn:Hu'.
    + rewrite (run_accept_bid _ _ _ _ _ _ Hp Hu').
      destruct (negb (project_client_id p =? other)); [now split|].
      rewrite Hneg. now split.
    + unfold accept_bid.
      cbv beta iota zeta delta
        [run fresh_session bind ret raise query or_404 attr get_user_from_jwt
         fst snd working committed].
      rewrite Hp, Hu'. now split.
  - intros now other data'.
    destruct (query_get user_id (users db) other) as [user'|] eqn:Hu'.
    + rewrite (run_place_bid _ _ _ _ _ _ _ Hp Hu').
      destruct (negb (user_is_freelancer user')); [now split|].
      rewrite Hneg. now split.
    + unfold place_bid.
      cbv beta iota zeta delta
        [run fresh_session bind ret raise query or_404 attr get_user_from_jwt
         fst snd working committed].
      rewrite Hp, Hu'. now split.
Qed.

Lemma closed_kept (now : Z) (req : Request) (db : DB) (id : Z) :
  closed db id -> reopens id req = false ->
  closed (snd (handle now req db)) id.
Proof.
  intros (p & Hp & Hs) Hre. unfold closed.
  destruct (handle_effect now req db)
    as [ req | salt data x | identity data x Hx | identity data x q
       | identity id' data q Hq Hclient
       | identity id' data q b Hq Hclient Hopen Hb Hbp
       | identity id' data q x b | identity id' data q x r ];
    try (exists p; cbn [with_user store_user with_bid projects];
         split; [exact Hp|exact Hs]).
  - exists p. cbn [with_project projects]. rewrite query_get_app, Hp.
    now split.
  - cbn [store_project projects].
    rewrite (merge_row_found project_id _ _ id p Hp).
    cbn [set_project_fields project_id].
    destruct (query_get_some _ _ _ _ Hq) as [Hk _]. rewrite Hk.
    destruct (Z.eqb_spec id id') as [E|E]; [|now exists p].
    eexists. split; [reflexivity|]. cbn [set_project_fields project_status].
    rewrite <- E in Hq, Hre. assert (q = p) by congruence. subst q.
    cbn [reopens] in Hre. rewrite Z.eqb_refl in Hre. cbn [andb] in Hre.
    destruct (data_status data) as [status|]; cbn [get_default]; [|exact Hs].
    now apply String.eqb_neq.
  - cbn [store_project projects].
    rewrite (merge_row_found project_id _ _ id p Hp).
    destruct (id =? _); [|now exists p].
    eexists. split; [reflexivity|]. cbn [set_project_assignment project_status].
    discriminate.
  - destruct (rest_after_ranking (review_reviewee_id r) (with_review db r))
      as (Hprojects & _). rewrite Hprojects. cbn [with_review projects].
    now exists p.
Qed.

Lemma closed_served (id : Z) (later : list (Z * Request)) (db : DB) :
  closed db id ->
  forallb (fun step => negb (reopens id (snd step))) later = true ->
  closed (serve later db) id.
Proof.
  revert db. induction later as [|[now req] later IH]; intros db Hc Hall;
    cbn [serve]; [exact Hc|].
  cbn [forallb snd] in Hall. apply andb_true_iff in Hall.
  destruct Hall as [Hre Hall]. apply negb_true_iff in Hre.
  apply IH; [|exact Hall]. now apply closed_kept.
Qed.

(** X19. An accepted project stays closed to bidding and to a second
    acceptance until its status is set back to [open]: after an accept-bid
    that succeeded the project is found under its key with status
    [in_progress]; and after any further requests, served one after another,
    none of which is an update-project on this project whose body sets the
    status to [open], the project is still stored with a status other than
    [open], and every accept-bid and every place-bid on it, by whatever user
    and with whatever body, fails and leaves the database as it is. *)
Theorem accepted_project_is_closed
    (identity id : Z) (data : AcceptData) (db : DB)
    (later : list (Z * Request)) :
  let db' := snd (run (accept_bid identity id data) db) in
  let db'' := serve later db' in
  is_success (fst (run (accept_bid identity id data) db)) = true ->
  forallb (fun step => negb (reopens id (snd step))) later = true ->
  (exists project',
     query_get project_id (projects db') id = Some project'
     /\ project_status project' = "in_progress")
  /\ (exists project'',
        query_get project_id (projects db'') id = Some project''
        /\ project_status project'' <> "open")
  /\ (forall other data',
        is_success (fst (run (accept_bid other id data') db'')) = false
        /\ snd (run (accept_bid other id data') db'') = db'')
  /\ (forall now other data',
        is_success (fst (run (place_bid now other id data') db'')) = false
        /\ snd (run (place_bid now other id data') db'') = db'').
Proof.
  cbv zeta. intros Hok Hall.
  assert (Hnow : exists project',
             query_get project_id
               (projects (snd (run (accept_bid identity id data) db))) id =
             Some project'
             /\ project_status project' = "in_progress").
  { destruct (accept_bid_needs_rows _ _ _ _ Hok) as (project & user & Hp & Hu).
    destruct (query_get_some _ _ _ _ Hp) as [Hpid _].
    rewrite (run_accept_bid _ _ _ _ _ _ Hp Hu) in *.
    destruct (negb (project_client_id project =? identity)); [discriminate|].
    destruct (negb (project_status project =? "open")%string); [discriminate|].
    destruct (match data_bid_id data with
              | Some k => query_get bid_id (bids db) k
              | None => None
              end) as [bid|]; [|discriminate].
    destruct (negb (bid_project_id bid =? id)); [discriminate|].
    cbv zeta in *. cbn [fst snd] in *.
    eexists. split; [now apply (store_project_lookup db id project)|].
    reflexivity. }
  assert (Hclosed : closed (serve later (snd (run (accept_bid identity id data) db)))
                           id).
  { apply closed_served; [|exact Hall].
    destruct Hnow as (project' & Hp' & Hs'). exists project'.
    split; [exact Hp'|]. rewrite Hs'. discriminate. }
  split; [exact Hnow|]. split; [exact Hclosed|].
  now apply closed_refuses.
Qed.

(** X20. A review cannot be repeated: right after a post-review that
    succeeded, a second post-review on the same project with the same token
    is answered 400 "You have already reviewed this project", whatever its
    body, and changes nothing. *)
Theorem second_review_is_refused
    (now identity id : Z) (data : ReviewData) (db : DB)
    (later : Z) (data' : ReviewData) :
  let db' := snd (run (post_review now identity id data) db) in
  is_success (fst (run (post_review now identity id data) db)) = true ->
  run (post_review later identity id data') db' =
  ((Msg "You have already reviewed this project", 400), db').
Proof.
  cbv zeta. intros Hok.
  destruct (post_review_needs_rows _ _ _ _ _ Hok) as (project & user & Hp & Hu).
  rewrite (run_post_review _ _ _ _ _ _ _ Hp Hu) in *.
  destruct (negb (project_status project =? "completed")%string) eqn:Hs;
    [discriminate|].
  destruct (counterpart project identity) as [[reviewee|]|] eqn:Hc;
    try discriminate.
  destruct (reviewee =? 0) eqn:Hz; [discriminate|].
  destruct (existing_review db id identity) eqn:He; [discriminate|].
  destruct (data_rating data) as [rating|]; [|discriminate].
  destruct (fits_integer rating); [|discriminate].
  cbv zeta in *. cbn [fst snd] in *.
  set (review := mkReview _ _ _ _ _ _ _).
  set (db' := exec (update_user_ranking reviewee) (with_review db review)).
  destruct (rest_after_ranking reviewee (with_review db review))
    as (Hprojects & _ & Hreviews). fold db' in Hprojects, Hreviews.
  assert (Hp' : query_get project_id (projects db') id = Some project).
  { now rewrite Hprojects. }
  assert (Hkept : users_kept db db').
  { unfold db'. rewrite exec_update_user_ranking.
    destruct (query_get user_id (users (with_review db review)) reviewee)
      as [x|] eqn:Hx; [|now apply users_kept_same].
    now apply (users_kept_store (with_review db review) reviewee x). }
  destruct (Hkept identity user Hu) as (user' & Hu' & _).
  rewrite (run_post_review _ _ _ _ _ _ _ Hp' Hu'), Hs, Hc, Hz.
  replace (existing_review db' id identity) with (Some review); [reflexivity|].
  unfold existing_review in *. rewrite Hreviews. cbn [with_review reviews].
  rewrite find_after, He. cbn [find review review_project_id review_reviewer_id].
  now rewrite !Z.eqb_refl.
Qed.

(** ** Profiles and reading *)

Lemma run_my_profile_put (identity : Z) (data : ProfileData) (db : DB) :
  run (my_profile_put identity data) db =
  match query_get user_id (users db) identity with
  | None => ((HttpError "AttributeError", 500), db)
  | Some user =>
      let user' :=
        set_profile user
          (match prof_bio data with Some b => Some b | None => user_bio user end)
          (match prof_skills data with
           | Some k => Some k
           | None => user_skills user
           end) in
      ((UserDump user', 200), store_user db user')
  end.
Proof.
  unfold my_profile_put.
  cbv beta iota zeta delta
    [run fresh_session bind ret raise query commit session_store attr
     get_user_from_jwt fst snd working committed].
  now destruct (query_get user_id (users db) identity).
Qed.

(** X21. A profile update changes the bio and the skills of the user the
    token names, each to the value the body gives it or to the one it had,
    and nothing else of that user; the GET branch of the same route then
    returns the updated row.  The projects, the bids and the reviews are
    untouched. *)
Theorem profile_update_round_trip
    (identity : Z) (data : ProfileData) (db : DB) (user : User) :
  query_get user_id (users db) identity = Some user ->
  exists user',
    run (my_profile_put identity data) db =
    ((UserDump user', 200), store_user db user')
    /\ user_bio user' =
       match prof_bio data with Some b => Some b | None => user_bio user end
    /\ user_skills user' =
       match prof_skills data with
       | Some k => Some k
       | None => user_skills user
       end
    /\ user_id user' = user_id user
    /\ user_username user' = user_username user
    /\ user_email user' = user_email user
    /\ user_password_hash user' = user_password_hash user
    /\ user_is_freelancer user' = user_is_freelancer user
    /\ user_ranking_score user' = user_ranking_score user
    /\ run_read (my_profile_get identity) (store_user db user') =
       ((MaybeUserDump (Some user'), 200), store_user db user').
Proof.
  intros Hu. rewrite run_my_profile_put, Hu. cbv zeta.
  eexists. split; [reflexivity|]. repeat split.
  unfold my_profile_get.
  cbv beta iota zeta delta
    [run_read fresh_session bind ret query get_user_from_jwt fst snd working
     committed].
  destruct (query_get_some _ _ _ _ Hu) as [Hk _].
  erewrite (store_user_lookup db identity user); [reflexivity|exact Hu|exact Hk].
Qed.

(** X22. Whatever the skill filter, wildcards included, the listing returns
    only stored projects whose status is [open], newest first, and only
    projects that the listing without filter returns too.  Without a filter,
    or with the empty one, it returns every open project, each once.  The
    view answers 200 with that list and writes nothing. *)
Theorem get_projects_lists_open_projects (db : DB) (skill : option string) :
  newest_first (get_projects db skill)
  /\ (forall p, In p (get_projects db skill) ->
        In p (projects db) /\ project_status p = "open"
        /\ In p (get_projects db None))
  /\ (skill = None \/ skill = Some "" ->
      Permutation (get_projects db skill)
        (filter (fun p => (project_status p =? "open")%string) (projects db)))
  /\ run_read (get_projects_view skill) db =
     ((ProjectsDump (get_projects db skill), 200), db).
Proof.
  split; [apply order_by_sorted|]. split; [|split; [|reflexivity]].
  - intros p Hp. unfold get_projects in *.
    apply (Permutation_in _ (order_by_perm _)) in Hp.
    assert (Hopen : In p (filter (fun p => (project_status p =? "open")%string)
                                 (projects db))).
    { destruct skill as [s|]; [|exact Hp].
      destruct (truthy_string (Some s)); [|exact Hp].
      now apply filter_In in Hp. }
    pose proof Hopen as Hopen'. apply filter_In in Hopen'.
    destruct Hopen' as [Hin Hs]. apply String.eqb_eq in Hs.
    repeat split; auto.
    now apply (Permutation_in _ (Permutation_sym (order_by_perm _))).
  - intros [->| ->]; unfold get_projects; cbn [truthy_string String.eqb negb];
      apply order_by_perm.
Qed.


(** ** What the nested users give away *)

Lemma nested_user_public (db : DB) (uid : Z) :
  nested_user (public_db db) uid = nested_user db uid.
Proof.
  unfold nested_user, public_db. cbn [users].
  rewrite (query_get_map user_id public_part) by reflexivity.
  now destruct (query_get user_id (users db) uid).
Qed.

Lemma review_dump_public (db : DB) (r : Review) :
  review_dump (public_db db) r = review_dump db r.
Proof. unfold review_dump. now rewrite !nested_user_public. Qed.

Lemma bid_dump_public (db : DB) (b : Bid) :
  bid_dump (public_db db) b = bid_dump db b.
Proof. unfold bid_dump. now rewrite !nested_user_public. Qed.

Lemma render_public (db : DB) (b : Body) :
  (forall u, b <> UserDump u) ->
  render (public_db db) b = render db b.
Proof.
  intros Hb. destruct b; cbn [render]; try reflexivity.
  - now elim (Hb u).
  - unfold project_dump. rewrite !nested_user_public.
    rewrite (map_ext _ _ (bid_dump_public db)).
    rewrite (map_ext _ _ (review_dump_public db)).
    destruct (project_freelancer_id p); [now rewrite nested_user_public|reflexivity].
  - apply bid_dump_public.
  - apply review_dump_public.
Qed.

Lemma private_not_nested (db : DB) (uid : Z) (k : string) :
  private_field k -> has_key k (nested_user db uid) = false.
Proof.
  unfold nested_user.
  intros [->|[->|[->| ->]]]; now destruct (query_get user_id (users db) uid).
Qed.

Lemma private_not_in_review (db : DB) (r : Review) (k : string) :
  private_field k -> has_key k (review_dump db r) = false.
Proof.
  intros Hk. unfold review_dump. cbn [has_key existsb].
  rewrite !(private_not_nested db _ k Hk).
  destruct Hk as [->|[->|[->| ->]]]; now destruct (review_comment r).
Qed.

Lemma private_not_in_bid (db : DB) (b : Bid) (k : string) :
  private_field k -> has_key k (bid_dump db b) = false.
Proof.
  intros Hk. unfold bid_dump. cbn [has_key existsb].
  rewrite !(private_not_nested db _ k Hk).
  now destruct Hk as [->|[->|[->| ->]]].
Qed.

Lemma private_not_in_array {A : Type} (f : A -> json) (l : list A) (k : string) :
  (forall a, has_key k (f a) = false) ->
  existsb (has_key k) (map f l) = false.
Proof.
  intros Hf. induction l as [|a l IH]; cbn [map existsb]; [reflexivity|].
  now rewrite Hf, IH.
Qed.

(** X24. A project, a bid or a review sent to a client shows of each user it
    nests only the key, the username, the freelancer flag and the ranking
    score: such a body is the same for two databases that differ only in
    the emails, bios, skills and password digests of their users, and it has
    no field named [email], [bio], [skills] or [password_hash] at any
    depth. *)
Theorem nested_users_show_public_fields_only
    (db1 db2 : DB) (b : Body) (k : string) :
  public_db db1 = public_db db2 ->
  (forall u, b <> UserDump u) ->
  private_field k ->
  render db1 b = render db2 b /\ has_key k (render db1 b) = false.
Proof.
  intros Hdb Hb Hk. split.
  - rewrite <- (render_public db1 b Hb), <- (render_public db2 b Hb).
    now rewrite Hdb.
  - destruct b; cbn [render].
    + now destruct Hk as [->|[->|[->| ->]]].
    + now elim (Hb u).
    + unfold project_dump. cbn [has_key existsb].
      rewrite (private_not_in_array _ _ k (fun r => private_not_in_review db1 r k Hk)).
      rewrite (private_not_in_array _ _ k (fun x => private_not_in_bid db1 x k Hk)).
      rewrite !(private_not_nested db1 _ k Hk).
      destruct (project_freelancer_id p); cbn [nullable has_key];
        rewrite ?(private_not_nested db1 _ k Hk);
        now destruct Hk as [->|[->|[->| ->]]].
    + now apply private_not_in_bid.
    + now apply private_not_in_review.
    + now destruct Hk as [->|[->|[->| ->]]].
Qed.

End ViewFacts.

(** * The theorems at work on the scenario *)

#[local] Existing Instance Exact.runtime.

Import Scenario.

Lemma post_review_sets_ranking_score_witness :
  fst (run (post_review 18 alice 3 (review_data 4)) db_third_completed) =
  (ReviewDump third_review, 201)
  /\ In frank_ranked
        (users (snd (run (post_review 18 alice 3 (review_data 4))
                         db_third_completed)))
  /\ map (fun r => (review_reviewee_id r, review_rating r))
         (reviews db_third_completed) = [(frank, 5); (alice, 2); (frank, 4)]
  /\ user_ranking_score frank_ranked =
     mean_rounded
       (ratings_for (user_id frank_ranked)
          (reviews (snd (run (post_review 18 alice 3 (review_data 4))
                             db_third_completed))))
  /\ user_ranking_score frank_ranked = (433 # 100)%Q.
Proof.
  assert (h1 : fst (run (post_review 18 alice 3 (review_data 4))
                        db_third_completed) = (ReviewDump third_review, 201))
    by (vm_compute; reflexivity).
  assert (h2 : In frank_ranked
                 (users (snd (run (post_review 18 alice 3 (review_data 4))
                                  db_third_completed))))
    by (vm_compute; right; now left).
  split; [exact h1|split; [exact h2|]].
  split; [vm_compute; reflexivity|]. split; [|reflexivity].
  exact (proj2 (proj1 (post_review_sets_ranking_score db_third_completed)
                  18 alice 3 (review_data 4) third_review frank_ranked
                  h1 h2 eq_refl)).
Defined.

Lemma uniqueness_enforced_where_declared_witness :
  insert_user db_users alice_row = None
  /\ exists db', insert_bid db_bidding frank_bid_again = Some db'.
Proof.
  destruct (uniqueness_enforced_where_declared db_users) as [Huser _].
  destruct (uniqueness_enforced_where_declared db_bidding) as (_ & Hbid & _).
  split.
  - apply (Huser alice_row alice_row); [vm_compute; now left|now left].
  - destruct (Hbid frank_bid_again) as (db' & Hins & _). now exists db'.
Defined.

(** C2 fails as stated: the store takes a second bid row for a (project,
    freelancer) pair it already holds, and a second review row for a
    (project, reviewer) pair it already holds. *)
Lemma duplicate_pairs_are_stored :
  In frank_bid (bids db_bidding)
  /\ bid_project_id frank_bid_again = bid_project_id frank_bid
  /\ bid_freelancer_id frank_bid_again = bid_freelancer_id frank_bid
  /\ option_map bids (insert_bid db_bidding frank_bid_again) =
     Some [frank_bid; frank_bid_again]
  /\ In alice_review (reviews db_reviewed)
  /\ review_project_id alice_review_again = review_project_id alice_review
  /\ review_reviewer_id alice_review_again = review_reviewer_id alice_review
  /\ option_map reviews (insert_review db_reviewed alice_review_again) =
     Some [alice_review; alice_review_again].
Proof.
  repeat split; vm_compute; auto.
Qed.

Lemma lifecycle_invariant_witness :
  reachable keeps_assignment_side db_completed
  /\ lifecycle_invariant db_completed.
Proof.
  assert (h : reachable keeps_assignment_side db_completed).
  { unfold db_completed, db_in_progress, db_bidding, db_created, db_users, after.
    repeat (apply reachable_step; [|try exact I]); [apply reachable_empty|].
    intros status project Hst Hp. injection Hst as <-.
    vm_compute in Hp. injection Hp as <-. reflexivity. }
  split; [exact h|].
  exact (lifecycle_invariant_without_status_jumps db_completed h).
Defined.

(** C3 fails as stated: an update-project request that sets the status to
    [completed] on a fresh project is served, and leaves a completed project
    without freelancer. *)
Lemma status_jump_breaks_lifecycle :
  reachable any_request db_jumped
  /\ In (project_row "completed" None) (projects db_jumped)
  /\ ~ lifecycle_invariant db_jumped.
Proof.
  assert (Hin : In (project_row "completed" None) (projects db_jumped))
    by (vm_compute; now left).
  split; [|split; [exact Hin|]].
  - unfold db_jumped, db_created, db_users, after.
    repeat (apply reachable_step; [|exact I]). apply reachable_empty.
  - intros Hinv. specialize (Hinv _ Hin). vm_compute in Hinv. discriminate.
Qed.

Lemma accept_bid_witness :
  query_get project_id (projects db_bidding) landing_page =
  Some (project_row "open" None)
  /\ query_get user_id (users db_bidding) alice = Some alice_row
  /\ run (accept_bid alice landing_page {| data_bid_id := Some 1 |}) db_bidding =
     ((ProjectDump (project_row "in_progress" (Some frank)), 200), db_in_progress).
Proof.
  assert (h1 : query_get project_id (projects db_bidding) landing_page =
               Some (project_row "open" None)) by reflexivity.
  assert (h2 : query_get user_id (users db_bidding) alice = Some alice_row)
    by reflexivity.
  split; [exact h1|split; [exact h2|]].
  destruct (accept_bid_succeeds_exactly_when alice landing_page
              {| data_bid_id := Some 1 |} db_bidding _ _ h1 h2)
    as (_ & Hok & _).
  assert (h3 : referenced_bid db_bidding {| data_bid_id := Some 1 |} =
               Some frank_bid) by reflexivity.
  destruct (Hok frank_bid eq_refl eq_refl h3 eq_refl) as [Hres _].
  rewrite Hres. vm_compute. reflexivity.
Defined.

Lemma failed_request_witness :
  is_success (fst (handle 5 (AcceptBid (Some frank) landing_page
                               {| data_bid_id := Some 1 |}) db_bidding)) = false
  /\ snd (handle 5 (AcceptBid (Some frank) landing_page
                      {| data_bid_id := Some 1 |}) db_bidding) = db_bidding.
Proof.
  assert (h : is_success (fst (handle 5 (AcceptBid (Some frank) landing_page
                {| data_bid_id := Some 1 |}) db_bidding)) = false)
    by reflexivity.
  split; [exact h|].
  exact (proj1 (failed_request_leaves_db_unchanged 5 _ db_bidding h)).
Defined.

Lemma get_projects_witness :
  literal (list_ascii_of_string "react")
  /\ In (project_row "open" None) (get_projects db_bidding (Some "react")).
Proof.
  assert (h : literal (list_ascii_of_string "react")) by reflexivity.
  split; [exact h|].
  destruct (get_projects_with_literal_filter db_bidding "react" h)
    as (_ & _ & Hiff).
  apply Hiff. split; [vm_compute; now left|]. split; [reflexivity|].
  exists (list_ascii_of_string "Need a "), (list_ascii_of_string "React"),
    (list_ascii_of_string " developer").
  split; reflexivity.
Defined.

(** C6 fails as stated: the filter [R_act] selects a project whose
    description does not contain it. *)
Lemma like_wildcard_selects_non_substring :
  In (project_row "open" None) (get_projects db_bidding (Some "R_act"))
  /\ project_status (project_row "open" None) = "open"
  /\ substring_ci "R_act" (project_description (project_row "open" None)) = false.
Proof.
  repeat split; vm_compute; auto.
Qed.


Lemma place_bid_witness :
  query_get project_id (projects db_bidding) landing_page =
  Some (project_row "open" None)
  /\ query_get user_id (users db_bidding) frank = Some frank_row
  /\ fst (run (place_bid 5 frank landing_page bid_data) db_bidding) =
     (Msg "You have already placed a bid on this project", 400).
Proof.
  assert (h1 : query_get project_id (projects db_bidding) landing_page =
               Some (project_row "open" None)) by reflexivity.
  assert (h2 : query_get user_id (users db_bidding) frank = Some frank_row)
    by reflexivity.
  split; [exact h1|split; [exact h2|]].
  destruct (place_bid_guards 5 frank landing_page bid_data db_bidding _ _ h1 h2)
    as (_ & Hdup).
  assert (h3 : In frank_bid (bids db_bidding)) by (vm_compute; now left).
  destruct (Hdup frank_bid eq_refl h3 eq_refl eq_refl) as (_ & _ & Hmsg & _).
  exact (Hmsg eq_refl).
Defined.

(** C8 fails as stated: once the project is no longer open, a freelancer who
    has a bid on it and bids again is told that the project is not open, not
    that the bid is a duplicate. *)
Lemma second_bid_on_closed_project :
  query_get user_id (users db_in_progress) frank = Some frank_row
  /\ user_is_freelancer frank_row = true
  /\ In frank_bid (bids db_in_progress)
  /\ bid_project_id frank_bid = landing_page
  /\ bid_freelancer_id frank_bid = frank
  /\ run (place_bid 6 frank landing_page bid_data) db_in_progress =
     ((Msg "Project is not open for bidding", 400), db_in_progress)
  /\ fst (run (place_bid 6 frank landing_page bid_data) db_in_progress) <>
     (Msg "You have already placed a bid on this project", 400).
Proof.
  repeat split; try (vm_compute; auto; fail).
  vm_compute. discriminate.
Qed.

Lemma dumps_omit_password_hash_witness :
  scrub_user alice_row = scrub_user (rehash alice_row)
  /\ scrub_db db_reviewed = scrub_db db_rehashed
  /\ user_dump db_reviewed alice_row = user_dump db_rehashed (rehash alice_row).
Proof.
  assert (h1 : scrub_user alice_row = scrub_user (rehash alice_row))
    by reflexivity.
  assert (h2 : scrub_db db_reviewed = scrub_db db_rehashed)
    by reflexivity.
  split; [exact h1|split; [exact h2|]].
  exact (proj1 (dumps_omit_password_hash db_reviewed db_rehashed alice_row
                  (rehash alice_row) (UserDump alice_row)
                  (UserDump (rehash alice_row)) h1 h2 eq_refl)).
Defined.

Lemma self_hire_witness :
  query_get project_id (projects db_created) landing_page =
  Some (project_row "open" None)
  /\ query_get user_id (users db_created) alice = Some alice_row
  /\ exists review db3 db4,
       run (post_review 7 alice landing_page (review_data 5)) db3 =
       ((ReviewDump review, 201), db4)
       /\ review_reviewer_id review = alice
       /\ review_reviewee_id review = alice.
Proof.
  assert (h1 : query_get project_id (projects db_created) landing_page =
               Some (project_row "open" None)) by reflexivity.
  assert (h2 : query_get user_id (users db_created) alice = Some alice_row)
    by reflexivity.
  assert (h3 : alice <> 0) by discriminate.
  assert (h4 : existing_bid db_created landing_page alice = None)
    by reflexivity.
  assert (h5 : existing_review db_created landing_page alice = None)
    by reflexivity.
  split; [exact h1|split; [exact h2|]].
  destruct (client_can_hire_and_review_themselves alice landing_page 4 7
              db_created _ _ bid_data (inject_Z 90) "I can do it"
              (status_only "completed") (review_data 5) 5 h1 h2 h3
              eq_refl eq_refl eq_refl h4 h5 eq_refl eq_refl eq_refl eq_refl
              eq_refl)
    as (bid & db1 & accepted & db2 & completed & db3 & review & db4 &
        _ & _ & _ & _ & _ & _ & _ & R4 & Hrev & Hree & _).
  exists review, db3, db4. now repeat split.
Defined.

(** C10 fails as stated: Alice, who carries the freelancer flag, is the
    client of the reopened project and has no bid on it; she places a bid,
    accepts it and completes the project, and her review is then refused,
    because she reviewed this project before it was reopened. *)
Lemma self_review_refused_after_earlier_review :
  query_get user_id (users db_reopened) alice = Some alice_row
  /\ user_is_freelancer alice_row = true
  /\ query_get project_id (projects db_reopened) landing_page =
     Some (project_row "open" (Some frank))
  /\ existing_bid db_reopened landing_page alice = None
  /\ snd (fst (handle 9 (PlaceBid (Some alice) landing_page bid_data)
                      db_reopened)) = 201
  /\ query_get project_id (projects db_self_hired) landing_page =
     Some (project_row "completed" (Some alice))
  /\ handle 12 (PostReview (Some alice) landing_page (review_data 4))
            db_self_hired =
     ((Msg "You have already reviewed this project", 400), db_self_hired).
Proof.
  repeat split; vm_compute; reflexivity.
Qed.

(** * The further theorems at work on the scenario *)

#[local] Existing Instance ExactAuth.runtime.
Import Accounts.

Lemma db_reviewed_reachable : reachable any_request db_reviewed.
Proof.
  unfold db_reviewed, db_completed, db_in_progress, db_bidding, db_created,
    db_users, after.
  repeat (apply reachable_step; [|exact I]). apply reachable_empty.
Defined.

Lemma reachable_keys_identify_rows_witness :
  reachable any_request db_reviewed
  /\ 0 < user_id frank_reviewed
  /\ query_get user_id (users db_reviewed) (user_id frank_reviewed) =
     Some frank_reviewed.
Proof.
  split; [exact db_reviewed_reachable|].
  apply (proj1 (reachable_keys_identify_rows db_reviewed db_reviewed_reachable)).
  vm_compute. right. now left.
Defined.

Lemma reachable_references_resolve_witness :
  reachable any_request db_reviewed
  /\ exists u, In u (users db_reviewed)
               /\ user_id u = review_reviewee_id alice_review.
Proof.
  split; [exact db_reviewed_reachable|].
  destruct (reachable_references_resolve db_reviewed db_reviewed_reachable)
    as (_ & _ & Hr).
  apply (Hr alice_review). vm_compute. now left.
Defined.

Lemma reachable_usernames_and_emails_unique_witness :
  reachable any_request db_reviewed
  /\ In alice_row (users db_reviewed)
  /\ alice_row = alice_row.
Proof.
  assert (h : In alice_row (users db_reviewed)) by (vm_compute; now left).
  split; [exact db_reviewed_reachable|split; [exact h|]].
  exact (reachable_usernames_and_emails_unique db_reviewed alice_row alice_row
           db_reviewed_reachable h h (or_introl eq_refl)).
Defined.

Lemma reachable_one_bid_and_one_review_per_pair_witness :
  reachable any_request db_reviewed
  /\ In frank_bid (bids db_reviewed)
  /\ frank_bid = frank_bid.
Proof.
  assert (h : In frank_bid (bids db_reviewed)) by (vm_compute; now left).
  split; [exact db_reviewed_reachable|split; [exact h|]].
  exact (proj1 (reachable_one_bid_and_one_review_per_pair db_reviewed
                  db_reviewed_reachable) frank_bid frank_bid h h eq_refl eq_refl).
Defined.

Lemma reachable_rankings_are_current_witness :
  reachable any_request db_reviewed
  /\ In frank_reviewed (users db_reviewed)
  /\ user_ranking_score frank_reviewed =
     mean_rounded (ratings (reviews_received db_reviewed (user_id frank_reviewed))).
Proof.
  assert (h : In frank_reviewed (users db_reviewed))
    by (vm_compute; right; now left).
  split; [exact db_reviewed_reachable|split; [exact h|]].
  exact (reachable_rankings_are_current db_reviewed frank_reviewed
           db_reviewed_reachable h).
Defined.

Lemma reachable_bidders_are_freelancers_witness :
  reachable any_request db_reviewed
  /\ exists u, In u (users db_reviewed)
               /\ user_id u = bid_freelancer_id frank_bid
               /\ user_is_freelancer u = true.
Proof.
  split; [exact db_reviewed_reachable|].
  apply (proj1 (reachable_bidders_are_freelancers db_reviewed
                  db_reviewed_reachable)).
  vm_compute. now left.
Defined.

Lemma user_identity_never_changes_witness :
  query_get user_id (users db_completed) frank = Some frank_row
  /\ exists u',
       query_get user_id (users db_reviewed) frank = Some u'
       /\ user_username u' = user_username frank_row
       /\ user_password_hash u' = user_password_hash frank_row.
Proof.
  assert (h : query_get user_id (users db_completed) frank = Some frank_row)
    by reflexivity.
  split; [exact h|].
  destruct (user_identity_never_changes 7
              (PostReview (Some alice) landing_page (review_data 5))
              db_completed frank frank_row h)
    as (u' & Hu' & Hn & _ & Hp & _).
  exists u'. split; [exact Hu'|]. split; [exact Hn|exact Hp].
Defined.

Lemma project_changes_only_by_its_client_witness :
  query_get project_id (projects db_bidding) landing_page =
  Some (project_row "open" None)
  /\ exists p',
       query_get project_id (projects db_in_progress) landing_page = Some p'
       /\ project_client_id p' = alice.
Proof.
  assert (h : query_get project_id (projects db_bidding) landing_page =
              Some (project_row "open" None)) by reflexivity.
  split; [exact h|].
  destruct (project_changes_only_by_its_client 5
              (AcceptBid (Some alice) landing_page {| data_bid_id := Some 1 |})
              db_bidding landing_page _ h)
    as (p' & Hp' & _ & Hc & _).
  now exists p'.
Defined.

Lemma login_after_register_witness :
  check_password_hash (generate_password_hash "x7Qa" "pass123") "pass123" = true
  /\ fst (run (register "x7Qa" alice_registration) empty_db) =
     (UserDump alice_row, 201)
  /\ fst (run_read (login alice_login)
                   (snd (run (register "x7Qa" alice_registration) empty_db))) =
     (TokenAndUser (create_access_token (user_id alice_row)) alice_row, 200).
Proof.
  assert (h1 : check_password_hash (generate_password_hash "x7Qa" "pass123")
                                   "pass123" = true) by reflexivity.
  assert (h2 : fst (run (register "x7Qa" alice_registration) empty_db) =
               (UserDump alice_row, 201)) by reflexivity.
  split; [exact h1|split; [exact h2|]].
  exact (proj1 (login_after_register "x7Qa" alice_registration empty_db
                  "alice@client.com" "pass123" alice_row h1 eq_refl eq_refl h2)).
Defined.

Lemma update_project_is_a_partial_update_witness :
  query_get project_id (projects db_in_progress) landing_page =
  Some (project_row "in_progress" (Some frank))
  /\ query_get user_id (users db_in_progress) alice = Some alice_row
  /\ run (update_project alice landing_page (status_only "completed"))
         db_completed =
     run (update_project alice landing_page (status_only "completed"))
         db_in_progress.
Proof.
  assert (h1 : query_get project_id (projects db_in_progress) landing_page =
               Some (project_row "in_progress" (Some frank))) by reflexivity.
  assert (h2 : query_get user_id (users db_in_progress) alice = Some alice_row)
    by reflexivity.
  split; [exact h1|split; [exact h2|]].
  exact (proj1 (proj2 (update_project_is_a_partial_update alice landing_page
                         (status_only "completed") db_in_progress _ _
                         h1 h2 eq_refl))).
Defined.

Lemma accepted_project_is_closed_witness :
  is_success (fst (run (accept_bid alice landing_page {| data_bid_id := Some 1 |})
                       db_bidding)) = true
  /\ serve [(6, UpdateProject (Some alice) landing_page (status_only "completed"));
            (7, PostReview (Some alice) landing_page (review_data 5))]
           db_in_progress = db_reviewed
  /\ is_success (fst (run (place_bid 8 frank landing_page bid_data)
                          db_reviewed)) = false.
Proof.
  assert (h : is_success (fst (run (accept_bid alice landing_page
                 {| data_bid_id := Some 1 |}) db_bidding)) = true)
    by reflexivity.
  split; [exact h|]. split; [reflexivity|].
  destruct (accepted_project_is_closed alice landing_page
              {| data_bid_id := Some 1 |} db_bidding
              [(6, UpdateProject (Some alice) landing_page
                     (status_only "completed"));
               (7, PostReview (Some alice) landing_page (review_data 5))]
              h eq_refl) as (_ & _ & _ & Hbid).
  exact (proj1 (Hbid 8 frank bid_data)).
Defined.

Lemma second_review_is_refused_witness :
  is_success (fst (run (post_review 7 alice landing_page (review_data 5))
                       db_completed)) = true
  /\ run (post_review 8 alice landing_page (review_data 1)) db_reviewed =
     ((Msg "You have already reviewed this project", 400), db_reviewed).
Proof.
  assert (h : is_success (fst (run (post_review 7 alice landing_page
                 (review_data 5)) db_completed)) = true) by reflexivity.
  split; [exact h|].
  exact (second_review_is_refused 7 alice landing_page (review_data 5)
           db_completed 8 (review_data 1) h).
Defined.

Lemma profile_update_round_trip_witness :
  query_get user_id (users db_users) alice = Some alice_row
  /\ exists user',
       run (my_profile_put alice hiring) db_users =
       ((UserDump user', 200), store_user db_users user')
       /\ user_bio user' = Some "Hiring"
       /\ user_skills user' = None.
Proof.
  assert (h : query_get user_id (users db_users) alice = Some alice_row)
    by reflexivity.
  split; [exact h|].
  destruct (profile_update_round_trip alice hiring db_users alice_row h) as (user' & Hrun & Hbio & Hskills & _).
  exists user'. now repeat split.
Defined.


Lemma nested_users_show_public_fields_only_witness :
  public_db db_reviewed = public_db db_rehashed
  /\ private_field "email"
  /\ has_key "email"
       (render db_reviewed (ProjectDump (project_row "completed" (Some frank)))) =
     false.
Proof.
  assert (h1 : public_db db_reviewed = public_db db_rehashed) by reflexivity.
  assert (h2 : private_field "email") by (right; now left).
  split; [exact h1|split; [exact h2|]].
  exact (proj2 (nested_users_show_public_fields_only db_reviewed db_rehashed
                  (ProjectDump (project_row "completed" (Some frank))) "email"
                  h1 ltac:(discriminate) h2)).
Defined.
